(** * Automated Table Views: filter compiler, option discovery, pagination

    A shallow embedding of the backend of the table-view service
    (the Express server with its [/api/page-data] handler and the
    schema flattening of its table explorer,
    [utils/generateFilterConfig.js], [utils/formatTableHeaders.js] and
    [pageDefinitions.js]) together with the properties of its filter
    model.

    Conventions of the embedding.
    - JavaScript strings are Stdlib strings.  Case mapping, white space
      and numeric syntax are those of ASCII, and every other character
      is left as it is: the model agrees with the language on strings
      of ASCII characters ([isAscii]), and the properties that rest on
      case mapping, white space or numeric syntax are stated for those.
    - JavaScript numbers are exact decimals [m * 10^e] with [NaN] and the
      two infinities; rounding to binary64 is not part of the model, so
      [Number] and number-to-string conversion agree with the language
      on numerals of up to 15 significant digits within the range of a
      double.  Negative zero is identified with zero: no operation used
      here tells them apart.  Page numbers and page sizes are integers,
      and the arithmetic on them is exact: it agrees with the code's
      floating-point arithmetic while the values stay below [2^53].
    - Objects used as dictionaries (the page catalog, the filter
      definitions of a request, result rows) are association lists of
      their own properties, in [Object.entries] order.  A read by key
      on the page catalog and on the header overrides, which are plain
      objects, finds the members of [Object.prototype] where the object
      has no property of its own ([objectPrototypeNames]).
    - The store (BigQuery) is an oracle answering each call with a
      result or a thrown error; every call the code makes is recorded
      in a trace. *)

From Stdlib Require Import String Ascii List ZArith Lia Bool DecimalString.
Import ListNotations.

Local Open Scope string_scope.
Local Open Scope Z_scope.

(** ** The JavaScript runtime used by the server *)

Module Js.

(** *** Strings *)

Definition charCode (c : ascii) : Z := Z.of_N (N_of_ascii c).

Definition isUpper (c : ascii) : bool := (65 <=? charCode c) && (charCode c <=? 90).
Definition isLower (c : ascii) : bool := (97 <=? charCode c) && (charCode c <=? 122).
Definition isDigit (c : ascii) : bool := (48 <=? charCode c) && (charCode c <=? 57).

Definition upperChar (c : ascii) : ascii :=
  if isLower c then ascii_of_N (N_of_ascii c - 32) else c.
Definition lowerChar (c : ascii) : ascii :=
  if isUpper c then ascii_of_N (N_of_ascii c + 32) else c.

Fixpoint mapString (f : ascii -> ascii) (s : string) : string :=
  match s with
  | EmptyString => EmptyString
  | String c r => String (f c) (mapString f r)
  end.

(** [s.toUpperCase()] and [s.toLowerCase()] on the ASCII letters; the
    language also maps letters outside ASCII, which these leave as they
    are. *)
Definition toUpperCase : string -> string := mapString upperChar.
Definition toLowerCase : string -> string := mapString lowerChar.

(** [parts.join(sep)] on an array of strings. *)
Fixpoint join (sep : string) (parts : list string) : string :=
  match parts with
  | [] => ""
  | [p] => p
  | p :: rest => p ++ sep ++ join sep rest
  end.

(** [xs.includes(x)] on an array of strings. *)
Definition includes (xs : list string) (x : string) : bool :=
  existsb (String.eqb x) xs.

(** [s.replace(/c/g, by)] for a single character [c]. *)
Fixpoint replaceAllChar (c : ascii) (by_ : string) (s : string) : string :=
  match s with
  | EmptyString => EmptyString
  | String d r =>
      if Ascii.eqb d c then by_ ++ replaceAllChar c by_ r
      else String d (replaceAllChar c by_ r)
  end.

(** [s.startsWith(p)]. *)
Fixpoint startsWith (p s : string) : bool :=
  match p, s with
  | EmptyString, _ => true
  | String a p', String b s' => Ascii.eqb a b && startsWith p' s'
  | String _ _, EmptyString => false
  end.

(** Substring search: does [needle] occur in [s]? *)
Fixpoint contains (needle s : string) : bool :=
  startsWith needle s ||
  match s with
  | EmptyString => false
  | String _ r => contains needle r
  end.

Fixpoint span (p : ascii -> bool) (s : string) : string * string :=
  match s with
  | EmptyString => (EmptyString, EmptyString)
  | String c r =>
      if p c then let (a, b) := span p r in (String c a, b)
      else (EmptyString, s)
  end.

Fixpoint repeatChar (c : ascii) (n : nat) : string :=
  match n with
  | O => EmptyString
  | S k => String c (repeatChar c k)
  end.

Fixpoint takeString (n : nat) (s : string) : string :=
  match n, s with
  | S k, String c r => String c (takeString k r)
  | _, _ => EmptyString
  end.

Fixpoint dropString (n : nat) (s : string) : string :=
  match n, s with
  | S k, String _ r => dropString k r
  | _, _ => s
  end.

Fixpoint revString (acc s : string) : string :=
  match s with
  | EmptyString => acc
  | String c r => revString (String c acc) r
  end.

(** *** Numbers *)

Inductive number : Type :=
| NaN
| Infinity (negative : bool)
| Finite (m e : Z).            (* the value m * 10^e *)

Definition ofZ (z : Z) : number := Finite z 0.

(** Decimal digits of a non-negative integer, without leading zeros
    (["0"] for zero). *)
Definition digitsOfZ (z : Z) : string :=
  NilZero.string_of_uint (N.to_uint (Z.to_N z)).

Definition stripTrailingZeros (ds : string) : string :=
  revString "" (snd (span (Ascii.eqb "0") (revString "" ds))).

(** [Number::toString] in radix 10: with [ds] the [k] significant
    digits of the value and [n] the position of its decimal point. *)
Definition numberToString (x : number) : string :=
  match x with
  | NaN => "NaN"
  | Infinity false => "Infinity"
  | Infinity true => "-Infinity"
  | Finite m e =>
      if m =? 0 then "0" else
      let all := digitsOfZ (Z.abs m) in
      let ds := stripTrailingZeros all in
      let k := Z.of_nat (String.length ds) in
      let n := Z.of_nat (String.length all) + e in
      let sign := if m <? 0 then "-" else "" in
      sign ++
      (if (k <=? n) && (n <=? 21) then
         ds ++ repeatChar "0" (Z.to_nat (n - k))
       else if (0 <? n) && (n <=? 21) then
         takeString (Z.to_nat n) ds ++ "." ++ dropString (Z.to_nat n) ds
       else if (-6 <? n) && (n <=? 0) then
         "0." ++ repeatChar "0" (Z.to_nat (- n)) ++ ds
       else
         let ex := n - 1 in
         let expo := (if ex <? 0 then "-" else "+") ++ digitsOfZ (Z.abs ex) in
         if k =? 1 then ds ++ "e" ++ expo
         else takeString 1 ds ++ "." ++ dropString 1 ds ++ "e" ++ expo)
  end.

(** Truthiness of a number: [0] and [NaN] are falsy. *)
Definition numberTruthy (x : number) : bool :=
  match x with
  | NaN => false
  | Infinity _ => true
  | Finite m _ => negb (m =? 0)
  end.

(** [x <= z] for an integer [z]; false on [NaN]. *)
Definition numberLeZ (x : number) (z : Z) : bool :=
  match x with
  | NaN => false
  | Infinity negative => negative
  | Finite m e =>
      if 0 <=? e then m * 10 ^ e <=? z else m <=? z * 10 ^ (- e)
  end.

(** [Math.ceil(x / d)] for a positive integer [d]. *)
Definition ceilDiv (x : number) (d : Z) : number :=
  match x with
  | NaN => NaN
  | Infinity negative => Infinity negative
  | Finite m e =>
      if 0 <=? e then ofZ (- ((- (m * 10 ^ e)) / d))
      else ofZ (- ((- m) / (d * 10 ^ (- e))))
  end.

(** [Math.max(z, x)] for an integer [z]. *)
Definition maxZ (z : Z) (x : number) : number :=
  match x with
  | NaN => NaN
  | _ => if numberLeZ x z then ofZ z else x
  end.

(** *** String to number ([StringToNumber] of the language)

    The white space is that of ASCII (the language also strips
    [U+00A0], [U+FEFF] and the other Unicode spaces), and the value of a
    numeral is kept exactly, without rounding to binary64. *)

Definition isStrWhiteSpace (c : ascii) : bool :=
  let n := charCode c in
  ((9 <=? n) && (n <=? 13)) || (n =? 32).

Definition trimStart (s : string) : string := snd (span isStrWhiteSpace s).
Definition trim (s : string) : string :=
  revString "" (trimStart (revString "" (trimStart s))).

Definition digitValue (c : ascii) : Z :=
  let n := charCode c in
  if isDigit c then n - 48
  else if isLower c then n - 87
  else n - 55.

Definition isRadixDigit (radix : Z) (c : ascii) : bool :=
  (isDigit c || isLower c || isUpper c) && (digitValue c <? radix).

Fixpoint digitsValue (radix : Z) (acc : Z) (s : string) : Z :=
  match s with
  | EmptyString => acc
  | String c r => digitsValue radix (acc * radix + digitValue c) r
  end.

Fixpoint allChars (p : ascii -> bool) (s : string) : bool :=
  match s with
  | EmptyString => true
  | String c r => p c && allChars p r
  end.

(** The strings on which the model and the language agree in case
    mapping, white space and numeric syntax: every character is an
    ASCII character. *)
Definition isAscii (s : string) : bool := allChars (fun c => charCode c <? 128) s.

(** The string keys a plain object inherits from [Object.prototype].
    Read on an object without an own property of that name, each gives
    a function, or for [__proto__] the prototype object: a truthy value
    that is not a string. *)
Definition objectPrototypeNames : list string :=
  ["constructor"; "__defineGetter__"; "__defineSetter__"; "hasOwnProperty";
   "__lookupGetter__"; "__lookupSetter__"; "isPrototypeOf"; "propertyIsEnumerable";
   "toString"; "valueOf"; "__proto__"; "toLocaleString"].

Definition inObjectPrototype (key : string) : bool := includes objectPrototypeNames key.

(** [ExponentPart], or nothing, up to the end of the string. *)
Definition parseExponent (s : string) : option Z :=
  match s with
  | EmptyString => Some 0
  | String c r =>
      if Ascii.eqb c "e" || Ascii.eqb c "E" then
        let '(negative, ds) :=
          match r with
          | String "+" r' => (false, r')
          | String "-" r' => (true, r')
          | _ => (false, r)
          end in
        match ds with
        | EmptyString => None
        | _ =>
            if allChars isDigit ds then
              Some (if negative then - digitsValue 10 0 ds else digitsValue 10 0 ds)
            else None
        end
      else None
  end.

(** [StrUnsignedDecimalLiteral]. *)
Definition parseUnsignedDecimal (s : string) : option number :=
  if String.eqb s "Infinity" then Some (Infinity false) else
  let (ip, r1) := span isDigit s in
  match r1 with
  | String "." r2 =>
      let (fp, r3) := span isDigit r2 in
      if String.eqb ip "" && String.eqb fp "" then None else
      match parseExponent r3 with
      | Some x => Some (Finite (digitsValue 10 0 (ip ++ fp))
                               (x - Z.of_nat (String.length fp)))
      | None => None
      end
  | _ =>
      if String.eqb ip "" then None else
      match parseExponent r1 with
      | Some x => Some (Finite (digitsValue 10 0 ip) x)
      | None => None
      end
  end.

Definition negate (x : number) : number :=
  match x with
  | NaN => NaN
  | Infinity negative => Infinity (negb negative)
  | Finite m e => Finite (- m) e
  end.

(** [NonDecimalIntegerLiteral]: [0x], [0o] and [0b] prefixes. *)
Definition parseNonDecimal (s : string) : option number :=
  match s with
  | String "0" (String p ds) =>
      let radix :=
        if Ascii.eqb p "x" || Ascii.eqb p "X" then Some 16
        else if Ascii.eqb p "o" || Ascii.eqb p "O" then Some 8
        else if Ascii.eqb p "b" || Ascii.eqb p "B" then Some 2
        else None in
      match radix, ds with
      | Some r, String _ _ =>
          if allChars (isRadixDigit r) ds then Some (ofZ (digitsValue r 0 ds))
          else None
      | _, _ => None
      end
  | _ => None
  end.

(** [StrNumericLiteral]: [None] when the text is not one. *)
Definition parseNumericLiteral (s : string) : option number :=
  match parseNonDecimal s with
  | Some x => Some x
  | None =>
      match s with
      | String "+" r => parseUnsignedDecimal r
      | String "-" r => option_map negate (parseUnsignedDecimal r)
      | _ => parseUnsignedDecimal s
      end
  end.

Definition stringToNumber (s : string) : number :=
  let t := trim s in
  if String.eqb t "" then ofZ 0 else
  match parseNumericLiteral t with
  | Some x => x
  | None => NaN
  end.

(** *** Values *)

#[warnings="-register-all"]
Inductive value : Type :=
| VUndefined
| VNull
| VBool (b : bool)
| VNum (x : number)
| VStr (s : string)
| VArr (items : list value)
| VObj.                        (* a plain object; its properties are never read *)

(** [String(v)]. *)
Fixpoint toStr (v : value) : string :=
  match v with
  | VUndefined => "undefined"
  | VNull => "null"
  | VBool true => "true"
  | VBool false => "false"
  | VNum x => numberToString x
  | VStr s => s
  | VArr items =>
      join "," (map (fun i => match i with
                              | VUndefined | VNull => ""
                              | _ => toStr i
                              end) items)
  | VObj => "[object Object]"
  end.

(** [Number(v)]. *)
Definition toNumber (v : value) : number :=
  match v with
  | VUndefined => NaN
  | VNull => ofZ 0
  | VBool true => ofZ 1
  | VBool false => ofZ 0
  | VNum x => x
  | VStr s => stringToNumber s
  | VArr _ => stringToNumber (toStr v)
  | VObj => NaN
  end.

(** Truthiness, as tested by [if (v)], [v || d] and [v ? a : b]. *)
Definition truthy (v : value) : bool :=
  match v with
  | VUndefined | VNull => false
  | VBool b => b
  | VNum x => numberTruthy x
  | VStr s => negb (String.eqb s "")
  | VArr _ | VObj => true
  end.

(** [v == null]. *)
Definition isNullish (v : value) : bool :=
  match v with
  | VUndefined | VNull => true
  | _ => false
  end.

End Js.

Import Js.

(** ** The store: schema reader and query engine, with the trace of calls *)

Module Store.

(** A schema field [{ name, type }]; an absent type is the empty
    string (the code reads it as [f.type || '']). *)
Record Field : Type := mkField {
  name : string;
  type : string
}.

(** A result row: the own properties of the row object. *)
Definition Row : Type := list (string * value).

(** [row[key]]: [undefined] when the row has no such property. *)
Fixpoint getProp (row : Row) (key : string) : value :=
  match row with
  | [] => VUndefined
  | (k, v) :: rest => if String.eqb k key then v else getProp rest key
  end.

(** A call either returns or throws; the error is kept as its
    [String(error)] text. *)
Inductive result (A : Type) : Type :=
| Ok (a : A)
| Throw (error : string).
Arguments Ok {A} a.
Arguments Throw {A} error.

Inductive StoreCall : Type :=
| CallGetMetadata (datasetId tableId : string)
| CallQuery (sql : string)
| CallGetMetadataUndefined.   (* the metadata read with [undefined] for both ids *)

Definition Trace : Type := list StoreCall.

(** The BigQuery client: its project and the answers of the store.
    [metadata] gives [metadata.schema.fields] when the table has a
    schema; [metadataUndefined] is what the client does with
    [bigquery.dataset(undefined).table(undefined).getMetadata()]. *)
Record BigQuery : Type := mkBigQuery {
  projectId : string;
  metadata : string -> string -> result (option (list Field));
  answer : string -> result (list Row);
  metadataUndefined : result (option (list Field))
}.

(** Code that talks to the store: it extends the trace. *)
Definition M (A : Type) : Type := Trace -> A * Trace.

Definition ret {A} (a : A) : M A := fun t => (a, t).
Definition bind {A B} (m : M A) (k : A -> M B) : M B :=
  fun t => let (a, t') := m t in k a t'.

(** [await table.getMetadata()] *)
Definition getMetadata (bq : BigQuery) (datasetId tableId : string)
  : M (result (option (list Field))) :=
  fun t => (bq.(metadata) datasetId tableId, (t ++ [CallGetMetadata datasetId tableId])%list).

(** The same three calls when [cfg.datasetId] and [cfg.tableId] are
    [undefined]. *)
Definition getMetadataUndefined (bq : BigQuery) : M (result (option (list Field))) :=
  fun t => (bq.(metadataUndefined), (t ++ [CallGetMetadataUndefined])%list).

(** [await bigquery.query({ query })] *)
Definition query (bq : BigQuery) (sql : string) : M (result (list Row)) :=
  fun t => (bq.(answer) sql, (t ++ [CallQuery sql])%list).

End Store.

Declare Scope store_scope.
Delimit Scope store_scope with store.
Notation "x <- m ;; k" := (Store.bind m (fun x => k))
  (at level 61, m at next level, right associativity) : store_scope.

(** ** Option discovery ([utils/generateFilterConfig.js]) *)

Module FilterConfig.
Import Store.
Local Open Scope store_scope.

Record Entry : Type := mkEntry {
  columnName : string;
  filterType : string;
  options : list value
}.

Definition emptyOptions : list value := [VStr "Empty"; VStr "Not Empty"].

Definition numericTypes : list string := ["INT64"; "NUMERIC"; "BIGNUMERIC"; "FLOAT64"].

(** [if (!options || options.length === 0) options = ['Empty', 'Not Empty']] *)
Definition orEmptyOptions (opts : list value) : list value :=
  match opts with
  | [] => emptyOptions
  | _ => opts
  end.

Fixpoint generateFilterConfigFromSchema (schemaFields : list Field) : list Entry :=
  match schemaFields with
  | [] => []
  | f :: rest =>
      if String.eqb f.(type) "RECORD" then generateFilterConfigFromSchema rest else
      let type := toUpperCase f.(type) in
      let '(filterType, options) :=
        if String.eqb type "DATE" || String.eqb type "DATETIME" || String.eqb type "TIMESTAMP" then
          ("DATE", [VStr "today"; VStr "yesterday"; VStr "last 7 days";
                    VStr "this month"; VStr "last month"])
        else if String.eqb type "BOOL" || String.eqb type "BOOLEAN" then
          ("BOOLEAN", [VBool true; VBool false])
        else if includes numericTypes type then
          ("NUMERIC", [VStr "top 10%"; VStr "bottom 10%"])
        else if String.eqb type "STRING" then ("FREETEXT", [])
        else ("FREETEXT", []) in
      mkEntry f.(name) filterType (orEmptyOptions options)
        :: generateFilterConfigFromSchema rest
  end.

(** The two local variables the [try] block assigns; they keep their
    value when the block throws. *)
Record Locals : Type := mkLocals {
  l_filterType : string;
  l_options : list value
}.

Definition countQuery (qualified columnName : string) : string :=
  "SELECT APPROX_COUNT_DISTINCT(`" ++ columnName ++ "`) AS c FROM " ++ qualified.

Definition listQuery (qualified columnName : string) : string :=
  "SELECT DISTINCT CAST(`" ++ columnName ++ "` AS STRING) AS v FROM " ++ qualified
    ++ " WHERE `" ++ columnName ++ "` IS NOT NULL ORDER BY v LIMIT 20".

Definition topQuery (qualified columnName : string) : string :=
  "SELECT CAST(`" ++ columnName ++ "` AS STRING) AS v, COUNT(1) AS c FROM " ++ qualified
    ++ " WHERE `" ++ columnName ++ "` IS NOT NULL GROUP BY v ORDER BY c DESC LIMIT 10".

(** [Number(c) || 0] *)
Definition numberOrZero (c : value) : number :=
  if numberTruthy (toNumber c) then toNumber c else ofZ 0.

(** The body of the [try] block for one column.  The boolean tells
    whether the block threw; the locals are those at that point. *)
Definition tryBlock (bq : BigQuery) (qualified columnName type : string)
  : M (Locals * bool) :=
  if String.eqb type "DATE" || String.eqb type "DATETIME" || String.eqb type "TIMESTAMP" then
    ret (mkLocals "DATE" [VStr "today"; VStr "yesterday"; VStr "last 7 days";
                          VStr "this month"; VStr "last month"; VStr "tomorrow";
                          VStr "next 7 days"; VStr "next month"], false)
  else if String.eqb type "BOOL" || String.eqb type "BOOLEAN" then
    ret (mkLocals "BOOLEAN" [VBool true; VBool false], false)
  else if includes numericTypes type then
    ret (mkLocals "NUMERIC" [VStr "top 10%"; VStr "bottom 10%"], false)
  else if String.eqb type "STRING" then
    counted <- query bq (countQuery qualified columnName) ;;
    match counted with
    | Throw _ => ret (mkLocals "FREETEXT" [], true)
    | Ok [] => ret (mkLocals "FREETEXT" [], true)       (* countRows[0].c on undefined *)
    | Ok (first :: _) =>
        let distinctCount := numberOrZero (getProp first "c") in
        if numberLeZ distinctCount 20 then
          listed <- query bq (listQuery qualified columnName) ;;
          match listed with
          | Throw _ => ret (mkLocals "LIST" [], true)
          | Ok vals => ret (mkLocals "LIST" (map (fun r => getProp r "v") vals), false)
          end
        else
          topped <- query bq (topQuery qualified columnName) ;;
          match topped with
          | Throw _ => ret (mkLocals "FREETEXT" [], true)
          | Ok vals => ret (mkLocals "FREETEXT" (map (fun r => getProp r "v") vals), false)
          end
    end
  else ret (mkLocals "FREETEXT" [], false).

(** The [catch] block. *)
Definition catchBlock (type : string) (l : Locals) : Locals :=
  mkLocals (if String.eqb type "BOOLEAN" then "BOOLEAN" else l.(l_filterType))
           l.(l_options).

(** One column: [try], [catch], the fallback options, the entry. *)
Definition resolveColumn (bq : BigQuery) (qualified columnName type : string) : M Locals :=
  r <- tryBlock bq qualified columnName type ;;
  ret (if snd r then catchBlock type (fst r) else fst r).

Definition qualifiedName (projectId datasetId tableId : string) : string :=
  "`" ++ projectId ++ "." ++ datasetId ++ "." ++ tableId ++ "`".

Fixpoint configLoop (bq : BigQuery) (qualified : string) (schemaFields : list Field)
  : M (list Entry) :=
  match schemaFields with
  | [] => ret []
  | f :: rest =>
      if String.eqb f.(type) "RECORD" then configLoop bq qualified rest else
      l <- resolveColumn bq qualified f.(name) (toUpperCase f.(type)) ;;
      config <- configLoop bq qualified rest ;;
      ret (mkEntry f.(name) l.(l_filterType) (orEmptyOptions l.(l_options)) :: config)
  end.

Definition generateFilterConfig (bq : BigQuery) (projectId datasetId tableId : string)
    (schemaFields : list Field) : M (list Entry) :=
  configLoop bq (qualifiedName projectId datasetId tableId) schemaFields.

(** *** The resolution of one column, taken on its own *)

(** What the count query tells: a first row whose count is at most 20. *)
Definition countAtMost20 (bq : BigQuery) (qualified columnName : string) : bool :=
  match bq.(answer) (countQuery qualified columnName) with
  | Ok (first :: _) => numberLeZ (numberOrZero (getProp first "c")) 20
  | _ => false
  end.

(** Did the [try] block of the column throw? *)
Definition discoveryFailed (bq : BigQuery) (qualified columnName type : string) : bool :=
  snd (fst (tryBlock bq qualified columnName type [])).

(** The locals of the column after [try] and [catch], run on an empty trace. *)
Definition resolved (bq : BigQuery) (qualified columnName type : string) : Locals :=
  fst (resolveColumn bq qualified columnName type []).

Definition notRecord (f : Field) : bool := negb (String.eqb f.(type) "RECORD").

(** The store calls of the [try] block of a column, run on an empty
    trace. *)
Definition columnCalls (bq : BigQuery) (qualified : string) (f : Field) : Trace :=
  snd (tryBlock bq qualified f.(name) (toUpperCase f.(type)) []).

(** The entry of a column, from its own resolution. *)
Definition entryOf (bq : BigQuery) (qualified : string) (f : Field) : Entry :=
  let l := resolved bq qualified f.(name) (toUpperCase f.(type)) in
  mkEntry f.(name) l.(l_filterType) (orEmptyOptions l.(l_options)).

End FilterConfig.

(** ** Filter definitions and the predicate compiler (the request handler's helpers) *)

Module Server.

(** One filter definition, saved or user: [{ type, modality, values }].
    An absent [type] is the empty string (the code reads it as
    [def.type || '']); [modality] and [values] are whatever the
    definition carries, [VUndefined] when absent. *)
Record FilterDef : Type := mkFilterDef {
  type : string;
  modality : value;
  values : value
}.

(** [Array.isArray(v) ? v : []]. *)
Definition arrayOrEmpty (v : value) : list value :=
  match v with
  | VArr items => items
  | _ => []
  end.

(** [xs[i]]: [undefined] past the end. *)
Definition index (xs : list value) (i : nat) : value := nth i xs VUndefined.

Definition quote : ascii := "'"%char.

(** [`\`${column}\``], the [ident] of every builder. *)
Definition identOf (column : string) : string := "`" ++ column ++ "`".

Definition sqlStringLiteral (v : value) : string :=
  if isNullish v then "NULL"
  else "'" ++ replaceAllChar quote "''" (toStr v) ++ "'".

Record EmptyNotEmpty : Type := mkEmptyNotEmpty {
  empty : string;
  notEmpty : string
}.

Definition buildEmptyNotEmpty (column : string) : EmptyNotEmpty :=
  let ident := identOf column in
  {| empty := "(" ++ ident ++ " IS NULL OR CAST(" ++ ident ++ " AS STRING) = '')";
     notEmpty := "(NOT (" ++ ident ++ " IS NULL OR CAST(" ++ ident ++ " AS STRING) = ''))" |}.

Definition normalizeModality (mod_ : value) : string :=
  match mod_ with
  | VArr (first :: _) => toLowerCase (toStr first)
  | VStr s => toLowerCase s
  | _ => ""
  end.

Definition dateTypes : list string := ["DATE"; "DATETIME"; "TIMESTAMP"].
Definition emptyModalities : list string := ["is_null"; "empty"; "is empty"].
Definition notEmptyModalities : list string := ["is_not_null"; "not_empty"; "is not empty"].

(** The trailing FREETEXT branch, the same text in both builders. *)
Definition freeTextPredicate (ident modality : string) (vals : list value) : option string :=
  match vals with
  | [] => None
  | first :: _ =>
      let pattern := "%" ++ toStr first ++ "%" in
      let pattern := if String.eqb modality "exact" then toStr first else pattern in
      let pattern := if String.eqb modality "starts with" then toStr first ++ "%" else pattern in
      let op := if String.eqb modality "exact" then "=" else "LIKE" in
      let rhs := "LOWER(" ++ sqlStringLiteral (VStr pattern) ++ ")" in
      Some ("LOWER(CAST(" ++ ident ++ " AS STRING)) " ++ op ++ " " ++ rhs)
  end.

(** Predicate of one saved-filter entry; [None] is the code's [null]. *)
Definition buildPredicateFromDef (column : string) (def : FilterDef) : option string :=
  let ident := identOf column in
  let type := toUpperCase def.(type) in
  let modality := normalizeModality def.(modality) in
  let values := arrayOrEmpty def.(values) in
  if negb (includes dateTypes type) && includes emptyModalities modality then
    Some (buildEmptyNotEmpty column).(empty)
  else if negb (includes dateTypes type) && includes notEmptyModalities modality then
    Some (buildEmptyNotEmpty column).(notEmpty)
  else if String.eqb type "LIST" then
    match values with
    | [] => None
    | _ => Some (ident ++ " IN (" ++ join ", " (map sqlStringLiteral values) ++ ")")
    end
  else if String.eqb type "BOOLEAN" || String.eqb type "BOOL" then
    match values with
    | [] => None
    | first :: _ => Some (ident ++ " = " ++ (if truthy first then "TRUE" else "FALSE"))
    end
  else if String.eqb type "NUMERIC" then
    let v0 := index values 0 in
    let v1 := index values 1 in
    if String.eqb modality "greater than" then
      Some (ident ++ " > " ++ numberToString (toNumber v0))
    else if String.eqb modality "less than" then
      Some (ident ++ " < " ++ numberToString (toNumber v0))
    else if String.eqb modality "between" then
      Some (ident ++ " BETWEEN " ++ numberToString (toNumber v0)
                  ++ " AND " ++ numberToString (toNumber v1))
    else Some (ident ++ " = " ++ numberToString (toNumber v0))
  else if includes dateTypes type then
    let v0 := index values 0 in
    let v1 := index values 1 in
    if negb (truthy v0) && negb (truthy v1) then None else
    let colDate := "DATE(" ++ ident ++ ")" in
    if String.eqb modality "before" then
      Some (colDate ++ " < DATE(" ++ sqlStringLiteral v0 ++ ")")
    else if String.eqb modality "after" then
      Some (colDate ++ " > DATE(" ++ sqlStringLiteral v0 ++ ")")
    else if String.eqb modality "between" then
      Some (colDate ++ " BETWEEN DATE(" ++ sqlStringLiteral v0
                    ++ ") AND DATE(" ++ sqlStringLiteral v1 ++ ")")
    else Some (colDate ++ " = DATE(" ++ sqlStringLiteral v0 ++ ")")
  else freeTextPredicate ident modality values.

(** [/top 10%|bottom 10%/i.test(s)]. *)
Definition isPercentileToken (s : string) : bool :=
  let l := toLowerCase s in
  contains "top 10%" l || contains "bottom 10%" l.

(** [v === s] for a string [s]. *)
Definition strictEq (v : value) (s : string) : bool :=
  match v with
  | VStr x => String.eqb x s
  | _ => false
  end.

(** The relative DATE tokens of the user path. *)
Definition relativeDatePredicate (colDate : string) (token : value) : option string :=
  if strictEq token "today" then Some (colDate ++ " = CURRENT_DATE()")
  else if strictEq token "yesterday" then
    Some (colDate ++ " = DATE_SUB(CURRENT_DATE(), INTERVAL 1 DAY)")
  else if strictEq token "last 7 days" then
    Some (colDate ++ " BETWEEN DATE_SUB(CURRENT_DATE(), INTERVAL 7 DAY) AND CURRENT_DATE()")
  else if strictEq token "this month" then
    Some (colDate ++ " BETWEEN DATE_TRUNC(CURRENT_DATE(), MONTH) AND CURRENT_DATE()")
  else if strictEq token "last month" then
    Some (colDate ++ " BETWEEN DATE_SUB(DATE_TRUNC(CURRENT_DATE(), MONTH), INTERVAL 1 MONTH) AND DATE_SUB(DATE_TRUNC(CURRENT_DATE(), MONTH), INTERVAL 1 DAY)")
  else if strictEq token "tomorrow" then
    Some (colDate ++ " = DATE_ADD(CURRENT_DATE(), INTERVAL 1 DAY)")
  else if strictEq token "next 7 days" then
    Some (colDate ++ " BETWEEN CURRENT_DATE() AND DATE_ADD(CURRENT_DATE(), INTERVAL 7 DAY)")
  else if strictEq token "next month" then
    Some (colDate ++ " BETWEEN DATE_TRUNC(DATE_ADD(CURRENT_DATE(), INTERVAL 1 MONTH), MONTH) AND DATE_SUB(DATE_TRUNC(DATE_ADD(CURRENT_DATE(), INTERVAL 2 MONTH), MONTH), INTERVAL 1 DAY)")
  else None.

(** [values.length === 1 && (values[0] === 'Empty' || values[0] === 'Not Empty')] *)
Definition isEmptyToken (values : list value) : bool :=
  Nat.eqb (List.length values) 1
  && (strictEq (index values 0) "Empty" || strictEq (index values 0) "Not Empty").

(** Predicate of one user filter; [fieldType] is the column's schema
    type, used when the definition names none. *)
Definition buildPredicateFromUser (column : string) (userDef : FilterDef)
    (fieldType : string) : option string :=
  let type :=
    toUpperCase (if negb (String.eqb userDef.(type) "") then userDef.(type) else fieldType) in
  let values := arrayOrEmpty userDef.(values) in
  let ident := identOf column in
  let modality := normalizeModality userDef.(modality) in
  if isEmptyToken values then
    Some (if strictEq (index values 0) "Empty"
          then (buildEmptyNotEmpty column).(empty)
          else (buildEmptyNotEmpty column).(notEmpty))
  else if negb (includes dateTypes type) && includes emptyModalities modality then
    Some (buildEmptyNotEmpty column).(empty)
  else if negb (includes dateTypes type) && includes notEmptyModalities modality then
    Some (buildEmptyNotEmpty column).(notEmpty)
  else if String.eqb type "LIST" then
    match values with
    | [] => None
    | _ => Some (ident ++ " IN (" ++ join ", " (map sqlStringLiteral values) ++ ")")
    end
  else if String.eqb type "BOOLEAN" || String.eqb type "BOOL" then
    match values with
    | [] => None
    | first :: _ => Some (ident ++ " = " ++ (if truthy first then "TRUE" else "FALSE"))
    end
  else if String.eqb type "NUMERIC" then
    match values with
    | [] => None
    | first :: _ =>
        if match first with VStr s => isPercentileToken s | _ => false end then None
        else Some (ident ++ " = " ++ numberToString (toNumber first))
    end
  else if includes dateTypes type then
    let colDate := "DATE(" ++ ident ++ ")" in
    let token := index values 0 in
    if negb (truthy token) then None
    else relativeDatePredicate colDate token
  else freeTextPredicate ident modality values.

End Server.

(** ** Reading quoted literals back

    What the quoting of [sqlStringLiteral] is meant to guarantee, in the
    convention it uses: inside a literal a single quote is written
    twice. *)

Module Quoting.

Fixpoint noQuote (s : string) : bool :=
  match s with
  | EmptyString => true
  | String c r => negb (Ascii.eqb c Server.quote) && noQuote r
  end.


(** Reads the body of a literal after its opening quote: the text it
    denotes and what follows the closing quote. *)
Fixpoint readBody (s : string) : option (string * string) :=
  match s with
  | EmptyString => None
  | String c r =>
      if Ascii.eqb c Server.quote then
        match r with
        | String d r' =>
            if Ascii.eqb d Server.quote then
              match readBody r' with
              | Some (text, rest) => Some (String Server.quote text, rest)
              | None => None
              end
            else Some (EmptyString, r)
        | EmptyString => Some (EmptyString, EmptyString)
        end
      else
        match readBody r with
        | Some (text, rest) => Some (String c text, rest)
        | None => None
        end
  end.

Definition readLiteral (s : string) : option (string * string) :=
  match s with
  | String c r => if Ascii.eqb c Server.quote then readBody r else None
  | EmptyString => None
  end.

(** Text whose single quotes all lie inside literals rendered by
    [sqlStringLiteral]. *)
Inductive Safe : string -> Prop :=
| Safe_raw : forall s, noQuote s = true -> Safe s
| Safe_literal : forall v, Safe (Server.sqlStringLiteral v)
| Safe_append : forall a b, Safe a -> Safe b -> Safe (a ++ b).

End Quoting.

(** ** Column headers ([utils/formatTableHeaders.js]) *)

Module Headers.

(** What [overrides[key] || toTitleCaseFromSnake(key)] gives: a text, or
    for a key that names a member of [Object.prototype] and has no
    override of its own, that member (a function or the prototype
    object, not a text). *)
Inductive Display : Type :=
| Text (text : string)
| Member (name : string).

Record Header : Type := mkHeader {
  key : string;
  displayName : Display
}.

(** The overrides object; it has no entry of its own. *)
Definition defaultOverrides : list (string * string) := [].

Fixpoint lookup (overrides : list (string * string)) (k : string) : option string :=
  match overrides with
  | [] => None
  | (k', v) :: rest => if String.eqb k' k then Some v else lookup rest k
  end.

(** [s.replace(/\s+/g, ' ')]: [inRun] tells that the previous
    character was white space. *)
Fixpoint collapseSpaces (inRun : bool) (s : string) : string :=
  match s with
  | EmptyString => EmptyString
  | String c r =>
      if isStrWhiteSpace c then
        if inRun then collapseSpaces true r else String " " (collapseSpaces true r)
      else String c (collapseSpaces false r)
  end.

(** [s.split(' ')]; [word] is the part read so far, reversed. *)
Fixpoint splitOnSpace (word : string) (s : string) : list string :=
  match s with
  | EmptyString => [revString "" word]
  | String c r =>
      if Ascii.eqb c " " then revString "" word :: splitOnSpace "" r
      else splitOnSpace (String c word) r
  end.

Definition capitalize (w : string) : string :=
  match w with
  | EmptyString => w
  | String c r => String (upperChar c) (toLowerCase r)
  end.

Definition toTitleCaseFromSnake (name : string) : string :=
  join " " (map capitalize
    (splitOnSpace "" (trim (collapseSpaces false (replaceAllChar "_" " " name))))).

Definition formatTableHeadersWith (overrides : list (string * string))
    (columnNames : list string) : list Header :=
  map (fun key =>
         let displayName :=
           match lookup overrides key with
           | Some o => if String.eqb o "" then Text (toTitleCaseFromSnake key) else Text o
           | None =>
               if inObjectPrototype key then Member key
               else Text (toTitleCaseFromSnake key)
           end in
         mkHeader key displayName) columnNames.

Definition formatTableHeaders : list string -> list Header :=
  formatTableHeadersWith defaultOverrides.

End Headers.

(** ** The page catalog ([pageDefinitions.js]) *)

Module Catalog.

Record SavedFilter : Type := mkSavedFilter {
  identifier : string;
  displayName : string;
  filterDefinition : list (string * Server.FilterDef)   (* in [Object.entries] order *)
}.

Record PageConfiguration : Type := mkPage {
  pageIdentifier : string;
  title : string;
  subtitle : string;
  datasetId : string;
  tableId : string;
  savedFilters : list SavedFilter
}.

Definition pageDefinitions : list (string * PageConfiguration) :=
  [ ("leads_view",
     mkPage "leads_view" "All Leads"
       "A comprehensive list of all leads in the system"
       "relata_schema" "activity"
       [ mkSavedFilter "high_priority_leads" "High Priority"
           [ ("name", Server.mkFilterDef "FREETEXT" (VStr "Contains") (VArr [VStr "ak"])) ] ]);
    ("sales_report",
     mkPage "sales_report" "Sales Report"
       "Weekly sales performance metrics"
       "relata_schema" "vsg"
       [ mkSavedFilter "top_performers" "Top Performers"
           [ ("version", Server.mkFilterDef "FREETEXT" VUndefined (VArr [VStr "PUBLISHED"]));
             ("owner_project_id",
              Server.mkFilterDef "FREETEXT" (VArr [VStr "is not empty"]) VUndefined) ] ]) ].

Fixpoint lookupPage (defs : list (string * PageConfiguration)) (id : string)
  : option PageConfiguration :=
  match defs with
  | [] => None
  | (k, p) :: rest => if String.eqb k id then Some p else lookupPage rest id
  end.

(** What [pageDefinitions[pageIdentifier]] gives when it is truthy: a
    page of the catalog, or for a key that names a member of
    [Object.prototype] that member (a function or the prototype object,
    with none of the properties of a page). *)
Inductive Resolved : Type :=
| Page (cfg : PageConfiguration)
| Member (name : string).

(** [pageDefinitions[pageIdentifier] || null] *)
Definition getPageConfiguration (pageIdentifier : string) : option Resolved :=
  match lookupPage pageDefinitions pageIdentifier with
  | Some cfg => Some (Page cfg)
  | None =>
      if inObjectPrototype pageIdentifier then Some (Member pageIdentifier) else None
  end.

Record PageSummary : Type := mkPageSummary {
  s_pageIdentifier : string;
  s_title : string;
  s_subtitle : string
}.

Definition listPages : list PageSummary :=
  map (fun kp => let p := snd kp in
                 mkPageSummary p.(pageIdentifier) p.(title) p.(subtitle))
      pageDefinitions.

End Catalog.

(** ** The [/api/page-data] handler *)

Module Handler.
Import Store.
Local Open Scope store_scope.

Record Pagination : Type := mkPagination {
  page : option Z;           (* [None]: the property is absent *)
  pageSize : option Z
}.

Record Request : Type := mkRequest {
  pageIdentifier : string;
  savedFilterIdentifier : option string;                (* [None]: null *)
  userFilters : list (string * Server.FilterDef);       (* in [Object.entries] order *)
  pagination : option Pagination                        (* [None]: absent *)
}.

Definition defaultPagination : Pagination := mkPagination (Some 1) (Some 10).

(** [n || d] on an integer property that may be absent. *)
Definition orDefault (n : option Z) (d : Z) : Z :=
  match n with
  | Some z => if z =? 0 then d else z
  | None => d
  end.

(** [Math.max(1, Math.min(1000, pagination.pageSize || 10))] *)
Definition limitOf (p : Pagination) : Z :=
  Z.max 1 (Z.min 1000 (orDefault p.(pageSize) 10)).

(** [Math.max(0, ((pagination.page || 1) - 1) * limit)], computed
    exactly: the code's product is the same while it is below [2^53]. *)
Definition offsetOf (p : Pagination) : Z :=
  Z.max 0 ((orDefault p.(page) 1 - 1) * limitOf p).

(** [new Map(fields.map((f) => [f.name, (f.type || '').toUpperCase()]))]:
    a later field of the same name replaces the earlier entry. *)
Fixpoint mapSet (m : list (string * string)) (k v : string) : list (string * string) :=
  match m with
  | [] => [(k, v)]
  | (k', v') :: rest =>
      if String.eqb k' k then (k', v) :: rest else (k', v') :: mapSet rest k v
  end.

Fixpoint mapGet (m : list (string * string)) (k : string) : option string :=
  match m with
  | [] => None
  | (k', v) :: rest => if String.eqb k' k then Some v else mapGet rest k
  end.

Definition mapHas (m : list (string * string)) (k : string) : bool :=
  match mapGet m k with
  | Some _ => true
  | None => false
  end.

Definition fieldTypeByName (fields : list Field) : list (string * string) :=
  fold_left (fun m f => mapSet m f.(name) (toUpperCase f.(type))) fields [].

(** [if (pred) whereClauses.push(pred)] *)
Definition pushPredicate (whereClauses : list string) (pred : option string) : list string :=
  match pred with
  | Some p => if String.eqb p "" then whereClauses else (whereClauses ++ [p])%list
  | None => whereClauses
  end.

(** The loop over the saved filter's entries. *)
Definition savedLoop (types : list (string * string))
    (entries : list (string * Server.FilterDef)) (whereClauses : list string) : list string :=
  fold_left (fun acc cd =>
               let '(col, def) := cd in
               if negb (mapHas types col) then acc
               else pushPredicate acc (Server.buildPredicateFromDef col def))
            entries whereClauses.

(** The loop over the user filters. *)
Definition userLoop (types : list (string * string))
    (entries : list (string * Server.FilterDef)) (whereClauses : list string) : list string :=
  fold_left (fun acc cd =>
               let '(col, def) := cd in
               match mapGet types col with
               | None => acc
               | Some fieldType =>
                   pushPredicate acc (Server.buildPredicateFromUser col def fieldType)
               end)
            entries whereClauses.

Definition whereClausesOf (fields : list Field)
    (savedFilterDefinition userFilters : list (string * Server.FilterDef)) : list string :=
  let types := fieldTypeByName fields in
  userLoop types userFilters (savedLoop types savedFilterDefinition []).

(** *** The combination rule, as the specification words it

    Each definition on a column of the schema is compiled on its own,
    a null result gives no fragment, and the fragments of the saved
    filter come before those of the user filters. *)

Definition fragmentsOf (pred : option string) : list string :=
  match pred with
  | Some p => [p]
  | None => []
  end.

Definition compiledSaved (types : list (string * string))
    (entries : list (string * Server.FilterDef)) : list string :=
  flat_map (fun cd => if mapHas types (fst cd)
                      then fragmentsOf (Server.buildPredicateFromDef (fst cd) (snd cd))
                      else []) entries.

Definition compiledUser (types : list (string * string))
    (entries : list (string * Server.FilterDef)) : list string :=
  flat_map (fun cd => match mapGet types (fst cd) with
                      | Some fieldType =>
                          fragmentsOf (Server.buildPredicateFromUser (fst cd) (snd cd) fieldType)
                      | None => []
                      end) entries.

Definition combinedFragments (fields : list Field)
    (savedFilterDefinition userFilters : list (string * Server.FilterDef)) : list string :=
  (compiledSaved (fieldTypeByName fields) savedFilterDefinition
   ++ compiledUser (fieldTypeByName fields) userFilters)%list.

(** A row passes an AND-chain when it satisfies every fragment of it;
    [sat] is the store's reading of one fragment on one row. *)
Definition passesAll {R : Type} (sat : R -> string -> Prop) (r : R)
    (whereClauses : list string) : Prop :=
  Forall (sat r) whereClauses.

(** [whereClauses.length ? `WHERE ${whereClauses.join(' AND ')}` : ''] *)
Definition whereSqlOf (whereClauses : list string) : string :=
  match whereClauses with
  | [] => ""
  | _ => "WHERE " ++ join " AND " whereClauses
  end.

Definition dataQuery (qualified whereSql : string) (limit offset : Z) : string :=
  "SELECT * FROM " ++ qualified ++ " " ++ whereSql
    ++ " LIMIT " ++ numberToString (ofZ limit) ++ " OFFSET " ++ numberToString (ofZ offset).

Definition countQuery (qualified whereSql : string) : string :=
  "SELECT COUNT(1) AS c FROM " ++ qualified ++ " " ++ whereSql.

Record PageDetails : Type := mkPageDetails {
  title : string;
  subtitle : string
}.

Record SavedFilterRef : Type := mkSavedFilterRef {
  identifier : string;
  displayName : string
}.

Record PaginationInfo : Type := mkPaginationInfo {
  currentPage : Z;
  r_pageSize : Z;
  totalRecords : number;
  totalPages : number
}.

Record ResponsePayload : Type := mkResponsePayload {
  pageDetails : PageDetails;
  tableHeaders : list Headers.Header;
  data : list Row;
  filterConfig : list FilterConfig.Entry;
  savedFilters : list SavedFilterRef;
  r_pagination : PaginationInfo;
  appliedSavedFilter : option Catalog.SavedFilter
}.

(** The payload of a run whose [cfg] is a member of [Object.prototype]:
    [cfg.title] and [cfg.subtitle] are [undefined], so [pageDetails] is
    rendered as the empty object; [savedFilters] is the empty array and
    [appliedSavedFilter] is [null]. *)
Record MemberPayload : Type := mkMemberPayload {
  m_tableHeaders : list Headers.Header;
  m_data : list Row;
  m_filterConfig : list FilterConfig.Entry;
  m_pagination : PaginationInfo
}.

Inductive Response : Type :=
| ErrorJson (status : Z) (ok : bool) (error : string)   (* [{ ok, error }] *)
| PageJson (payload : ResponsePayload)
| MemberPageJson (payload : MemberPayload).

(** The count query with its own [try]/[catch]. *)
Definition countRecords (bq : BigQuery) (qualified whereSql : string) (rows : list Row)
  : M number :=
  counted <- query bq (countQuery qualified whereSql) ;;
  match counted with
  | Ok (first :: _) => ret (FilterConfig.numberOrZero (getProp first "c"))
  | Ok [] => ret (ofZ (Z.of_nat (List.length rows)))
  | Throw _ => ret (ofZ (Z.of_nat (List.length rows)))
  end.

(** [(cfg.savedFilters || []).find((sf) => sf.identifier === savedFilterIdentifier)] *)
Definition findSavedFilter (cfg : Catalog.PageConfiguration)
    (savedFilterIdentifier : option string) : option Catalog.SavedFilter :=
  match savedFilterIdentifier with
  | Some id =>
      find (fun sf => String.eqb sf.(Catalog.identifier) id) cfg.(Catalog.savedFilters)
  | None => None
  end.

(** [savedFilter && savedFilter.filterDefinition ? savedFilter.filterDefinition : {}] *)
Definition savedFilterDefinitionOf (savedFilter : option Catalog.SavedFilter)
  : list (string * Server.FilterDef) :=
  match savedFilter with
  | Some sf => sf.(Catalog.filterDefinition)
  | None => []
  end.

(** The schema fields read from the table metadata:
    [(metadata.schema && metadata.schema.fields) || []]. *)
Definition fieldsOf (schema : option (list Field)) : list Field :=
  match schema with
  | Some fs => fs
  | None => []
  end.

(** [pagination = { page: 1, pageSize: 10 }] when the body has none. *)
Definition paginationOf (req : Request) : Pagination :=
  match req.(pagination) with
  | Some p => p
  | None => defaultPagination
  end.

(** The [try] block when [cfg] is a member of [Object.prototype]:
    [cfg.datasetId] and [cfg.tableId] are [undefined] (rendered as
    [undefined] in the qualified name) and [cfg.savedFilters] is
    [undefined], so no saved filter is found. *)
Definition memberRun (bq : BigQuery) (req : Request) : M Response :=
  let pagination := paginationOf req in
  md <- getMetadataUndefined bq ;;
  match md with
  | Throw error => ret (ErrorJson 500 false error)
  | Ok schema =>
      let fields := fieldsOf schema in
      let columnNames :=
        map name (filter (fun f => negb (String.eqb f.(type) "RECORD")) fields) in
      let tableHeaders := Headers.formatTableHeaders columnNames in
      filterConfig <- FilterConfig.generateFilterConfig bq bq.(projectId)
                        "undefined" "undefined" fields ;;
      let whereClauses := whereClausesOf fields [] req.(userFilters) in
      let qualified := FilterConfig.qualifiedName bq.(projectId) "undefined" "undefined" in
      let whereSql := whereSqlOf whereClauses in
      let limit := limitOf pagination in
      let offset := offsetOf pagination in
      fetched <- query bq (dataQuery qualified whereSql limit offset) ;;
      match fetched with
      | Throw error => ret (ErrorJson 500 false error)
      | Ok rows =>
          totalRecords <- countRecords bq qualified whereSql rows ;;
          let totalPages := maxZ 1 (ceilDiv totalRecords limit) in
          ret (MemberPageJson
            {| m_tableHeaders := tableHeaders;
               m_data := rows;
               m_filterConfig := filterConfig;
               m_pagination :=
                 mkPaginationInfo (orDefault pagination.(page) 1) limit totalRecords
                   totalPages |})
      end
  end.

Definition handler (bigquery : option BigQuery) (req : Request) : M Response :=
  let pagination := paginationOf req in
  match Catalog.getPageConfiguration req.(pageIdentifier) with
  | None => ret (ErrorJson 400 false "Invalid pageIdentifier")
  | Some (Catalog.Member _) =>
      match bigquery with
      | None => ret (ErrorJson 500 false "BigQuery client not initialized")
      | Some bq => memberRun bq req
      end
  | Some (Catalog.Page cfg) =>
  match bigquery with
  | None => ret (ErrorJson 500 false "BigQuery client not initialized")
  | Some bq =>
      md <- getMetadata bq cfg.(Catalog.datasetId) cfg.(Catalog.tableId) ;;
      match md with
      | Throw error => ret (ErrorJson 500 false error)
      | Ok schema =>
          let fields := fieldsOf schema in
          let columnNames :=
            map name (filter (fun f => negb (String.eqb f.(type) "RECORD")) fields) in
          let tableHeaders := Headers.formatTableHeaders columnNames in
          filterConfig <- FilterConfig.generateFilterConfig bq bq.(projectId)
                            cfg.(Catalog.datasetId) cfg.(Catalog.tableId) fields ;;
          let savedFilter := findSavedFilter cfg req.(savedFilterIdentifier) in
          let savedFilterDefinition := savedFilterDefinitionOf savedFilter in
          let whereClauses := whereClausesOf fields savedFilterDefinition req.(userFilters) in
          let qualified :=
            FilterConfig.qualifiedName bq.(projectId) cfg.(Catalog.datasetId) cfg.(Catalog.tableId) in
          let whereSql := whereSqlOf whereClauses in
          let limit := limitOf pagination in
          let offset := offsetOf pagination in
          fetched <- query bq (dataQuery qualified whereSql limit offset) ;;
          match fetched with
          | Throw error => ret (ErrorJson 500 false error)
          | Ok rows =>
              totalRecords <- countRecords bq qualified whereSql rows ;;
              let totalPages := maxZ 1 (ceilDiv totalRecords limit) in
              ret (PageJson
                {| pageDetails := mkPageDetails cfg.(Catalog.title) cfg.(Catalog.subtitle);
                   tableHeaders := tableHeaders;
                   data := rows;
                   filterConfig := filterConfig;
                   savedFilters :=
                     map (fun sf => mkSavedFilterRef sf.(Catalog.identifier) sf.(Catalog.displayName))
                         cfg.(Catalog.savedFilters);
                   r_pagination :=
                     mkPaginationInfo (orDefault pagination.(page) 1) limit totalRecords totalPages;
                   appliedSavedFilter := savedFilter |})
          end
      end
  end
  end.

End Handler.

(** ** Sample data used by the examples *)

Module Sample.

Definition fields : list Store.Field :=
  [ Store.mkField "status" "STRING";
    Store.mkField "city" "STRING";
    Store.mkField "amount" "NUMERIC";
    Store.mkField "created_at" "TIMESTAMP";
    Store.mkField "is_active" "BOOL";
    Store.mkField "payload" "RECORD" ].

Definition qualified : string := "`proj.relata_schema.activity`".

(** A store whose [status] column has three distinct values and whose
    [city] column has many. *)
Definition answers (sql : string) : Store.result (list Store.Row) :=
  if String.eqb sql (FilterConfig.countQuery qualified "status") then
    Store.Ok [[("c", VNum (ofZ 3))]]
  else if String.eqb sql (FilterConfig.listQuery qualified "status") then
    Store.Ok [[("v", VStr "active")]; [("v", VStr "closed")]; [("v", VStr "pending")]]
  else if String.eqb sql (FilterConfig.countQuery qualified "city") then
    Store.Ok [[("c", VNum (ofZ 412))]]
  else if String.eqb sql (FilterConfig.topQuery qualified "city") then
    Store.Ok [[("v", VStr "Pune"); ("c", VNum (ofZ 90))];
              [("v", VStr "Delhi"); ("c", VNum (ofZ 71))]]
  else if startsWith "SELECT COUNT(1)" sql then Store.Ok [[("c", VNum (ofZ 31))]]
  else if startsWith "SELECT * " sql then
    Store.Ok [[("status", VStr "active"); ("city", VStr "Pune")]]
  else Store.Throw "Error: unexpected query".

(** What the samples' client does without a dataset id. *)
Definition noDataset : Store.result (option (list Store.Field)) :=
  Store.Throw "TypeError: A dataset ID is required.".

Definition store : Store.BigQuery :=
  Store.mkBigQuery "proj" (fun _ _ => Store.Ok (Some fields)) answers noDataset.

(** The same store with the distinct-values query of [status] failing. *)
Definition flakyStore : Store.BigQuery :=
  Store.mkBigQuery "proj" (fun _ _ => Store.Ok (Some fields))
    (fun sql =>
       if String.eqb sql (FilterConfig.listQuery qualified "status") then
         Store.Throw "Error: quota exceeded"
       else answers sql)
    noDataset.

(** The same store with every count of the filtered table failing. *)
Definition countlessStore : Store.BigQuery :=
  Store.mkBigQuery "proj" (fun _ _ => Store.Ok (Some fields))
    (fun sql =>
       if startsWith "SELECT COUNT(1)" sql then Store.Throw "Error: timeout"
       else answers sql)
    noDataset.

(** A store whose table has the [name] column of the saved filter of
    [leads_view]. *)
Definition leadsStore : Store.BigQuery :=
  Store.mkBigQuery "proj"
    (fun _ _ => Store.Ok (Some (Store.mkField "name" "STRING" :: fields))) answers
    noDataset.

(** A store whose client accepts the metadata read without ids. *)
Definition lenientStore : Store.BigQuery :=
  Store.mkBigQuery "proj" (fun _ _ => Store.Ok (Some fields)) answers
    (Store.Ok (Some fields)).

End Sample.

(** ** Vocabularies shared by option discovery, the compiler and the page script *)

Module Vocabulary.

(** The relative tokens the user path of the compiler knows. *)
Definition relativeDateTokens : list string :=
  ["today"; "yesterday"; "last 7 days"; "this month"; "last month";
   "tomorrow"; "next 7 days"; "next month"].

Definition isRelativeToken (v : value) : bool :=
  existsb (Server.strictEq v) relativeDateTokens.

(** The filter types option discovery can assign. *)
Definition archetypes : list string := ["FREETEXT"; "NUMERIC"; "DATE"; "LIST"; "BOOLEAN"].

(** The definition the page script stores when a quick chip of a column
    without a filter is clicked: [{ type, values: [opt] }]. *)
Definition chipDef (filterType : string) (opt : value) : Server.FilterDef :=
  Server.mkFilterDef filterType VUndefined (VArr [opt]).

(** The type a user definition is compiled with:
    [userDef.type || fieldType || '']. *)
Definition effectiveType (def : Server.FilterDef) (fieldType : string) : string :=
  if negb (String.eqb def.(Server.type) "") then def.(Server.type) else fieldType.

(** The archetype a declared type fixes on its own; a Text column has
    none, its archetype depends on the data. *)
Definition archetypeOfType (type : string) : option string :=
  if includes Server.dateTypes type then Some "DATE"
  else if String.eqb type "BOOL" || String.eqb type "BOOLEAN" then Some "BOOLEAN"
  else if includes FilterConfig.numericTypes type then Some "NUMERIC"
  else if String.eqb type "STRING" then None
  else Some "FREETEXT".



(** The columns option discovery queries the store for. *)
Definition isTextColumn (f : Store.Field) : bool :=
  FilterConfig.notRecord f && String.eqb (toUpperCase f.(Store.type)) "STRING".

Definition isQueryCall (c : Store.StoreCall) : bool :=
  match c with
  | Store.CallQuery _ => true
  | Store.CallGetMetadata _ _ => false
  | Store.CallGetMetadataUndefined => false
  end.

End Vocabulary.

(** ** Words of a column key *)

Module Words.

(** A character of a word: an ASCII character that is neither white
    space nor an underscore. *)
Definition isWordChar (c : ascii) : bool :=
  (charCode c <? 128) && negb (isStrWhiteSpace c) && negb (Ascii.eqb c "_").

(** A word: a non-empty run of word characters. *)
Definition isWord (w : string) : bool :=
  negb (String.eqb w "") && allChars isWordChar w.

End Words.

(** ** The schema explorer ([GET /api/bq/tables] with a table) *)

Module Explorer.

(** A field of the table metadata.  [mode] and [description] are the
    empty string when absent (the code reads them as [f.mode || ...]);
    [fields] is [None] when [f.fields] is not an array. *)
#[warnings="-register-all"]
Inductive SchemaField : Type :=
| mkSchemaField (name type mode description : string)
                (fields : option (list SchemaField)).

Record FlatField : Type := mkFlatField {
  f_name : string;
  f_type : string;
  f_mode : string;
  f_description : string
}.

(** [prefix ? `${prefix}.${f.name}` : f.name] *)
Definition qualify (prefix name : string) : string :=
  if negb (String.eqb prefix "") then prefix ++ "." ++ name else name.

(** [f.type === 'RECORD' && Array.isArray(f.fields) && f.fields.length > 0] *)
Definition isNested (f : SchemaField) : bool :=
  match f with
  | mkSchemaField _ type _ _ (Some (_ :: _)) => String.eqb type "RECORD"
  | _ => false
  end.

(** One turn of the loop of [flattenFields]: what field [f] adds to
    [out] under [prefix]. *)
Fixpoint flattenField (prefix : string) (f : SchemaField) : list FlatField :=
  match f with
  | mkSchemaField name type mode description fields =>
      let name := qualify prefix name in
      let entry :=
        mkFlatField name type (if String.eqb mode "" then "NULLABLE" else mode)
          description in
      match fields with
      | Some (child :: children) =>
          if String.eqb type "RECORD"
          then entry :: flat_map (flattenField name) (child :: children)
          else [entry]
      | _ => [entry]
      end
  end.

Definition flattenFields (arr : list SchemaField) (prefix : string) : list FlatField :=
  flat_map (flattenField prefix) arr.

Definition nameOf (f : SchemaField) : string :=
  match f with mkSchemaField name _ _ _ _ => name end.

(** Induction on a field with the statement available for the fields
    nested in it. *)
Fixpoint SchemaField_nested_ind (P : SchemaField -> Prop)
    (step : forall name type mode description fields,
        match fields with
        | Some children => Forall P children
        | None => True
        end ->
        P (mkSchemaField name type mode description fields))
    (f : SchemaField) : P f :=
  match f with
  | mkSchemaField name type mode description fields =>
      step name type mode description fields
        (match fields as o
               return match o with
                      | Some children => Forall P children
                      | None => True
                      end
         with
         | Some children =>
             (fix all (l : list SchemaField) : Forall P l :=
                match l with
                | [] => Forall_nil P
                | x :: rest =>
                    Forall_cons x (SchemaField_nested_ind P step x) (all rest)
                end) children
         | None => I
         end)
  end.

End Explorer.

(** ** The queries of one request, as functions of what they depend on *)

Module Run.

(** [qualified], [whereSql], [query] and [countQuery] of the handler. *)
Definition qualifiedOf (bq : Store.BigQuery) (cfg : Catalog.PageConfiguration) : string :=
  FilterConfig.qualifiedName bq.(Store.projectId) cfg.(Catalog.datasetId)
    cfg.(Catalog.tableId).

Definition whereSqlFor (cfg : Catalog.PageConfiguration) (req : Handler.Request)
    (schema : option (list Store.Field)) : string :=
  Handler.whereSqlOf
    (Handler.whereClausesOf (Handler.fieldsOf schema)
       (Handler.savedFilterDefinitionOf
          (Handler.findSavedFilter cfg req.(Handler.savedFilterIdentifier)))
       req.(Handler.userFilters)).

Definition rowQueryOf (bq : Store.BigQuery) (cfg : Catalog.PageConfiguration)
    (req : Handler.Request) (schema : option (list Store.Field)) : string :=
  Handler.dataQuery (qualifiedOf bq cfg) (whereSqlFor cfg req schema)
    (Handler.limitOf (Handler.paginationOf req))
    (Handler.offsetOf (Handler.paginationOf req)).

Definition countQueryOf (bq : Store.BigQuery) (cfg : Catalog.PageConfiguration)
    (req : Handler.Request) (schema : option (list Store.Field)) : string :=
  Handler.countQuery (qualifiedOf bq cfg) (whereSqlFor cfg req schema).

(** The calls option discovery makes for a schema. *)
Definition discoveryCalls (bq : Store.BigQuery) (cfg : Catalog.PageConfiguration)
    (schema : option (list Store.Field)) : Store.Trace :=
  snd (FilterConfig.configLoop bq (qualifiedOf bq cfg) (Handler.fieldsOf schema) []).

(** The request with another saved-filter identifier. *)
Definition withSavedFilter (req : Handler.Request) (id : option string) : Handler.Request :=
  Handler.mkRequest req.(Handler.pageIdentifier) id req.(Handler.userFilters)
    req.(Handler.pagination).

End Run.

(** * Properties *)

Import Server.

(** ** The runtime model and the helpers on examples *)

Example numberToString_examples :
  map numberToString
    [Finite 5 0; Finite 15 (-1); Finite 1 21; Finite 1 20; Finite 123 (-8);
     Finite 123 (-9); Finite (-1200) 0; Finite 0 5; NaN; Infinity true]
  = ["5"; "1.5"; "1e+21"; "100000000000000000000"; "0.00000123";
     "1.23e-7"; "-1200"; "0"; "NaN"; "-Infinity"].
Proof. reflexivity. Qed.

Example toNumber_examples :
  map (fun s => numberToString (toNumber (VStr s)))
    ["abc"; "  12 "; ""; "1.5e3"; ".5"; "5."; "."; "0x1F"; "-0x1F"; "-Infinity";
     "1e"; "12px"; "top 10%"]
  = ["NaN"; "12"; "0"; "1500"; "0.5"; "5"; "NaN"; "31"; "NaN"; "-Infinity";
     "NaN"; "NaN"; "NaN"].
Proof. reflexivity. Qed.

Example toStr_array :
  toStr (VArr [VNum (ofZ 1); VNull; VStr "a"; VArr [VBool true; VUndefined]]) = "1,,a,true,".
Proof. reflexivity. Qed.

Example toTitleCaseFromSnake_examples :
  map Headers.toTitleCaseFromSnake ["owner_project_id"; "first_NAME__x"; "_a  b_"; ""]
  = ["Owner Project Id"; "First Name X"; "A B"; ""].
Proof. reflexivity. Qed.

Example saved_filter_high_priority_leads :
  Handler.whereSqlOf
    (Handler.whereClausesOf [Store.mkField "name" "STRING"]
       [("name", mkFilterDef "FREETEXT" (VStr "Contains") (VArr [VStr "ak"]))] [])
  = "WHERE LOWER(CAST(`name` AS STRING)) LIKE LOWER('%ak%')".
Proof. reflexivity. Qed.

Example user_boolean_is_false :
  buildPredicateFromUser "is_active"
    (mkFilterDef "BOOLEAN" (VStr "is") (VArr [VBool false])) "BOOL"
  = Some "`is_active` = FALSE".
Proof. reflexivity. Qed.

Example discovery_on_sample_store :
  fst (FilterConfig.generateFilterConfig Sample.store "proj" "relata_schema" "activity"
         Sample.fields [])
  = [ FilterConfig.mkEntry "status" "LIST" [VStr "active"; VStr "closed"; VStr "pending"];
      FilterConfig.mkEntry "city" "FREETEXT" [VStr "Pune"; VStr "Delhi"];
      FilterConfig.mkEntry "amount" "NUMERIC" [VStr "top 10%"; VStr "bottom 10%"];
      FilterConfig.mkEntry "created_at" "DATE"
        [VStr "today"; VStr "yesterday"; VStr "last 7 days"; VStr "this month";
         VStr "last month"; VStr "tomorrow"; VStr "next 7 days"; VStr "next month"];
      FilterConfig.mkEntry "is_active" "BOOLEAN" [VBool true; VBool false] ].
Proof. reflexivity. Qed.

Example leads_view_first_page :
  exists payload,
    Handler.handler (Some Sample.store)
      (Handler.mkRequest "leads_view" None []
         (Some (Handler.mkPagination (Some 1) (Some 10)))) []
    = (Handler.PageJson payload,
       [ Store.CallGetMetadata "relata_schema" "activity";
         Store.CallQuery (FilterConfig.countQuery Sample.qualified "status");
         Store.CallQuery (FilterConfig.listQuery Sample.qualified "status");
         Store.CallQuery (FilterConfig.countQuery Sample.qualified "city");
         Store.CallQuery (FilterConfig.topQuery Sample.qualified "city");
         Store.CallQuery "SELECT * FROM `proj.relata_schema.activity`  LIMIT 10 OFFSET 0";
         Store.CallQuery "SELECT COUNT(1) AS c FROM `proj.relata_schema.activity` " ])
    /\ payload.(Handler.r_pagination)
       = Handler.mkPaginationInfo 1 10 (ofZ 31) (ofZ 4).
Proof. eexists. split; [vm_compute; reflexivity | reflexivity]. Qed.

(** ** Page catalog and the configuration guard *)

Lemma getPageConfiguration_known (id : string) :
  (exists cfg, Catalog.getPageConfiguration id = Some (Catalog.Page cfg))
  <-> id = "leads_view" \/ id = "sales_report".
Proof.
  unfold Catalog.getPageConfiguration, Catalog.pageDefinitions, Catalog.lookupPage.
  destruct (String.eqb_spec "leads_view" id) as [E1 | N1].
  - split; [intros _; left; congruence | intros _; eexists; reflexivity].
  - destruct (String.eqb_spec "sales_report" id) as [E2 | N2].
    + split; [intros _; right; congruence | intros _; eexists; reflexivity].
    + split; [| intros [E | E]; congruence].
      intros [cfg H]. destruct (inObjectPrototype id); discriminate.
Qed.

(** A run on a member of [Object.prototype] never gives the payload of
    a page of the catalog. *)
Lemma memberRun_not_page :
  forall (bq : Store.BigQuery) (req : Handler.Request) (t t' : Store.Trace)
         (payload : Handler.ResponsePayload),
    Handler.memberRun bq req t <> (Handler.PageJson payload, t').
Proof.
  intros bq req t t' payload. unfold Handler.memberRun.
  unfold Store.bind, Store.getMetadataUndefined, Store.ret.
  destruct (Store.metadataUndefined bq) as [schema | err]; [| discriminate].
  match goal with
  | |- context [FilterConfig.generateFilterConfig ?a ?b ?c ?d ?e ?f] =>
      destruct (FilterConfig.generateFilterConfig a b c d e f) as [fc t2]
  end.
  unfold Store.query.
  match goal with
  | |- context [Store.answer bq ?q] => destruct (Store.answer bq q) as [rows | err]
  end; [| discriminate].
  match goal with
  | |- context [Handler.countRecords ?a ?b ?c ?d ?e] =>
      destruct (Handler.countRecords a b c d e) as [total t3]
  end.
  discriminate.
Qed.

(** ** Pagination *)

Lemma orDefault_page (n : option Z) :
  Z.max 1 (Handler.orDefault n 1) = match n with Some z => Z.max 1 z | None => 1 end.
Proof.
  destruct n as [z |]; simpl; [| reflexivity].
  destruct (Z.eqb_spec z 0); subst; reflexivity.
Qed.

(** The claim of C3 fails on a requested page size of 0: the code reads
    [pagination.pageSize || 10], so 0 gives the default 10 and not the
    clamped value 1. *)
Lemma page_size_zero_gives_default :
  Handler.limitOf (Handler.mkPagination (Some 1) (Some 0)) = 10
  /\ Handler.limitOf (Handler.mkPagination (Some 1) (Some 0)) <> Z.max 1 (Z.min 1000 0).
Proof. split; [reflexivity | discriminate]. Qed.

(** What a page response tells about the run that produced it. *)
Lemma handler_page_inv :
  forall (bq : Store.BigQuery) (req : Handler.Request) (t t' : Store.Trace)
         (payload : Handler.ResponsePayload),
    Handler.handler (Some bq) req t = (Handler.PageJson payload, t') ->
    let p := Handler.paginationOf req in
    exists cfg fields applied rows,
      Catalog.getPageConfiguration req.(Handler.pageIdentifier) = Some (Catalog.Page cfg)
      /\ let qualified := FilterConfig.qualifiedName bq.(Store.projectId)
                            cfg.(Catalog.datasetId) cfg.(Catalog.tableId) in
         let whereSql := Handler.whereSqlOf
                           (Handler.whereClausesOf fields applied req.(Handler.userFilters)) in
         let sql := Handler.dataQuery qualified whereSql (Handler.limitOf p) (Handler.offsetOf p) in
         Store.answer bq sql = Store.Ok rows
         /\ In (Store.CallQuery sql) t'
         /\ payload.(Handler.data) = rows
         /\ payload.(Handler.r_pagination).(Handler.r_pageSize) = Handler.limitOf p
         /\ payload.(Handler.r_pagination).(Handler.currentPage)
            = Handler.orDefault p.(Handler.page) 1.
Proof.
  intros bq req t t' payload H p.
  unfold Handler.handler in H.
  destruct (Catalog.getPageConfiguration (Handler.pageIdentifier req))
    as [[cfg | member] |];
    [| exfalso; exact (memberRun_not_page bq req t t' payload H) | discriminate].
  unfold Store.bind, Store.getMetadata, Store.ret in H.
  destruct (Store.metadata bq (Catalog.datasetId cfg) (Catalog.tableId cfg))
    as [schema | err]; [| discriminate].
  match type of H with
  | context [FilterConfig.generateFilterConfig ?a ?b ?c ?d ?e ?f] =>
      destruct (FilterConfig.generateFilterConfig a b c d e f) as [fc t2]
  end.
  unfold Store.query in H.
  match type of H with
  | context [Store.answer bq ?q] => destruct (Store.answer bq q) as [rows | err] eqn:Hrows
  end; [| discriminate].
  match type of H with
  | context [Handler.countRecords ?a ?b ?c ?d ?e] =>
      destruct (Handler.countRecords a b c d e) as [total t3] eqn:Hcount
  end.
  injection H as Hpayload Ht'.
  eexists cfg, _, _, rows. split; [reflexivity |]. cbv zeta.
  split; [exact Hrows |]. split.
  - subst t'. unfold Handler.countRecords, Store.bind, Store.query in Hcount.
    match type of Hcount with
    | context [Store.answer bq ?q] => destruct (Store.answer bq q) as [[| r rs] | err']
    end; injection Hcount as _ Ht3; subst t3;
      apply in_or_app; left; apply in_or_app; right; left; reflexivity.
  - subst payload. simpl. repeat split; reflexivity.
Qed.

Lemma limit_offset_spec (p : Handler.Pagination) :
  let size := match p.(Handler.pageSize) with
              | Some 0 | None => 10
              | Some s => s
              end in
  let pageNo := match p.(Handler.page) with
                | Some z => Z.max 1 z
                | None => 1
                end in
  1 <= Handler.limitOf p <= 1000
  /\ Handler.limitOf p = Z.max 1 (Z.min 1000 size)
  /\ Handler.offsetOf p = (pageNo - 1) * Handler.limitOf p.
Proof.
  destruct p as [pg sz]. cbv zeta. unfold Handler.offsetOf. simpl Handler.page.
  assert (Hl : Handler.limitOf (Handler.mkPagination pg sz)
               = Z.max 1 (Z.min 1000 match sz with Some 0 | None => 10 | Some s => s end)).
  { unfold Handler.limitOf; simpl. destruct sz as [[| s | s] |]; reflexivity. }
  simpl Handler.pageSize.
  split; [rewrite Hl; lia |]. split; [exact Hl |].
  rewrite <- orDefault_page.
  assert (1 <= Handler.limitOf (Handler.mkPagination pg sz)) by (rewrite Hl; lia).
  destruct (Z.le_gt_cases 1 (Handler.orDefault pg 1)) as [Hp | Hp].
  - rewrite (Z.max_r 1 _ Hp). apply Z.max_r. nia.
  - rewrite (Z.max_l 1 (Handler.orDefault pg 1)) by lia.
    rewrite Z.max_l by nia. reflexivity.
Qed.


(** C3, amended.  For every request whose page number is at most
    9007199254740 (the largest for which the product of the code,
    computed in floating point, stays below [2^53] and so is exact),
    the effective page size is the requested one, or 10 when it is
    absent or 0, clamped into [1, 1000]; the offset of the row query is
    [(p - 1) * pageSize] for [p] the requested page clamped to at least
    1 (1 when absent).  A page response reports that page size, and the
    row query that produced it carries that limit and that offset. *)
Theorem page_size_and_offset :
  forall (req : Handler.Request),
    let p := Handler.paginationOf req in
    let size := match p.(Handler.pageSize) with
                | Some 0 | None => 10
                | Some s => s
                end in
    let pageNo := match p.(Handler.page) with
                  | Some z => Z.max 1 z
                  | None => 1
                  end in
    pageNo <= 9007199254740 ->
    (pageNo - 1) * Handler.limitOf p < 2 ^ 53
    /\ 1 <= Handler.limitOf p <= 1000
    /\ Handler.limitOf p = Z.max 1 (Z.min 1000 size)
    /\ Handler.offsetOf p = (pageNo - 1) * Handler.limitOf p
    /\ forall bq t t' payload,
         Handler.handler (Some bq) req t = (Handler.PageJson payload, t') ->
         payload.(Handler.r_pagination).(Handler.r_pageSize) = Handler.limitOf p
         /\ exists qualified whereSql,
              In (Store.CallQuery
                    (Handler.dataQuery qualified whereSql (Handler.limitOf p) (Handler.offsetOf p)))
                 t'.
Proof.
  intros req p size pageNo Hsafe.
  destruct (limit_offset_spec p) as (Hrange & Hlimit & Hoffset).
  split; [change (2 ^ 53) with 9007199254740992; nia |].
  repeat split; try assumption; try apply Hrange.
  - destruct (handler_page_inv bq req t t' payload H)
      as (cfg & fields & applied & rows & _ & _ & _ & _ & Hsize & _).
    exact Hsize.
  - destruct (handler_page_inv bq req t t' payload H)
      as (cfg & fields & applied & rows & _ & _ & Hin & _).
    eexists _, _. exact Hin.
Qed.

Lemma page_size_and_offset_witness :
  let req := Handler.mkRequest "leads_view" None []
               (Some (Handler.mkPagination (Some 3) (Some 5000))) in
  let p := Handler.paginationOf req in
  exists payload t',
    Handler.handler (Some Sample.store) req [] = (Handler.PageJson payload, t')
    /\ payload.(Handler.r_pagination).(Handler.r_pageSize) = Handler.limitOf p
    /\ exists qualified whereSql,
         In (Store.CallQuery
               (Handler.dataQuery qualified whereSql (Handler.limitOf p) (Handler.offsetOf p)))
            t'.
Proof.
  intros req p. eexists _, _. split.
  - vm_compute. reflexivity.
  - apply (proj2 (proj2 (proj2 (proj2 (page_size_and_offset req ltac:(vm_compute; discriminate)))))
             Sample.store []).
    vm_compute. reflexivity.
Defined.

Example page_size_5000 :
  Handler.limitOf (Handler.mkPagination (Some 3) (Some 5000)) = 1000
  /\ Handler.offsetOf (Handler.mkPagination (Some 3) (Some 5000)) = 2000.
Proof. split; reflexivity. Qed.

Example page_negative :
  Handler.offsetOf (Handler.mkPagination (Some (-4)) (Some 25)) = 0.
Proof. reflexivity. Qed.

(** ** Numeric filters *)

Lemma includes_dateTypes_NUMERIC : includes dateTypes "NUMERIC" = false.
Proof. reflexivity. Qed.

(** The saved path on a Numeric definition whose modality is not an
    empty/not-empty keyword: one comparison per modality. *)
Lemma saved_numeric_compilation :
  forall (column ty : string) (mod_ vals : value),
    toUpperCase ty = "NUMERIC" ->
    let m := normalizeModality mod_ in
    let v0 := numberToString (toNumber (index (arrayOrEmpty vals) 0)) in
    let v1 := numberToString (toNumber (index (arrayOrEmpty vals) 1)) in
    includes emptyModalities m = false ->
    includes notEmptyModalities m = false ->
    buildPredicateFromDef column (mkFilterDef ty mod_ vals)
    = Some (identOf column ++
            (if String.eqb m "greater than" then " > " ++ v0
             else if String.eqb m "less than" then " < " ++ v0
             else if String.eqb m "between" then " BETWEEN " ++ v0 ++ " AND " ++ v1
             else " = " ++ v0)).
Proof.
  intros column ty mod_ vals Hty m v0 v1 He Hn.
  unfold buildPredicateFromDef. simpl type. simpl modality. simpl values.
  rewrite Hty. fold m. rewrite He, Hn.
  rewrite includes_dateTypes_NUMERIC. simpl negb. simpl andb.
  change (String.eqb "NUMERIC" "LIST") with false.
  change (String.eqb "NUMERIC" "BOOLEAN" || String.eqb "NUMERIC" "BOOL")%bool with false.
  change (String.eqb "NUMERIC" "NUMERIC") with true. cbv iota.
  fold v0 v1.
  destruct (String.eqb m "greater than"); [reflexivity |].
  destruct (String.eqb m "less than"); [reflexivity |].
  destruct (String.eqb m "between"); reflexivity.
Qed.

(** The user path on a Numeric definition: equality against the first
    value whatever the modality, nothing for a percentile token. *)
Lemma user_numeric_compilation :
  forall (column ty fieldType : string) (mod_ first : value) (rest : list value),
    toUpperCase (if negb (String.eqb ty "") then ty else fieldType) = "NUMERIC" ->
    let m := normalizeModality mod_ in
    isEmptyToken (first :: rest) = false ->
    includes emptyModalities m = false ->
    includes notEmptyModalities m = false ->
    buildPredicateFromUser column (mkFilterDef ty mod_ (VArr (first :: rest))) fieldType
    = if match first with VStr s => isPercentileToken s | _ => false end then None
      else Some (identOf column ++ " = " ++ numberToString (toNumber first)).
Proof.
  intros column ty fieldType mod_ first rest Hty m Htok He Hn.
  unfold buildPredicateFromUser. simpl type. simpl modality. simpl values.
  rewrite Hty. fold m. rewrite He, Hn.
  unfold arrayOrEmpty. rewrite Htok.
  rewrite includes_dateTypes_NUMERIC. reflexivity.
Qed.

(** C4, at the input where the code departs from it.  A user filter
    [{ type: 'NUMERIC', modality: 'greater than', values: ['5'] }] on
    column [amount] compiles to an equality, while the same definition
    on the saved path compiles to the strict comparison the claim
    describes. *)
Theorem user_numeric_greater_than_is_equality :
  let def := mkFilterDef "NUMERIC" (VStr "greater than") (VArr [VStr "5"]) in
  buildPredicateFromUser "amount" def "NUMERIC" = Some "`amount` = 5"
  /\ buildPredicateFromDef "amount" def = Some "`amount` > 5".
Proof. split; reflexivity. Qed.

Example user_numeric_between_is_equality :
  buildPredicateFromUser "amount"
    (mkFilterDef "NUMERIC" (VStr "between") (VArr [VStr "5"; VStr "9"])) "NUMERIC"
  = Some "`amount` = 5".
Proof. reflexivity. Qed.

(** The claim of C8 fails on the saved definition
    [{ type: 'NUMERIC', values: ['abc'] }]: compilation does not return
    null, it returns a comparison against the coerced value [NaN]. *)
Lemma non_numeric_literal_is_compiled :
  toNumber (VStr "abc") = NaN
  /\ buildPredicateFromDef "amount" (mkFilterDef "NUMERIC" VUndefined (VArr [VStr "abc"]))
     = Some "`amount` = NaN"
  /\ buildPredicateFromDef "amount" (mkFilterDef "NUMERIC" VUndefined (VArr [VStr "abc"]))
     <> None.
Proof. split; [reflexivity | split; [reflexivity | discriminate]]. Qed.

(** C8, amended.  A Numeric definition whose first value is a string
    of ASCII characters that is not a numeric literal is not rejected
    for that: [Number] coerces the literal to [NaN], or to 0 when it is
    empty or blank, and the fragment compares the column against the
    coerced value.  The saved path always yields a fragment: the
    comparison of its modality, or the empty / not-empty predicate when
    the modality asks for it.  The user path yields the empty /
    not-empty predicate for the literal tokens [Empty] and [Not Empty]
    and for those modalities, null for a literal containing [top 10%]
    or [bottom 10%], and otherwise an equality whatever the modality. *)
Theorem non_numeric_literal_is_coerced :
  forall (column ty fieldType s : string) (mod_ : value) (rest : list value),
    toUpperCase ty = "NUMERIC" ->
    isAscii s = true ->
    parseNumericLiteral (trim s) = None ->
    let m := normalizeModality mod_ in
    let def := mkFilterDef ty mod_ (VArr (VStr s :: rest)) in
    let coerced := if String.eqb (trim s) "" then "0" else "NaN" in
    let en := buildEmptyNotEmpty column in
    numberToString (toNumber (VStr s)) = coerced
    /\ (exists upper,
          buildPredicateFromDef column def
          = Some (if includes emptyModalities m then en.(empty)
                  else if includes notEmptyModalities m then en.(notEmpty)
                  else identOf column ++
                       (if String.eqb m "greater than" then " > " ++ coerced
                        else if String.eqb m "less than" then " < " ++ coerced
                        else if String.eqb m "between" then
                          " BETWEEN " ++ coerced ++ " AND " ++ upper
                        else " = " ++ coerced)))
    /\ buildPredicateFromUser column def fieldType
       = (if isEmptyToken (VStr s :: rest) then
            Some (if String.eqb s "Empty" then en.(empty) else en.(notEmpty))
          else if includes emptyModalities m then Some en.(empty)
          else if includes notEmptyModalities m then Some en.(notEmpty)
          else if isPercentileToken s then None
          else Some (identOf column ++ " = " ++ coerced))
    /\ buildPredicateFromDef column def <> None.
Proof.
  intros column ty fieldType s mod_ rest Hty _ Hparse m def coerced en.
  assert (Hcoerced : numberToString (toNumber (VStr s)) = coerced).
  { unfold coerced, toNumber, stringToNumber.
    destruct (String.eqb (trim s) ""); [reflexivity |].
    rewrite Hparse. reflexivity. }
  assert (Hsaved : exists upper,
             buildPredicateFromDef column def
             = Some (if includes emptyModalities m then en.(empty)
                     else if includes notEmptyModalities m then en.(notEmpty)
                     else identOf column ++
                          (if String.eqb m "greater than" then " > " ++ coerced
                           else if String.eqb m "less than" then " < " ++ coerced
                           else if String.eqb m "between" then
                             " BETWEEN " ++ coerced ++ " AND " ++ upper
                           else " = " ++ coerced))).
  { exists (numberToString (toNumber (index rest 0))).
    destruct (includes emptyModalities m) eqn:He;
      [| destruct (includes notEmptyModalities m) eqn:Hn].
    - unfold def, buildPredicateFromDef. cbn [type modality values].
      rewrite Hty. fold m. rewrite He, includes_dateTypes_NUMERIC. reflexivity.
    - unfold def, buildPredicateFromDef. cbn [type modality values].
      rewrite Hty. fold m. rewrite He, Hn, includes_dateTypes_NUMERIC. reflexivity.
    - unfold def. rewrite (saved_numeric_compilation column ty mod_ _ Hty He Hn).
      fold m. change (index (arrayOrEmpty (VArr (VStr s :: rest))) 0) with (VStr s).
      rewrite Hcoerced. reflexivity. }
  split; [exact Hcoerced |]. split; [exact Hsaved |]. split.
  - assert (Heff : toUpperCase (if negb (String.eqb ty "") then ty else fieldType)
                   = "NUMERIC").
    { destruct ty as [| c ty']; [discriminate Hty | exact Hty]. }
    destruct (isEmptyToken (VStr s :: rest)) eqn:Htok.
    + unfold def, buildPredicateFromUser. cbn [type modality values arrayOrEmpty].
      rewrite Htok. reflexivity.
    + destruct (includes emptyModalities m) eqn:He;
        [| destruct (includes notEmptyModalities m) eqn:Hn].
      * unfold def, buildPredicateFromUser. cbn [type modality values arrayOrEmpty].
        rewrite Htok, Heff. fold m. rewrite He, includes_dateTypes_NUMERIC. reflexivity.
      * unfold def, buildPredicateFromUser. cbn [type modality values arrayOrEmpty].
        rewrite Htok, Heff. fold m. rewrite He, Hn, includes_dateTypes_NUMERIC.
        reflexivity.
      * unfold def.
        rewrite (user_numeric_compilation column ty fieldType mod_ (VStr s) rest
                   Heff Htok He Hn).
        rewrite Hcoerced. reflexivity.
  - destruct Hsaved as [upper ->]. discriminate.
Qed.

Lemma non_numeric_literal_is_coerced_witness :
  buildPredicateFromDef "amount"
    (mkFilterDef "numeric" (VStr "Less Than") (VArr [VStr "12 apples"]))
  <> None
  /\ buildPredicateFromUser "amount"
       (mkFilterDef "numeric" (VStr "Less Than") (VArr [VStr "12 apples"])) "INT64"
     = Some "`amount` = NaN"
  /\ buildPredicateFromUser "amount"
       (mkFilterDef "numeric" (VStr "Less Than") (VArr [VStr "Empty"])) "INT64"
     = Some "(`amount` IS NULL OR CAST(`amount` AS STRING) = '')".
Proof.
  destruct (non_numeric_literal_is_coerced "amount" "numeric" "INT64" "12 apples"
              (VStr "Less Than") [] eq_refl eq_refl eq_refl)
    as (_ & _ & Huser & Hsaved).
  destruct (non_numeric_literal_is_coerced "amount" "numeric" "INT64" "Empty"
              (VStr "Less Than") [] eq_refl eq_refl eq_refl)
    as (_ & _ & Htoken & _).
  split; [exact Hsaved |]. split; [exact Huser | exact Htoken].
Defined.

Example blank_numeric_literal_is_zero :
  buildPredicateFromUser "amount" (mkFilterDef "NUMERIC" (VStr "equals") (VArr [VStr ""]))
    "NUMERIC"
  = Some "`amount` = 0".
Proof. reflexivity. Qed.

(** ** The literal empty tokens *)

(** On the saved path the empty and the not-empty predicate are reached
    through the modality only, whatever the values are. *)
Lemma saved_empty_predicate_needs_modality :
  forall (column : string) (def : FilterDef),
    buildPredicateFromDef column def = Some (buildEmptyNotEmpty column).(empty)
    \/ buildPredicateFromDef column def = Some (buildEmptyNotEmpty column).(notEmpty) ->
    let m := normalizeModality def.(modality) in
    includes dateTypes (toUpperCase def.(type)) = false
    /\ (includes emptyModalities m = true \/ includes notEmptyModalities m = true).
Proof.
  intros column def H m.
  unfold buildPredicateFromDef, freeTextPredicate in H. fold m in H.
  destruct (includes dateTypes (toUpperCase (type def))) eqn:Hd;
    destruct (includes emptyModalities m) eqn:He;
    destruct (includes notEmptyModalities m) eqn:Hn;
    simpl negb in H; simpl andb in H; cbv iota in H;
    try (split; [reflexivity | tauto]);
    exfalso;
    repeat match type of H with
           | context [if ?c then _ else _] => destruct c
           | context [match ?l with [] => _ | _ :: _ => _ end] => destruct l
           end;
    destruct H as [H | H]; discriminate H.
Qed.

(** C6. A user definition whose values are exactly [['Empty']] compiles
    to the predicate "the column is null or its text is empty", and one
    whose values are exactly [['Not Empty']] to its negation, whatever
    its type, its modality and the column's schema type.  The saved path
    has no such shortcut: with the same values it yields neither
    predicate unless the modality of a non-date definition asks for
    it. *)
Theorem empty_token_shortcut_user_only :
  forall (column ty fieldType : string) (mod_ : value),
    buildPredicateFromUser column (mkFilterDef ty mod_ (VArr [VStr "Empty"])) fieldType
    = Some ("(" ++ identOf column ++ " IS NULL OR CAST(" ++ identOf column
                ++ " AS STRING) = '')")
    /\ buildPredicateFromUser column (mkFilterDef ty mod_ (VArr [VStr "Not Empty"])) fieldType
       = Some ("(NOT (" ++ identOf column ++ " IS NULL OR CAST(" ++ identOf column
                        ++ " AS STRING) = ''))")
    /\ forall (token : string),
         let m := normalizeModality mod_ in
         includes dateTypes (toUpperCase ty) = true
         \/ (includes emptyModalities m = false /\ includes notEmptyModalities m = false) ->
         let saved := buildPredicateFromDef column (mkFilterDef ty mod_ (VArr [VStr token])) in
         saved <> Some (buildEmptyNotEmpty column).(empty)
         /\ saved <> Some (buildEmptyNotEmpty column).(notEmpty).
Proof.
  intros column ty fieldType mod_.
  split; [reflexivity |]. split; [reflexivity |].
  intros token m Hmod saved.
  assert (Hno : ~ (saved = Some (buildEmptyNotEmpty column).(empty)
                   \/ saved = Some (buildEmptyNotEmpty column).(notEmpty))).
  { intros H.
    destruct (saved_empty_predicate_needs_modality column _ H) as [Hd Hm].
    cbv zeta in Hm. simpl type in Hd. simpl modality in Hm. fold m in Hm.
    destruct Hmod as [Hdate | [He Hn]].
    - rewrite Hdate in Hd. discriminate.
    - rewrite He, Hn in Hm. destruct Hm; discriminate. }
  split; intros H; apply Hno; [left | right]; exact H.
Qed.

Lemma empty_token_shortcut_user_only_witness :
  buildPredicateFromUser "amount"
    (mkFilterDef "NUMERIC" (VStr "greater than") (VArr [VStr "Empty"])) "INT64"
  = Some "(`amount` IS NULL OR CAST(`amount` AS STRING) = '')"
  /\ buildPredicateFromDef "amount"
       (mkFilterDef "NUMERIC" (VStr "greater than") (VArr [VStr "Empty"]))
     <> Some (buildEmptyNotEmpty "amount").(empty).
Proof.
  pose proof (empty_token_shortcut_user_only "amount" "NUMERIC" "INT64"
                (VStr "greater than")) as (Huser & _ & Hsaved).
  split; [exact Huser |].
  apply (Hsaved "Empty"). right. split; reflexivity.
Defined.

Example saved_empty_token_is_a_list_member :
  buildPredicateFromDef "status" (mkFilterDef "LIST" VUndefined (VArr [VStr "Empty"]))
  = Some "`status` IN ('Empty')".
Proof. reflexivity. Qed.

(** ** Option discovery *)

Section Discovery.
Import Store FilterConfig.

Variable bq : BigQuery.
Variable qualified : string.

(** The store calls of one column do not depend on, and only extend,
  the trace so far. *)
Lemma tryBlock_trace (columnName type : string) (t : Trace) :
tryBlock bq qualified columnName type t
= (fst (tryBlock bq qualified columnName type []),
   (t ++ snd (tryBlock bq qualified columnName type []))%list).
Proof.
unfold tryBlock, bind, ret, query.
repeat match goal with
       | |- context [if ?c then _ else _] => destruct c
       | |- context [answer bq ?q] => destruct (answer bq q) as [[| ? ?] | ?]
       end;
  simpl; rewrite ?app_nil_r, <- ?app_assoc; reflexivity.
Qed.

Lemma resolveColumn_trace (columnName type : string) (t : Trace) :
resolveColumn bq qualified columnName type t
= (resolved bq qualified columnName type,
   (t ++ snd (tryBlock bq qualified columnName type []))%list).
Proof.
unfold resolved, resolveColumn, bind, ret.
rewrite (tryBlock_trace columnName type t).
destruct (tryBlock bq qualified columnName type []) as [[l threw] calls].
reflexivity.
Qed.

Lemma configLoop_entries (schemaFields : list Field) (t : Trace) :
fst (configLoop bq qualified schemaFields t)
= map (entryOf bq qualified) (filter notRecord schemaFields).
Proof.
revert t. induction schemaFields as [| f rest IH]; intros t; [reflexivity |].
simpl. unfold notRecord at 1.
destruct (String.eqb (type f) "RECORD"); simpl; [apply IH |].
unfold bind, ret. rewrite resolveColumn_trace.
specialize (IH (t ++ snd (tryBlock bq qualified (name f) (toUpperCase (type f)) []))%list).
destruct (configLoop bq qualified rest _) as [config t'].
simpl in IH. simpl. rewrite IH. reflexivity.
Qed.

Lemma orEmptyOptions_nonempty (opts : list value) : orEmptyOptions opts <> [].
Proof. destruct opts; discriminate. Qed.

End Discovery.

(** C7. Every entry that option discovery returns has a non-empty
    options list: an entry is made for each non-Record column from the
    column's own resolution, and a resolution that left no option
    receives exactly [['Empty', 'Not Empty']].  The same holds for the
    schema-only variant. *)
Theorem options_never_empty :
  forall (bq : Store.BigQuery) (projectId datasetId tableId : string)
         (schemaFields : list Store.Field) (t : Store.Trace),
    let qualified := FilterConfig.qualifiedName projectId datasetId tableId in
    let config :=
      fst (FilterConfig.generateFilterConfig bq projectId datasetId tableId schemaFields t) in
    Forall (fun e => e.(FilterConfig.options) <> []) config
    /\ Forall2 (fun f e =>
                  let l := FilterConfig.resolved bq qualified f.(Store.name)
                             (toUpperCase f.(Store.type)) in
                  e.(FilterConfig.columnName) = f.(Store.name)
                  /\ e.(FilterConfig.options)
                     = match l.(FilterConfig.l_options) with
                       | [] => [VStr "Empty"; VStr "Not Empty"]
                       | opts => opts
                       end)
               (filter FilterConfig.notRecord schemaFields) config
    /\ Forall (fun e => e.(FilterConfig.options) <> [])
              (FilterConfig.generateFilterConfigFromSchema schemaFields).
Proof.
  intros bq projectId datasetId tableId schemaFields t qualified config.
  assert (Hconfig : config = map (FilterConfig.entryOf bq qualified)
                                 (filter FilterConfig.notRecord schemaFields)).
  { apply configLoop_entries. }
  rewrite Hconfig. clear Hconfig config. split; [| split].
  - apply Forall_forall. intros e He. apply in_map_iff in He as (f & <- & _).
    apply orEmptyOptions_nonempty.
  - induction (filter FilterConfig.notRecord schemaFields) as [| f fs IH]; simpl;
      constructor; [| exact IH].
    split; [reflexivity |]. unfold FilterConfig.entryOf. simpl.
    destruct (FilterConfig.l_options _); reflexivity.
  - clear. induction schemaFields as [| f rest IH]; simpl; [constructor |].
    destruct (String.eqb (Store.type f) "RECORD"); [exact IH |].
    destruct (_ : bool); [| destruct (_ : bool); [| destruct (_ : bool); [| destruct (_ : bool)]]];
      constructor; try exact IH; discriminate.
Qed.

(** A [try] block throws only on a Text column, with no option set yet
    and with the archetype decided so far: [LIST] when the count query
    answered a count of at most 20, [FREETEXT] otherwise. *)
Lemma discoveryFailed_inv :
  forall (bq : Store.BigQuery) (qualified columnName type : string),
    FilterConfig.discoveryFailed bq qualified columnName type = true ->
    let l := FilterConfig.resolved bq qualified columnName type in
    type = "STRING"
    /\ l.(FilterConfig.l_options) = []
    /\ l.(FilterConfig.l_filterType)
       = (if FilterConfig.countAtMost20 bq qualified columnName then "LIST" else "FREETEXT").
Proof.
  intros bq qualified columnName type.
  unfold FilterConfig.discoveryFailed, FilterConfig.resolved, FilterConfig.resolveColumn,
    FilterConfig.countAtMost20, FilterConfig.tryBlock, Store.bind, Store.ret, Store.query.
  destruct (_ || _ || _)%bool; [discriminate |].
  destruct (_ || _)%bool; [discriminate |].
  destruct (includes FilterConfig.numericTypes type); [discriminate |].
  destruct (String.eqb_spec type "STRING") as [-> | _]; [| discriminate].
  destruct (Store.answer bq (FilterConfig.countQuery qualified columnName))
    as [[| first others] | err]; simpl; try (intros _; repeat split; reflexivity).
  destruct (numberLeZ _ 20).
  - destruct (Store.answer bq (FilterConfig.listQuery qualified columnName)); simpl;
      [discriminate | intros _; repeat split; reflexivity].
  - destruct (Store.answer bq (FilterConfig.topQuery qualified columnName)); simpl;
      [discriminate | intros _; repeat split; reflexivity].
Qed.

(** When the page exists, the schema is read and the row query answers,
    the handler returns the page, whatever the discovery queries did. *)
Lemma handler_returns_page :
  forall (bq : Store.BigQuery) (req : Handler.Request) (cfg : Catalog.PageConfiguration)
         (schema : option (list Store.Field)) (rows : list Store.Row) (t : Store.Trace),
    Catalog.getPageConfiguration req.(Handler.pageIdentifier) = Some (Catalog.Page cfg) ->
    Store.metadata bq cfg.(Catalog.datasetId) cfg.(Catalog.tableId) = Store.Ok schema ->
    let fields := Handler.fieldsOf schema in
    let qualified := FilterConfig.qualifiedName bq.(Store.projectId)
                       cfg.(Catalog.datasetId) cfg.(Catalog.tableId) in
    let saved := Handler.savedFilterDefinitionOf
                   (Handler.findSavedFilter cfg req.(Handler.savedFilterIdentifier)) in
    let p := Handler.paginationOf req in
    Store.answer bq
      (Handler.dataQuery qualified
         (Handler.whereSqlOf (Handler.whereClausesOf fields saved req.(Handler.userFilters)))
         (Handler.limitOf p) (Handler.offsetOf p)) = Store.Ok rows ->
    exists payload t',
      Handler.handler (Some bq) req t = (Handler.PageJson payload, t')
      /\ payload.(Handler.data) = rows
      /\ payload.(Handler.filterConfig)
         = map (FilterConfig.entryOf bq qualified) (filter FilterConfig.notRecord fields)
      /\ payload.(Handler.r_pagination).(Handler.totalRecords)
         = match Store.answer bq
                   (Handler.countQuery qualified
                      (Handler.whereSqlOf
                         (Handler.whereClausesOf fields saved req.(Handler.userFilters)))) with
           | Store.Ok (first :: _) => FilterConfig.numberOrZero (Store.getProp first "c")
           | _ => ofZ (Z.of_nat (List.length rows))
           end.
Proof.
  intros bq req cfg schema rows t Hcfg Hmeta fields qualified saved p Hrows.
  unfold Handler.handler. rewrite Hcfg.
  unfold Store.bind at 1. unfold Store.getMetadata. rewrite Hmeta.
  unfold Store.bind at 1.
  pose proof (configLoop_entries bq qualified fields
                (t ++ [Store.CallGetMetadata (Catalog.datasetId cfg) (Catalog.tableId cfg)])%list)
    as Hentries.
  unfold FilterConfig.generateFilterConfig. fold fields. fold qualified.
  destruct (FilterConfig.configLoop bq qualified fields _) as [config t2].
  simpl in Hentries.
  unfold Store.bind at 1. unfold Store.query at 1. fold saved. fold p. rewrite Hrows.
  unfold Store.bind, Store.ret.
  destruct (Handler.countRecords bq qualified _ rows _) as [total t3] eqn:Hcount.
  eexists _, _. split; [reflexivity |]. simpl.
  split; [reflexivity |]. split; [exact Hentries |].
  unfold Handler.countRecords, Store.bind, Store.query, Store.ret in Hcount.
  destruct (Store.answer bq (Handler.countQuery qualified _)) as [[| first others] | err];
    injection Hcount as <- _; reflexivity.
Qed.

(** The claim of C5 fails when the count query answers 3 and the
    distinct-values query then throws: the failed column keeps the
    archetype [LIST], it does not degrade to [FREETEXT]. *)
Lemma failed_list_query_keeps_list_archetype :
  FilterConfig.discoveryFailed Sample.flakyStore Sample.qualified "status" "STRING" = true
  /\ fst (FilterConfig.generateFilterConfig Sample.flakyStore "proj" "relata_schema" "activity"
            [Store.mkField "status" "STRING"] [])
     = [FilterConfig.mkEntry "status" "LIST" [VStr "Empty"; VStr "Not Empty"]]
  /\ (FilterConfig.resolved Sample.flakyStore Sample.qualified "status" "STRING")
       .(FilterConfig.l_filterType) <> "FREETEXT".
Proof. split; [reflexivity | split; [reflexivity | discriminate]]. Qed.

(** C5, amended.  A column whose discovery query fails is a Text
    column; it keeps the archetype decided before the failure -
    [FREETEXT] when the count query fails or the top-values query fails,
    [LIST] when the distinct-values query fails after a count of at
    most 20 - and an empty resolved option list, so that its entry
    carries the fallback options.  The failure is confined to the
    column: every non-Record column gets the entry of its own
    resolution, and the request returns its page whenever the schema
    read and the row query succeed. *)
Theorem discovery_failure_is_confined :
  forall (bq : Store.BigQuery) (projectId datasetId tableId : string)
         (schemaFields : list Store.Field) (t : Store.Trace),
    let qualified := FilterConfig.qualifiedName projectId datasetId tableId in
    fst (FilterConfig.generateFilterConfig bq projectId datasetId tableId schemaFields t)
    = map (FilterConfig.entryOf bq qualified) (filter FilterConfig.notRecord schemaFields)
    /\ (forall f : Store.Field,
          FilterConfig.discoveryFailed bq qualified f.(Store.name)
            (toUpperCase f.(Store.type)) = true ->
          let l := FilterConfig.resolved bq qualified f.(Store.name)
                     (toUpperCase f.(Store.type)) in
          toUpperCase f.(Store.type) = "STRING"
          /\ l.(FilterConfig.l_options) = []
          /\ l.(FilterConfig.l_filterType)
             = (if FilterConfig.countAtMost20 bq qualified f.(Store.name)
                then "LIST" else "FREETEXT")
          /\ (FilterConfig.entryOf bq qualified f).(FilterConfig.options)
             = [VStr "Empty"; VStr "Not Empty"])
    /\ (forall (req : Handler.Request) (cfg : Catalog.PageConfiguration)
               (schema : option (list Store.Field)) (rows : list Store.Row),
          Catalog.getPageConfiguration req.(Handler.pageIdentifier) = Some (Catalog.Page cfg) ->
          Store.metadata bq cfg.(Catalog.datasetId) cfg.(Catalog.tableId) = Store.Ok schema ->
          let p := Handler.paginationOf req in
          Store.answer bq
            (Handler.dataQuery
               (FilterConfig.qualifiedName bq.(Store.projectId)
                  cfg.(Catalog.datasetId) cfg.(Catalog.tableId))
               (Handler.whereSqlOf
                  (Handler.whereClausesOf (Handler.fieldsOf schema)
                     (Handler.savedFilterDefinitionOf
                        (Handler.findSavedFilter cfg req.(Handler.savedFilterIdentifier)))
                     req.(Handler.userFilters)))
               (Handler.limitOf p) (Handler.offsetOf p)) = Store.Ok rows ->
          exists payload t',
            Handler.handler (Some bq) req t = (Handler.PageJson payload, t')).
Proof.
  intros bq projectId datasetId tableId schemaFields t qualified.
  split; [apply configLoop_entries |]. split.
  - intros f Hfail l.
    destruct (discoveryFailed_inv bq qualified _ _ Hfail) as (Hty & Hopts & Hft).
    fold l in Hopts, Hft.
    repeat split; try assumption.
    unfold FilterConfig.entryOf. fold l. simpl. rewrite Hopts. reflexivity.
  - intros req cfg schema rows Hcfg Hmeta p Hrows.
    destruct (handler_returns_page bq req cfg schema rows t Hcfg Hmeta Hrows)
      as (payload & t' & Hrun & _).
    exists payload, t'. exact Hrun.
Qed.

Lemma discovery_failure_is_confined_witness :
  let f := Store.mkField "status" "string" in
  let l := FilterConfig.resolved Sample.flakyStore Sample.qualified "status" "STRING" in
  (l.(FilterConfig.l_options) = []
   /\ l.(FilterConfig.l_filterType) = "LIST"
   /\ (FilterConfig.entryOf Sample.flakyStore Sample.qualified f).(FilterConfig.options)
      = [VStr "Empty"; VStr "Not Empty"])
  /\ exists payload t',
       Handler.handler (Some Sample.flakyStore)
         (Handler.mkRequest "leads_view" None [] None) []
       = (Handler.PageJson payload, t').
Proof.
  intros f l.
  destruct (discovery_failure_is_confined Sample.flakyStore "proj" "relata_schema" "activity"
              Sample.fields []) as (_ & Hfailed & Hpage).
  split.
  - destruct (Hfailed f eq_refl) as (_ & Hopts & Hft & Hentry).
    split; [exact Hopts |]. split; [exact Hft | exact Hentry].
  - eapply (Hpage (Handler.mkRequest "leads_view" None [] None)).
    + reflexivity.
    + reflexivity.
    + vm_compute. reflexivity.
Defined.

(** The resolution of a Text column, on its own. *)
Lemma text_column_resolution :
  forall (bq : Store.BigQuery) (qualified columnName : string) (t : Store.Trace),
    let count := FilterConfig.countQuery qualified columnName in
    let list_ := FilterConfig.listQuery qualified columnName in
    let top := FilterConfig.topQuery qualified columnName in
    let values_ := map (fun r => Store.getProp r "v") in
    (exists calls,
       snd (FilterConfig.resolveColumn bq qualified columnName "STRING" t)
       = (t ++ Store.CallQuery count :: calls)%list)
    /\ (forall first others vals,
          Store.answer bq count = Store.Ok (first :: others) ->
          let distinctCount := FilterConfig.numberOrZero (Store.getProp first "c") in
          (numberLeZ distinctCount 20 = true ->
           Store.answer bq list_ = Store.Ok vals ->
           FilterConfig.resolveColumn bq qualified columnName "STRING" t
           = (FilterConfig.mkLocals "LIST" (values_ vals),
              (t ++ [Store.CallQuery count; Store.CallQuery list_])%list))
          /\ (numberLeZ distinctCount 20 = false ->
              Store.answer bq top = Store.Ok vals ->
              FilterConfig.resolveColumn bq qualified columnName "STRING" t
              = (FilterConfig.mkLocals "FREETEXT" (values_ vals),
                 (t ++ [Store.CallQuery count; Store.CallQuery top])%list))).
Proof.
  intros bq qualified columnName t count list_ top values_.
  split.
  - unfold FilterConfig.resolveColumn, FilterConfig.tryBlock, Store.bind, Store.ret,
      Store.query.
    change (String.eqb "STRING" "DATE" || String.eqb "STRING" "DATETIME"
            || String.eqb "STRING" "TIMESTAMP")%bool with false.
    change (String.eqb "STRING" "BOOL" || String.eqb "STRING" "BOOLEAN")%bool with false.
    change (includes FilterConfig.numericTypes "STRING") with false.
    change (String.eqb "STRING" "STRING") with true. cbv iota. fold count list_ top.
    destruct (Store.answer bq count) as [[| first others] | err]; simpl;
      try (exists []; reflexivity).
    destruct (numberLeZ _ 20).
    + destruct (Store.answer bq list_); simpl; rewrite <- app_assoc; eexists; reflexivity.
    + destruct (Store.answer bq top); simpl; rewrite <- app_assoc; eexists; reflexivity.
  - intros first others vals Hcount distinctCount.
    unfold FilterConfig.resolveColumn, FilterConfig.tryBlock, Store.bind, Store.ret,
      Store.query.
    change (String.eqb "STRING" "DATE" || String.eqb "STRING" "DATETIME"
            || String.eqb "STRING" "TIMESTAMP")%bool with false.
    change (String.eqb "STRING" "BOOL" || String.eqb "STRING" "BOOLEAN")%bool with false.
    change (includes FilterConfig.numericTypes "STRING") with false.
    change (String.eqb "STRING" "STRING") with true. cbv iota. fold count list_ top.
    rewrite Hcount. fold distinctCount.
    split; intros Hle Hvals; rewrite Hle, Hvals; simpl; rewrite <- app_assoc; reflexivity.
Qed.

(** The configuration and the store calls of discovery, column by
    column. *)
Lemma configLoop_by_column (bq : Store.BigQuery) (qualified : string)
    (schemaFields : list Store.Field) (t : Store.Trace) :
  FilterConfig.configLoop bq qualified schemaFields t
  = (map (FilterConfig.entryOf bq qualified) (filter FilterConfig.notRecord schemaFields),
     (t ++ flat_map (FilterConfig.columnCalls bq qualified)
             (filter FilterConfig.notRecord schemaFields))%list).
Proof.
  revert t. induction schemaFields as [| f rest IH]; intros t.
  - cbn. rewrite app_nil_r. reflexivity.
  - cbn [FilterConfig.configLoop filter].
    assert (Hnr : FilterConfig.notRecord f = negb (String.eqb (Store.type f) "RECORD"))
      by reflexivity.
    rewrite Hnr. clear Hnr.
    destruct (String.eqb (Store.type f) "RECORD"); cbn [negb]; [apply IH |].
    unfold Store.bind, Store.ret. rewrite resolveColumn_trace, IH.
    cbn [map flat_map]. unfold FilterConfig.columnCalls at 2.
    rewrite <- app_assoc. reflexivity.
Qed.

Lemma text_column_not_record (f : Store.Field) :
  toUpperCase f.(Store.type) = "STRING" -> FilterConfig.notRecord f = true.
Proof.
  intros H. unfold FilterConfig.notRecord.
  destruct (String.eqb_spec (Store.type f) "RECORD") as [E | _]; [| reflexivity].
  rewrite E in H. discriminate H.
Qed.

(** C2. For every Text column of the schema (a column whose type reads
    [STRING] in upper case), option discovery issues the approximate
    distinct-count query of the column.  When the count it answers is
    at most 20, the distinct-values query follows (non-null values cast
    to text, ascending, at most 20) and the configuration returned has
    the column's entry with archetype [LIST] and the [v] of the rows of
    that query as options; otherwise the top-values query follows
    (non-null values cast to text, by descending count, at most 10) and
    the entry has archetype [FREETEXT] and the [v] of its rows as
    options.  An entry whose query answered no row carries the fallback
    options. *)
Theorem text_column_discovery :
  forall (bq : Store.BigQuery) (projectId datasetId tableId : string)
         (schemaFields : list Store.Field) (t : Store.Trace) (f : Store.Field),
    In f schemaFields ->
    toUpperCase f.(Store.type) = "STRING" ->
    let qualified := "`" ++ projectId ++ "." ++ datasetId ++ "." ++ tableId ++ "`" in
    let column := f.(Store.name) in
    let count :=
      "SELECT APPROX_COUNT_DISTINCT(`" ++ column ++ "`) AS c FROM " ++ qualified in
    let list_ :=
      "SELECT DISTINCT CAST(`" ++ column ++ "` AS STRING) AS v FROM " ++ qualified
        ++ " WHERE `" ++ column ++ "` IS NOT NULL ORDER BY v LIMIT 20" in
    let top :=
      "SELECT CAST(`" ++ column ++ "` AS STRING) AS v, COUNT(1) AS c FROM " ++ qualified
        ++ " WHERE `" ++ column ++ "` IS NOT NULL GROUP BY v ORDER BY c DESC LIMIT 10" in
    let optionsOf (rows : list Store.Row) :=
      match map (fun r => Store.getProp r "v") rows with
      | [] => [VStr "Empty"; VStr "Not Empty"]
      | opts => opts
      end in
    let run :=
      FilterConfig.generateFilterConfig bq projectId datasetId tableId schemaFields t in
    (exists before after,
       snd run = (t ++ before ++ Store.CallQuery count :: after)%list)
    /\ forall first others vals,
         Store.answer bq count = Store.Ok (first :: others) ->
         let distinctCount := FilterConfig.numberOrZero (Store.getProp first "c") in
         (numberLeZ distinctCount 20 = true ->
          Store.answer bq list_ = Store.Ok vals ->
          In (FilterConfig.mkEntry column "LIST" (optionsOf vals)) (fst run)
          /\ exists before after,
               snd run
               = (t ++ before ++ Store.CallQuery count :: Store.CallQuery list_ :: after)%list)
         /\ (numberLeZ distinctCount 20 = false ->
             Store.answer bq top = Store.Ok vals ->
             In (FilterConfig.mkEntry column "FREETEXT" (optionsOf vals)) (fst run)
             /\ exists before after,
                  snd run
                  = (t ++ before ++ Store.CallQuery count :: Store.CallQuery top :: after)%list).
Proof.
  intros bq projectId datasetId tableId schemaFields t f Hin Hty qualified column count
    list_ top optionsOf run.
  assert (Hf : In f (filter FilterConfig.notRecord schemaFields)).
  { apply filter_In. split; [exact Hin | exact (text_column_not_record f Hty)]. }
  apply in_split in Hf as (l1 & l2 & Hsplit).
  assert (Hrun : run
                 = (map (FilterConfig.entryOf bq qualified) (l1 ++ f :: l2),
                    (t ++ flat_map (FilterConfig.columnCalls bq qualified) l1
                       ++ FilterConfig.columnCalls bq qualified f
                       ++ flat_map (FilterConfig.columnCalls bq qualified) l2)%list)).
  { unfold run, FilterConfig.generateFilterConfig.
    change (FilterConfig.qualifiedName projectId datasetId tableId) with qualified.
    rewrite configLoop_by_column, Hsplit, flat_map_app. reflexivity. }
  assert (Hentry : In (FilterConfig.entryOf bq qualified f) (fst run)).
  { rewrite Hrun. cbn [fst]. apply in_map. apply in_or_app. right. left. reflexivity. }
  destruct (text_column_resolution bq qualified column []) as [Hcount Hcases].
  cbv zeta in Hcount, Hcases.
  change (FilterConfig.countQuery qualified column) with count in Hcount, Hcases.
  change (FilterConfig.listQuery qualified column) with list_ in Hcases.
  change (FilterConfig.topQuery qualified column) with top in Hcases.
  assert (Hcalls : snd (FilterConfig.resolveColumn bq qualified column "STRING" [])
                   = FilterConfig.columnCalls bq qualified f).
  { rewrite resolveColumn_trace. unfold FilterConfig.columnCalls. rewrite Hty. reflexivity. }
  split.
  - destruct Hcount as [calls Hcalled]. rewrite Hcalls in Hcalled.
    exists (flat_map (FilterConfig.columnCalls bq qualified) l1),
           (calls ++ flat_map (FilterConfig.columnCalls bq qualified) l2)%list.
    rewrite Hrun. cbn [snd]. rewrite Hcalled. cbn [app]. reflexivity.
  - intros first others vals Hanswer distinctCount.
    destruct (Hcases first others vals Hanswer) as [Hlist Htop].
    split.
    + intros Hle Hvals. specialize (Hlist Hle Hvals).
      split.
      * replace (FilterConfig.mkEntry column "LIST" (optionsOf vals))
          with (FilterConfig.entryOf bq qualified f); [exact Hentry |].
        unfold FilterConfig.entryOf, FilterConfig.resolved. rewrite Hty.
        fold column. rewrite Hlist. cbn [fst FilterConfig.l_filterType FilterConfig.l_options].
        unfold optionsOf, FilterConfig.orEmptyOptions.
        destruct (map _ vals); reflexivity.
      * rewrite Hlist in Hcalls. cbn [snd app] in Hcalls.
        exists (flat_map (FilterConfig.columnCalls bq qualified) l1),
               (flat_map (FilterConfig.columnCalls bq qualified) l2).
        rewrite Hrun. cbn [snd]. rewrite <- Hcalls. reflexivity.
    + intros Hgt Hvals. specialize (Htop Hgt Hvals).
      split.
      * replace (FilterConfig.mkEntry column "FREETEXT" (optionsOf vals))
          with (FilterConfig.entryOf bq qualified f); [exact Hentry |].
        unfold FilterConfig.entryOf, FilterConfig.resolved. rewrite Hty.
        fold column. rewrite Htop. cbn [fst FilterConfig.l_filterType FilterConfig.l_options].
        unfold optionsOf, FilterConfig.orEmptyOptions.
        destruct (map _ vals); reflexivity.
      * rewrite Htop in Hcalls. cbn [snd app] in Hcalls.
        exists (flat_map (FilterConfig.columnCalls bq qualified) l1),
               (flat_map (FilterConfig.columnCalls bq qualified) l2).
        rewrite Hrun. cbn [snd]. rewrite <- Hcalls. reflexivity.
Qed.

Lemma text_column_discovery_witness :
  let run :=
    FilterConfig.generateFilterConfig Sample.store "proj" "relata_schema" "activity"
      Sample.fields [] in
  In (FilterConfig.mkEntry "status" "LIST" [VStr "active"; VStr "closed"; VStr "pending"])
     (fst run)
  /\ In (FilterConfig.mkEntry "city" "FREETEXT" [VStr "Pune"; VStr "Delhi"]) (fst run).
Proof.
  intros run. split.
  - exact (proj1 (proj1 (proj2 (text_column_discovery Sample.store "proj" "relata_schema"
                                  "activity" Sample.fields []
                                  (Store.mkField "status" "STRING")
                                  ltac:(left; reflexivity) eq_refl)
                           [("c", VNum (ofZ 3))] []
                           [[("v", VStr "active")]; [("v", VStr "closed")];
                            [("v", VStr "pending")]]
                           eq_refl)
                    eq_refl eq_refl)).
  - exact (proj1 (proj2 (proj2 (text_column_discovery Sample.store "proj" "relata_schema"
                                  "activity" Sample.fields []
                                  (Store.mkField "city" "STRING")
                                  ltac:(right; left; reflexivity) eq_refl)
                           [("c", VNum (ofZ 412))] []
                           [[("v", VStr "Pune"); ("c", VNum (ofZ 90))];
                            [("v", VStr "Delhi"); ("c", VNum (ofZ 71))]]
                           eq_refl)
                    eq_refl eq_refl)).
Defined.

(** ** The WHERE clause *)

Ltac split_branches :=
  repeat match goal with
         | |- context [if ?c then _ else _] => destruct c
         | |- context [match ?l with [] => _ | _ :: _ => _ end] => destruct l
         end.

(** No builder returns the empty string, so [if (pred)] drops nulls only. *)
Lemma buildPredicateFromDef_not_blank (column : string) (def : FilterDef) :
  buildPredicateFromDef column def <> Some "".
Proof.
  unfold buildPredicateFromDef, freeTextPredicate, buildEmptyNotEmpty, identOf.
  split_branches; simpl; discriminate.
Qed.

Lemma buildPredicateFromUser_not_blank (column : string) (def : FilterDef)
    (fieldType : string) :
  buildPredicateFromUser column def fieldType <> Some "".
Proof.
  unfold buildPredicateFromUser, relativeDatePredicate, freeTextPredicate,
    buildEmptyNotEmpty, identOf.
  split_branches; simpl; discriminate.
Qed.

Lemma pushPredicate_fragments (acc : list string) (pred : option string) :
  pred <> Some "" ->
  Handler.pushPredicate acc pred = (acc ++ Handler.fragmentsOf pred)%list.
Proof.
  intros H. destruct pred as [p |]; simpl; [| symmetry; apply app_nil_r].
  destruct (String.eqb_spec p ""); [subst; contradiction | reflexivity].
Qed.

Lemma savedLoop_compiledSaved types entries acc :
  Handler.savedLoop types entries acc = (acc ++ Handler.compiledSaved types entries)%list.
Proof.
  revert acc. induction entries as [| [col def] rest IH]; intros acc; simpl.
  - symmetry. apply app_nil_r.
  - unfold Handler.savedLoop in *. simpl. rewrite IH.
    destruct (Handler.mapHas types col); simpl.
    + rewrite pushPredicate_fragments by apply buildPredicateFromDef_not_blank.
      now rewrite <- app_assoc.
    + reflexivity.
Qed.

Lemma userLoop_compiledUser types entries acc :
  Handler.userLoop types entries acc = (acc ++ Handler.compiledUser types entries)%list.
Proof.
  revert acc. induction entries as [| [col def] rest IH]; intros acc; simpl.
  - symmetry. apply app_nil_r.
  - unfold Handler.userLoop in *. simpl. rewrite IH.
    destruct (Handler.mapGet types col) as [fieldType |]; simpl.
    + rewrite pushPredicate_fragments by apply buildPredicateFromUser_not_blank.
      now rewrite <- app_assoc.
    + reflexivity.
Qed.

Lemma whereClausesOf_combined fields saved user :
  Handler.whereClausesOf fields saved user = Handler.combinedFragments fields saved user.
Proof.
  unfold Handler.whereClausesOf, Handler.combinedFragments.
  rewrite userLoop_compiledUser, savedLoop_compiledSaved. reflexivity.
Qed.

Lemma mapGet_mapSet m k v k' :
  Handler.mapGet (Handler.mapSet m k v) k'
  = if String.eqb k k' then Some v else Handler.mapGet m k'.
Proof.
  induction m as [| [k0 v0] m IH]; simpl.
  - reflexivity.
  - destruct (String.eqb_spec k0 k) as [-> | Hk0]; simpl.
    + destruct (String.eqb k k'); reflexivity.
    + rewrite IH. destruct (String.eqb_spec k0 k') as [-> | Hk0'];
        [| reflexivity].
      destruct (String.eqb_spec k k'); [congruence | reflexivity].
Qed.

(** The columns the guard lets through are those of the schema. *)
Lemma fieldTypeByName_has (fields : list Store.Field) (col : string) :
  Handler.mapHas (Handler.fieldTypeByName fields) col
  = existsb (fun f => String.eqb f.(Store.name) col) fields.
Proof.
  unfold Handler.fieldTypeByName.
  assert (H : forall m,
             Handler.mapHas
               (fold_left (fun m f => Handler.mapSet m f.(Store.name)
                                        (toUpperCase f.(Store.type))) fields m) col
             = (Handler.mapHas m col
                || existsb (fun f => String.eqb f.(Store.name) col) fields)%bool).
  { induction fields as [| f fields IH]; intros m; simpl.
    - symmetry. apply orb_false_r.
    - rewrite IH. unfold Handler.mapHas at 1. rewrite mapGet_mapSet.
      destruct (String.eqb (Store.name f) col); simpl.
      + symmetry. apply orb_true_r.
      + reflexivity. }
  apply (H []).
Qed.

Lemma in_compiledSaved types entries col def frag :
  In (col, def) entries ->
  Handler.mapHas types col = true ->
  buildPredicateFromDef col def = Some frag ->
  In frag (Handler.compiledSaved types entries).
Proof.
  intros Hin Hknown Hfrag. unfold Handler.compiledSaved.
  apply in_flat_map. exists (col, def). split; [exact Hin |].
  simpl. rewrite Hknown, Hfrag. left. reflexivity.
Qed.

Lemma in_compiledUser types entries col def fieldType frag :
  In (col, def) entries ->
  Handler.mapGet types col = Some fieldType ->
  buildPredicateFromUser col def fieldType = Some frag ->
  In frag (Handler.compiledUser types entries).
Proof.
  intros Hin Hknown Hfrag. unfold Handler.compiledUser.
  apply in_flat_map. exists (col, def). split; [exact Hin |].
  simpl. rewrite Hknown, Hfrag. left. reflexivity.
Qed.

(** ** Quoting of literals *)

Section QuotingFacts.
Import Quoting.

Lemma noQuote_append (a b : string) : noQuote (a ++ b) = (noQuote a && noQuote b)%bool.
Proof.
  induction a as [| c a IH]; simpl; [reflexivity |].
  rewrite IH. apply andb_assoc.
Qed.

Lemma noQuote_revString (acc s : string) :
  noQuote (revString acc s) = (noQuote acc && noQuote s)%bool.
Proof.
  revert acc. induction s as [| c s IH]; intros acc; simpl.
  - symmetry. apply andb_true_r.
  - rewrite IH. simpl. destruct (Ascii.eqb c quote); simpl.
    + rewrite andb_false_r. reflexivity.
    + reflexivity.
Qed.

Lemma noQuote_span (p : ascii -> bool) (s : string) :
  noQuote s = true ->
  noQuote (fst (span p s)) = true /\ noQuote (snd (span p s)) = true.
Proof.
  induction s as [| c s IH]; simpl; intros H; [split; reflexivity |].
  apply andb_true_iff in H as [Hc Hs].
  destruct (p c).
  - destruct (span p s) as [a b]. simpl in *. destruct (IH Hs) as [Ha Hb].
    rewrite Hc, Ha. split; [reflexivity | exact Hb].
  - simpl. rewrite Hc, Hs. split; reflexivity.
Qed.

Lemma noQuote_takeString (n : nat) (s : string) :
  noQuote s = true -> noQuote (takeString n s) = true.
Proof.
  revert s. induction n as [| n IH]; intros [| c s]; simpl; try reflexivity.
  intros H. apply andb_true_iff in H as [Hc Hs]. rewrite Hc. simpl. apply IH, Hs.
Qed.

Lemma noQuote_dropString (n : nat) (s : string) :
  noQuote s = true -> noQuote (dropString n s) = true.
Proof.
  revert s. induction n as [| n IH]; intros [| c s]; simpl; try (intros H; exact H).
  intros H. apply andb_true_iff in H as [_ Hs]. apply IH, Hs.
Qed.

Lemma noQuote_repeatChar (n : nat) : noQuote (repeatChar "0" n) = true.
Proof. induction n as [| n IH]; simpl; [reflexivity | exact IH]. Qed.

Lemma noQuote_string_of_uint (d : Decimal.uint) :
  noQuote (NilEmpty.string_of_uint d) = true.
Proof. induction d; simpl; try reflexivity; exact IHd. Qed.

Lemma noQuote_digitsOfZ (z : Z) : noQuote (digitsOfZ z) = true.
Proof.
  unfold digitsOfZ, NilZero.string_of_uint.
  destruct (N.to_uint (Z.to_N z)) eqn:E; try reflexivity;
    rewrite <- E; apply noQuote_string_of_uint.
Qed.

Lemma noQuote_stripTrailingZeros (ds : string) :
  noQuote ds = true -> noQuote (stripTrailingZeros ds) = true.
Proof.
  intros H. unfold stripTrailingZeros.
  rewrite noQuote_revString. simpl.
  apply noQuote_span. rewrite noQuote_revString. simpl. exact H.
Qed.

Lemma noQuote_numberToString (x : number) : noQuote (numberToString x) = true.
Proof.
  destruct x as [| [|] | m e]; try reflexivity.
  unfold numberToString.
  destruct (m =? 0); [reflexivity |].
  pose proof (noQuote_digitsOfZ (Z.abs m)) as Hall.
  pose proof (noQuote_stripTrailingZeros _ Hall) as Hds.
  repeat match goal with
         | |- context [if ?c then _ else _] => destruct c
         end;
    cbv zeta;
    rewrite ?noQuote_append, ?Hds, ?noQuote_repeatChar, ?noQuote_digitsOfZ,
      ?(noQuote_takeString _ _ Hds), ?(noQuote_dropString _ _ Hds);
    reflexivity.
Qed.

End QuotingFacts.


Lemma readBody_escape (s rest : string) :
  startsWith (String quote "") rest = false ->
  Quoting.readBody (replaceAllChar quote "''" s ++ String quote rest) = Some (s, rest).
Proof.
  intros Hrest. induction s as [| c s IH].
  - cbn [replaceAllChar append Quoting.readBody]. rewrite Ascii.eqb_refl.
    destruct rest as [| d rest']; [reflexivity |].
    cbn [startsWith] in Hrest. rewrite andb_true_r in Hrest.
    rewrite Ascii.eqb_sym, Hrest. reflexivity.
  - cbn [replaceAllChar]. destruct (Ascii.eqb c quote) eqn:E.
    + change ("''" ++ replaceAllChar quote "''" s)
        with (String quote (String quote (replaceAllChar quote "''" s))).
      cbn [append Quoting.readBody]. rewrite Ascii.eqb_refl, IH.
      apply Ascii.eqb_eq in E. subst c. reflexivity.
    + cbn [append Quoting.readBody]. rewrite E, IH. reflexivity.
Qed.

Lemma Safe_join_literals (vals : list value) :
  Quoting.Safe (join ", " (map sqlStringLiteral vals)).
Proof.
  induction vals as [| v vals IH].
  - apply Quoting.Safe_raw. reflexivity.
  - destruct vals as [| w vals]; [apply Quoting.Safe_literal |].
    change (join ", " (map sqlStringLiteral (v :: w :: vals)))
      with (sqlStringLiteral v ++ ", " ++ join ", " (map sqlStringLiteral (w :: vals))).
    apply Quoting.Safe_append; [apply Quoting.Safe_literal |].
    apply (Quoting.Safe_append ", " _); [apply Quoting.Safe_raw; reflexivity | exact IH].
Qed.

Lemma noQuote_identOf (column : string) :
  Quoting.noQuote column = true -> Quoting.noQuote (identOf column) = true.
Proof.
  intros H. unfold identOf. simpl. rewrite noQuote_append, H. reflexivity.
Qed.

Ltac safe_text :=
  repeat first
    [ apply Quoting.Safe_literal
    | apply Safe_join_literals
    | apply Quoting.Safe_append
    | apply Quoting.Safe_raw;
      first [ reflexivity | assumption | apply noQuote_numberToString ] ].

Lemma Safe_emptyNotEmpty (column : string) :
  Quoting.noQuote column = true ->
  Quoting.Safe (buildEmptyNotEmpty column).(empty)
  /\ Quoting.Safe (buildEmptyNotEmpty column).(notEmpty).
Proof.
  intros H. pose proof (noQuote_identOf column H) as Hident.
  unfold buildEmptyNotEmpty. cbn [empty notEmpty].
  change " AS STRING) = '')" with (" AS STRING) = " ++ sqlStringLiteral (VStr "") ++ ")").
  change " AS STRING) = ''))" with (" AS STRING) = " ++ sqlStringLiteral (VStr "") ++ "))").
  split; safe_text.
Qed.

Lemma Some_inj {A : Type} (a b : A) : Some a = Some b -> a = b.
Proof. intros H. injection H as H. exact H. Qed.

Lemma Safe_freeText (ident modality : string) (vals : list value) (frag : string) :
  Quoting.noQuote ident = true ->
  freeTextPredicate ident modality vals = Some frag ->
  Quoting.Safe frag.
Proof.
  intros Hident. unfold freeTextPredicate.
  destruct vals as [| first rest]; [discriminate |].
  intros H. apply Some_inj in H. subst frag. cbv zeta.
  destruct (String.eqb modality "exact"); destruct (String.eqb modality "starts with");
    safe_text.
Qed.

(** Every quote of a fragment of the saved path lies in a literal
    rendered by [sqlStringLiteral]. *)
Lemma Safe_buildPredicateFromDef (column : string) (def : FilterDef) (frag : string) :
  Quoting.noQuote column = true ->
  buildPredicateFromDef column def = Some frag ->
  Quoting.Safe frag.
Proof.
  intros H. pose proof (noQuote_identOf column H) as Hident.
  destruct (Safe_emptyNotEmpty column H) as [Hempty HnotEmpty].
  unfold buildPredicateFromDef.
  repeat match goal with
         | |- context [if ?c then _ else _] => destruct c
         | |- context [match ?l with [] => _ | _ :: _ => _ end] => destruct l
         end;
    try discriminate;
    try (intros Hfrag; apply Some_inj in Hfrag; subst frag; assumption);
    try (apply Safe_freeText; assumption);
    intros Hfrag; apply Some_inj in Hfrag; subst frag; safe_text.
Qed.

Lemma Safe_buildPredicateFromUser (column : string) (def : FilterDef)
    (fieldType frag : string) :
  Quoting.noQuote column = true ->
  buildPredicateFromUser column def fieldType = Some frag ->
  Quoting.Safe frag.
Proof.
  intros H. pose proof (noQuote_identOf column H) as Hident.
  destruct (Safe_emptyNotEmpty column H) as [Hempty HnotEmpty].
  unfold buildPredicateFromUser, relativeDatePredicate.
  repeat match goal with
         | |- context [if ?c then _ else _] => destruct c
         | |- context [match ?l with [] => _ | _ :: _ => _ end] => destruct l
         end;
    try discriminate;
    try (intros Hfrag; apply Some_inj in Hfrag; subst frag; assumption);
    try (apply Safe_freeText; assumption);
    intros Hfrag; apply Some_inj in Hfrag; subst frag; safe_text.
Qed.

Lemma append_assoc (a b c : string) : (a ++ b) ++ c = a ++ b ++ c.
Proof. induction a as [| x a IH]; simpl; [reflexivity | now rewrite IH]. Qed.

Lemma sqlStringLiteral_quoted (v : value) :
  isNullish v = false ->
  sqlStringLiteral v = String quote (replaceAllChar quote "''" (toStr v) ++ String quote "").
Proof. intros H. unfold sqlStringLiteral. rewrite H. reflexivity. Qed.

Lemma readLiteral_sqlStringLiteral (v : value) (rest : string) :
  isNullish v = false ->
  startsWith (String quote "") rest = false ->
  Quoting.readLiteral (sqlStringLiteral v ++ rest) = Some (toStr v, rest).
Proof.
  intros Hv Hrest. rewrite (sqlStringLiteral_quoted v Hv).
  cbn [append Quoting.readLiteral]. rewrite Ascii.eqb_refl.
  rewrite append_assoc. cbn [append]. apply readBody_escape, Hrest.
Qed.






(** ** Further properties of the executor and of the column guard *)

(** X1. When the count query fails, or answers no row, the request
    still returns its page and the total is the number of rows of the
    page. *)
Theorem count_failure_degrades_total :
  forall (bq : Store.BigQuery) (req : Handler.Request) (cfg : Catalog.PageConfiguration)
         (schema : option (list Store.Field)) (rows : list Store.Row) (t : Store.Trace),
    Catalog.getPageConfiguration req.(Handler.pageIdentifier) = Some (Catalog.Page cfg) ->
    Store.metadata bq cfg.(Catalog.datasetId) cfg.(Catalog.tableId) = Store.Ok schema ->
    let qualified := FilterConfig.qualifiedName bq.(Store.projectId)
                       cfg.(Catalog.datasetId) cfg.(Catalog.tableId) in
    let whereSql :=
      Handler.whereSqlOf
        (Handler.whereClausesOf (Handler.fieldsOf schema)
           (Handler.savedFilterDefinitionOf
              (Handler.findSavedFilter cfg req.(Handler.savedFilterIdentifier)))
           req.(Handler.userFilters)) in
    let p := Handler.paginationOf req in
    Store.answer bq (Handler.dataQuery qualified whereSql (Handler.limitOf p) (Handler.offsetOf p))
    = Store.Ok rows ->
    (forall first others,
       Store.answer bq (Handler.countQuery qualified whereSql) <> Store.Ok (first :: others)) ->
    exists payload t',
      Handler.handler (Some bq) req t = (Handler.PageJson payload, t')
      /\ payload.(Handler.data) = rows
      /\ payload.(Handler.r_pagination).(Handler.totalRecords)
         = ofZ (Z.of_nat (List.length rows)).
Proof.
  intros bq req cfg schema rows t Hcfg Hmeta qualified whereSql p Hrows Hcount.
  destruct (handler_returns_page bq req cfg schema rows t Hcfg Hmeta Hrows)
    as (payload & t' & Hrun & Hdata & _ & Htotal).
  exists payload, t'. split; [exact Hrun |]. split; [exact Hdata |].
  rewrite Htotal. fold qualified. fold whereSql.
  destruct (Store.answer bq (Handler.countQuery qualified whereSql))
    as [[| first others] | err] eqn:E; try reflexivity.
  exfalso. exact (Hcount first others eq_refl).
Qed.

Lemma count_failure_degrades_total_witness :
  exists payload t',
    Handler.handler (Some Sample.countlessStore)
      (Handler.mkRequest "leads_view" None [] None) []
    = (Handler.PageJson payload, t')
    /\ payload.(Handler.data) = [[("status", VStr "active"); ("city", VStr "Pune")]]
    /\ payload.(Handler.r_pagination).(Handler.totalRecords) = ofZ 1.
Proof.
  eapply (count_failure_degrades_total Sample.countlessStore
            (Handler.mkRequest "leads_view" None [] None)).
  - reflexivity.
  - reflexivity.
  - vm_compute. reflexivity.
  - intros first others. vm_compute. discriminate.
Defined.

Lemma compiledSaved_app types a b :
  Handler.compiledSaved types (a ++ b)
  = (Handler.compiledSaved types a ++ Handler.compiledSaved types b)%list.
Proof. unfold Handler.compiledSaved. apply flat_map_app. Qed.

Lemma compiledUser_app types a b :
  Handler.compiledUser types (a ++ b)
  = (Handler.compiledUser types a ++ Handler.compiledUser types b)%list.
Proof. unfold Handler.compiledUser. apply flat_map_app. Qed.

(** X2. A definition on a column that the schema does not have adds
    no fragment, wherever it stands among the saved or among the user
    definitions: the clauses are those of the request without it. *)
Theorem unknown_column_is_skipped :
  forall (fields : list Store.Field) (before after others : list (string * FilterDef))
         (col : string) (def : FilterDef),
    existsb (fun f => String.eqb f.(Store.name) col) fields = false ->
    Handler.whereClausesOf fields (before ++ (col, def) :: after) others
    = Handler.whereClausesOf fields (before ++ after) others
    /\ Handler.whereClausesOf fields others (before ++ (col, def) :: after)
       = Handler.whereClausesOf fields others (before ++ after).
Proof.
  intros fields before after others col def Hunknown.
  rewrite <- fieldTypeByName_has in Hunknown.
  rewrite !whereClausesOf_combined. unfold Handler.combinedFragments.
  rewrite !compiledSaved_app, !compiledUser_app.
  assert (Hsaved : Handler.compiledSaved (Handler.fieldTypeByName fields)
                     ((col, def) :: after)
                   = Handler.compiledSaved (Handler.fieldTypeByName fields) after).
  { unfold Handler.compiledSaved. cbn [flat_map fst snd]. rewrite Hunknown. reflexivity. }
  assert (Huser : Handler.compiledUser (Handler.fieldTypeByName fields)
                    ((col, def) :: after)
                  = Handler.compiledUser (Handler.fieldTypeByName fields) after).
  { unfold Handler.compiledUser. cbn [flat_map fst snd].
    unfold Handler.mapHas in Hunknown.
    destruct (Handler.mapGet (Handler.fieldTypeByName fields) col); [discriminate |].
    reflexivity. }
  rewrite Hsaved, Huser. split; reflexivity.
Qed.

Lemma unknown_column_is_skipped_witness :
  Handler.whereClausesOf Sample.fields []
    [("status", mkFilterDef "LIST" VUndefined (VArr [VStr "active"]));
     ("legacy_code", mkFilterDef "LIST" VUndefined (VArr [VStr "a"]));
     ("city", mkFilterDef "FREETEXT" VUndefined (VArr [VStr "Pune"]))]
  = ["`status` IN ('active')"; "LOWER(CAST(`city` AS STRING)) LIKE LOWER('%Pune%')"].
Proof.
  etransitivity.
  - exact (proj2 (unknown_column_is_skipped Sample.fields
                    [("status", mkFilterDef "LIST" VUndefined (VArr [VStr "active"]))]
                    [("city", mkFilterDef "FREETEXT" VUndefined (VArr [VStr "Pune"]))]
                    [] "legacy_code" (mkFilterDef "LIST" VUndefined (VArr [VStr "a"]))
                    eq_refl)).
  - reflexivity.
Defined.

(** ** Case of types and modalities *)

Lemma lowerChar_upperChar (c : ascii) : lowerChar (upperChar c) = lowerChar c.
Proof. destruct c as [[|] [|] [|] [|] [|] [|] [|] [|]]; reflexivity. Qed.

Lemma upperChar_lowerChar (c : ascii) : upperChar (lowerChar c) = upperChar c.
Proof. destruct c as [[|] [|] [|] [|] [|] [|] [|] [|]]; reflexivity. Qed.

Lemma toLowerCase_toUpperCase (s : string) : toLowerCase (toUpperCase s) = toLowerCase s.
Proof.
  unfold toLowerCase, toUpperCase.
  induction s as [| c s IH]; cbn [mapString]; [reflexivity |].
  rewrite lowerChar_upperChar. f_equal. exact IH.
Qed.





(** ** When the builders give null, and when they agree *)

Lemma keyword_modalities_disjoint (m : string) :
  includes emptyModalities m = true -> includes notEmptyModalities m = false.
Proof.
  unfold includes, emptyModalities, notEmptyModalities. simpl.
  repeat match goal with
         | |- context [String.eqb m ?k] => destruct (String.eqb_spec m k); subst
         end; simpl; try discriminate; reflexivity.
Qed.

Lemma empty_predicate_differs (column : string) :
  (buildEmptyNotEmpty column).(empty) <> (buildEmptyNotEmpty column).(notEmpty).
Proof.
  unfold buildEmptyNotEmpty, identOf. cbn [empty notEmpty append]. discriminate.
Qed.

(** X4. On the saved path the "empty" predicate is produced exactly
    when the type is not a date type and the modality is one of
    [is_null], [empty], [is empty], and the "not empty" predicate
    exactly when it is one of [is_not_null], [not_empty],
    [is not empty]; the values play no part, and the second predicate is
    the first one under [NOT]. *)
Theorem saved_empty_predicates_iff :
  forall (column : string) (def : FilterDef),
    let ty := toUpperCase def.(type) in
    let m := normalizeModality def.(modality) in
    (buildPredicateFromDef column def = Some (buildEmptyNotEmpty column).(empty)
     <-> includes dateTypes ty = false /\ includes emptyModalities m = true)
    /\ (buildPredicateFromDef column def = Some (buildEmptyNotEmpty column).(notEmpty)
        <-> includes dateTypes ty = false /\ includes notEmptyModalities m = true)
    /\ (buildEmptyNotEmpty column).(notEmpty)
       = "(NOT " ++ (buildEmptyNotEmpty column).(empty) ++ ")".
Proof.
  intros column def ty m.
  assert (Hinv := saved_empty_predicate_needs_modality column def).
  cbv zeta in Hinv. fold ty m in Hinv.
  assert (Hrun : includes dateTypes ty = false ->
                 buildPredicateFromDef column def
                 = if includes emptyModalities m then Some (buildEmptyNotEmpty column).(empty)
                   else if includes notEmptyModalities m
                        then Some (buildEmptyNotEmpty column).(notEmpty)
                        else buildPredicateFromDef column def).
  { intros Hd. destruct (includes emptyModalities m) eqn:He;
      [| destruct (includes notEmptyModalities m) eqn:Hn; [| reflexivity]];
      unfold buildPredicateFromDef; fold ty m; rewrite Hd, He; try rewrite Hn;
      reflexivity. }
  assert (Hnot : (buildEmptyNotEmpty column).(notEmpty)
                 = "(NOT " ++ (buildEmptyNotEmpty column).(empty) ++ ")").
  { unfold buildEmptyNotEmpty. cbn [empty notEmpty]. rewrite !append_assoc. reflexivity. }
  pose proof (empty_predicate_differs column) as Hdiff.
  destruct (includes dateTypes ty) eqn:Hd.
  - split; [| split; [| exact Hnot]]; (split; [intros H | intros [F _]; discriminate F]).
    + destruct (Hinv (or_introl H)); discriminate.
    + destruct (Hinv (or_intror H)); discriminate.
  - specialize (Hrun eq_refl).
    pose proof (keyword_modalities_disjoint m) as Hdisj.
    destruct (includes emptyModalities m) eqn:He.
    + rewrite (Hdisj eq_refl). rewrite Hrun.
      split; [| split; [| exact Hnot]]; (split; [intros H | intros [_ F]]).
      * split; reflexivity.
      * reflexivity.
      * exfalso. apply Hdiff. congruence.
      * discriminate F.
    + destruct (includes notEmptyModalities m) eqn:Hn.
      * rewrite Hrun.
        split; [| split; [| exact Hnot]]; (split; [intros H | intros [_ F]]).
        -- exfalso. apply Hdiff. congruence.
        -- discriminate F.
        -- split; reflexivity.
        -- reflexivity.
      * split; [| split; [| exact Hnot]]; (split; [intros H | intros [_ F]; discriminate F]).
        -- destruct (Hinv (or_introl H)) as [_ [F | F]]; discriminate.
        -- destruct (Hinv (or_intror H)) as [_ [F | F]]; discriminate.
Qed.

(** X5. The saved path gives null exactly when there is nothing to
    constrain: for a date type, when neither bound is truthy; for any
    other type, when no empty/not-empty modality is set, the type is
    not [NUMERIC] and the values are empty.  A Numeric definition never
    compiles to null, also without a value. *)
Theorem saved_compiles_to_null_iff :
  forall (column : string) (def : FilterDef),
    let ty := toUpperCase def.(type) in
    let m := normalizeModality def.(modality) in
    let vals := arrayOrEmpty def.(values) in
    buildPredicateFromDef column def = None
    <-> if includes dateTypes ty
        then truthy (index vals 0) = false /\ truthy (index vals 1) = false
        else includes emptyModalities m = false
             /\ includes notEmptyModalities m = false
             /\ ty <> "NUMERIC"
             /\ vals = [].
Proof.
  intros column def ty m vals.
  unfold buildPredicateFromDef, freeTextPredicate. fold ty m vals.
  destruct (includes dateTypes ty) eqn:Hd; cbn [negb andb].
  - destruct (String.eqb_spec ty "LIST") as [E | _];
      [rewrite E in Hd; discriminate Hd |].
    destruct (String.eqb_spec ty "BOOLEAN") as [E | _];
      [rewrite E in Hd; discriminate Hd |].
    destruct (String.eqb_spec ty "BOOL") as [E | _];
      [rewrite E in Hd; discriminate Hd |].
    destruct (String.eqb_spec ty "NUMERIC") as [E | _];
      [rewrite E in Hd; discriminate Hd |].
    cbn [orb].
    destruct (truthy (index vals 0)); destruct (truthy (index vals 1)); cbn [negb andb];
      try (split; [intros _; split; reflexivity | reflexivity]);
      (split; [| intros [F1 F2]; discriminate]);
      destruct (String.eqb m "before"); try discriminate;
      destruct (String.eqb m "after"); try discriminate;
      destruct (String.eqb m "between"); discriminate.
  - destruct (includes emptyModalities m);
      [split; [discriminate | intros [F _]; discriminate F] |].
    destruct (includes notEmptyModalities m);
      [split; [discriminate | intros (_ & F & _); discriminate F] |].
    destruct (String.eqb_spec ty "LIST") as [E | NL].
    { destruct vals; (split; [intros H | intros (_ & _ & _ & F)]);
        try discriminate; repeat split; try reflexivity.
      rewrite E. discriminate. }
    destruct (String.eqb_spec ty "BOOLEAN") as [E | NB]; cbn [orb].
    { destruct vals; (split; [intros H | intros (_ & _ & _ & F)]);
        try discriminate; repeat split; try reflexivity.
      rewrite E. discriminate. }
    destruct (String.eqb_spec ty "BOOL") as [E | NB'].
    { destruct vals; (split; [intros H | intros (_ & _ & _ & F)]);
        try discriminate; repeat split; try reflexivity.
      rewrite E. discriminate. }
    destruct (String.eqb_spec ty "NUMERIC") as [E | NN].
    { split; [| intros (_ & _ & F & _); contradiction].
      destruct (String.eqb m "greater than"); try discriminate.
      destruct (String.eqb m "less than"); try discriminate.
      destruct (String.eqb m "between"); discriminate. }
    destruct vals; (split; [intros H | intros (_ & _ & _ & F)]);
      try discriminate; repeat split; try reflexivity; assumption.
Qed.

Lemma relative_token_compiles (colDate : string) (token : value) :
  (if negb (truthy token) then None else relativeDatePredicate colDate token) = None
  <-> Vocabulary.isRelativeToken token = false.
Proof.
  unfold relativeDatePredicate, Vocabulary.isRelativeToken, Vocabulary.relativeDateTokens.
  cbn [existsb].
  destruct token as [| | b | x | s | items |]; cbn [strictEq orb];
    try (split; [reflexivity | intros _; destruct (negb _); reflexivity]).
  repeat match goal with
         | |- context [String.eqb s ?k] =>
             destruct (String.eqb_spec s k) as [-> | ?];
             [cbn; split; discriminate |]
         end.
  cbn [orb]. split; [reflexivity | intros _; destruct (negb _); reflexivity].
Qed.

(** X6. The user path gives null exactly when the values are not a
    literal empty token and either the type is a date type and the first
    value is not one of the eight relative tokens (the modality is not
    read), or the type is not a date type, no empty/not-empty modality
    is set, and the values are empty or the type is [NUMERIC] with a
    first value containing [top 10%] or [bottom 10%]. *)
Theorem user_compiles_to_null_iff :
  forall (column fieldType : string) (def : FilterDef),
    let ty := toUpperCase (Vocabulary.effectiveType def fieldType) in
    let m := normalizeModality def.(modality) in
    let vals := arrayOrEmpty def.(values) in
    buildPredicateFromUser column def fieldType = None
    <-> isEmptyToken vals = false
        /\ if includes dateTypes ty
           then Vocabulary.isRelativeToken (index vals 0) = false
           else includes emptyModalities m = false
                /\ includes notEmptyModalities m = false
                /\ (vals = []
                    \/ (ty = "NUMERIC"
                        /\ exists s rest, vals = VStr s :: rest /\ isPercentileToken s = true)).
Proof.
  intros column fieldType def ty m vals.
  unfold buildPredicateFromUser, freeTextPredicate.
  change (toUpperCase (if negb (String.eqb (type def) "") then type def else fieldType))
    with ty.
  fold m vals.
  destruct (isEmptyToken vals);
    [split; [discriminate | intros [F _]; discriminate F] |].
  destruct (includes dateTypes ty) eqn:Hd; cbn [negb andb].
  - destruct (String.eqb_spec ty "LIST") as [E | _];
      [rewrite E in Hd; discriminate Hd |].
    destruct (String.eqb_spec ty "BOOLEAN") as [E | _];
      [rewrite E in Hd; discriminate Hd |].
    destruct (String.eqb_spec ty "BOOL") as [E | _];
      [rewrite E in Hd; discriminate Hd |].
    destruct (String.eqb_spec ty "NUMERIC") as [E | _];
      [rewrite E in Hd; discriminate Hd |].
    cbn [orb]. rewrite relative_token_compiles. tauto.
  - destruct (includes emptyModalities m);
      [split; [discriminate | intros (_ & F & _); discriminate F] |].
    destruct (includes notEmptyModalities m);
      [split; [discriminate | intros (_ & _ & F & _); discriminate F] |].
    destruct (String.eqb_spec ty "LIST") as [E | NL].
    { destruct vals as [| v vs].
      - split; [intros _; repeat split; left; reflexivity | reflexivity].
      - split; [discriminate |].
        intros (_ & _ & _ & [F | [F _]]); [discriminate F | rewrite E in F; discriminate F]. }
    destruct (String.eqb_spec ty "BOOLEAN") as [E | NB]; cbn [orb].
    { destruct vals as [| v vs].
      - split; [intros _; repeat split; left; reflexivity | reflexivity].
      - split; [discriminate |].
        intros (_ & _ & _ & [F | [F _]]); [discriminate F | rewrite E in F; discriminate F]. }
    destruct (String.eqb_spec ty "BOOL") as [E | NB'].
    { destruct vals as [| v vs].
      - split; [intros _; repeat split; left; reflexivity | reflexivity].
      - split; [discriminate |].
        intros (_ & _ & _ & [F | [F _]]); [discriminate F | rewrite E in F; discriminate F]. }
    destruct (String.eqb_spec ty "NUMERIC") as [E | NN].
    { destruct vals as [| v vs].
      - split; [intros _; repeat split; left; reflexivity | reflexivity].
      - destruct v as [| | b | x | s | items |];
          try (split; [discriminate |];
               intros (_ & _ & _ & [F | (_ & s' & rest & F & _)]); discriminate F).
        destruct (isPercentileToken s) eqn:Htok.
        + split; [| reflexivity]. intros _. repeat split. right. split; [exact E |].
          exists s, vs. split; [reflexivity | exact Htok].
        + split; [discriminate |].
          intros (_ & _ & _ & [F | (_ & s' & rest & F & Htok')]); [discriminate F |].
          injection F as -> _. rewrite Htok in Htok'. discriminate Htok'. }
    destruct vals as [| v vs].
    + split; [intros _; repeat split; left; reflexivity | reflexivity].
    + split; [discriminate |].
      intros (_ & _ & _ & [F | [F _]]); [discriminate F | contradiction].
Qed.

(** X7. Outside the literal empty tokens, the Numeric type and the date
    types, the user path compiles a definition to what the saved path
    gives for the same modality and values under the type the user path
    resolves ([userDef.type], else the column's schema type). *)
Theorem user_path_mirrors_saved_path :
  forall (column fieldType : string) (def : FilterDef),
    let ty := Vocabulary.effectiveType def fieldType in
    isEmptyToken (arrayOrEmpty def.(values)) = false ->
    toUpperCase ty <> "NUMERIC" ->
    includes dateTypes (toUpperCase ty) = false ->
    buildPredicateFromUser column def fieldType
    = buildPredicateFromDef column (mkFilterDef ty def.(modality) def.(values)).
Proof.
  intros column fieldType def ty Htok Hnum Hdate.
  unfold buildPredicateFromUser, buildPredicateFromDef.
  cbn [type modality values].
  change (if negb (String.eqb (type def) "") then type def else fieldType) with ty.
  rewrite Htok, Hdate.
  destruct (String.eqb_spec (toUpperCase ty) "NUMERIC") as [E | _]; [contradiction |].
  reflexivity.
Qed.

Lemma user_path_mirrors_saved_path_witness :
  buildPredicateFromUser "status"
    (mkFilterDef "" (VStr "Starts With") (VArr [VStr "act"])) "STRING"
  = buildPredicateFromDef "status"
      (mkFilterDef "STRING" (VStr "Starts With") (VArr [VStr "act"])).
Proof.
  apply (user_path_mirrors_saved_path "status" "STRING"
           (mkFilterDef "" (VStr "Starts With") (VArr [VStr "act"])));
    [reflexivity | discriminate | reflexivity].
Defined.

(** ** Archetypes, advertised options and the cost of discovery *)

Lemma resolved_filterType (bq : Store.BigQuery) (qualified columnName type : string) :
  (FilterConfig.resolved bq qualified columnName type).(FilterConfig.l_filterType)
  = match Vocabulary.archetypeOfType type with
    | Some archetype => archetype
    | None => if FilterConfig.countAtMost20 bq qualified columnName then "LIST" else "FREETEXT"
    end.
Proof.
  unfold FilterConfig.resolved, FilterConfig.resolveColumn, FilterConfig.tryBlock,
    FilterConfig.countAtMost20, Vocabulary.archetypeOfType, Store.bind, Store.ret,
    Store.query.
  change (includes dateTypes type)
    with (String.eqb type "DATE" || (String.eqb type "DATETIME"
          || (String.eqb type "TIMESTAMP" || false)))%bool.
  destruct (String.eqb type "DATE"); [reflexivity |].
  destruct (String.eqb type "DATETIME"); [reflexivity |].
  destruct (String.eqb type "TIMESTAMP"); [reflexivity |]. cbn [orb].
  destruct (String.eqb type "BOOL" || String.eqb type "BOOLEAN")%bool; [reflexivity |].
  destruct (includes FilterConfig.numericTypes type); [reflexivity |].
  destruct (String.eqb_spec type "STRING") as [-> | _]; [| reflexivity].
  destruct (Store.answer bq (FilterConfig.countQuery qualified columnName))
    as [[| first others] | err]; try reflexivity.
  destruct (numberLeZ _ 20).
  - destruct (Store.answer bq (FilterConfig.listQuery qualified columnName)); reflexivity.
  - destruct (Store.answer bq (FilterConfig.topQuery qualified columnName)); reflexivity.
Qed.

Lemma fromSchema_entries (schemaFields : list Store.Field) :
  map (fun e => (e.(FilterConfig.columnName), e.(FilterConfig.filterType)))
      (FilterConfig.generateFilterConfigFromSchema schemaFields)
  = map (fun f => (f.(Store.name),
                   match Vocabulary.archetypeOfType (toUpperCase f.(Store.type)) with
                   | Some archetype => archetype
                   | None => "FREETEXT"
                   end))
        (filter FilterConfig.notRecord schemaFields).
Proof.
  induction schemaFields as [| f rest IH]; [reflexivity |].
  cbn [FilterConfig.generateFilterConfigFromSchema filter]. unfold FilterConfig.notRecord at 1.
  destruct (String.eqb (Store.type f) "RECORD"); cbn [negb]; [exact IH |].
  cbn [map]. rewrite <- IH. f_equal.
  unfold Vocabulary.archetypeOfType.
  set (ty := toUpperCase (Store.type f)).
  change (includes dateTypes ty)
    with (String.eqb ty "DATE" || (String.eqb ty "DATETIME"
          || (String.eqb ty "TIMESTAMP" || false)))%bool.
  destruct (String.eqb ty "DATE"); [reflexivity |].
  destruct (String.eqb ty "DATETIME"); [reflexivity |].
  destruct (String.eqb ty "TIMESTAMP"); [reflexivity |]. cbn [orb].
  destruct (String.eqb ty "BOOL" || String.eqb ty "BOOLEAN")%bool; [reflexivity |].
  destruct (includes FilterConfig.numericTypes ty); [reflexivity |].
  destruct (String.eqb ty "STRING"); reflexivity.
Qed.

(** X8. The archetype of a column is fixed by its declared type, except
    for a Text column: date types give [DATE], boolean types [BOOLEAN],
    the four numeric types [NUMERIC], any other type but [STRING]
    gives [FREETEXT]; a [STRING] column is [LIST] when the count query
    answered a count of at most 20 and [FREETEXT] otherwise, also when a
    query failed.  The schema-only variant gives the same archetype for
    every column that is not Text, and [FREETEXT] for Text columns.
    An archetype is always one of the five. *)
Theorem archetype_by_declared_type :
  forall (bq : Store.BigQuery) (projectId datasetId tableId : string)
         (schemaFields : list Store.Field) (t : Store.Trace),
    let qualified := FilterConfig.qualifiedName projectId datasetId tableId in
    let config :=
      fst (FilterConfig.generateFilterConfig bq projectId datasetId tableId schemaFields t) in
    map (fun e => (e.(FilterConfig.columnName), e.(FilterConfig.filterType))) config
    = map (fun f =>
             (f.(Store.name),
              match Vocabulary.archetypeOfType (toUpperCase f.(Store.type)) with
              | Some archetype => archetype
              | None => if FilterConfig.countAtMost20 bq qualified f.(Store.name)
                        then "LIST" else "FREETEXT"
              end))
          (filter FilterConfig.notRecord schemaFields)
    /\ map (fun e => (e.(FilterConfig.columnName), e.(FilterConfig.filterType)))
           (FilterConfig.generateFilterConfigFromSchema schemaFields)
       = map (fun f =>
                (f.(Store.name),
                 match Vocabulary.archetypeOfType (toUpperCase f.(Store.type)) with
                 | Some archetype => archetype
                 | None => "FREETEXT"
                 end))
             (filter FilterConfig.notRecord schemaFields)
    /\ Forall (fun e => In e.(FilterConfig.filterType) Vocabulary.archetypes) config.
Proof.
  intros bq projectId datasetId tableId schemaFields t qualified config.
  assert (Hconfig : config = map (FilterConfig.entryOf bq qualified)
                                 (filter FilterConfig.notRecord schemaFields))
    by apply configLoop_entries.
  assert (Hmap : map (fun e => (e.(FilterConfig.columnName), e.(FilterConfig.filterType)))
                     config
                 = map (fun f =>
                          (f.(Store.name),
                           match Vocabulary.archetypeOfType (toUpperCase f.(Store.type)) with
                           | Some archetype => archetype
                           | None => if FilterConfig.countAtMost20 bq qualified f.(Store.name)
                                     then "LIST" else "FREETEXT"
                           end))
                       (filter FilterConfig.notRecord schemaFields)).
  { rewrite Hconfig, map_map. apply map_ext. intros f.
    unfold FilterConfig.entryOf. cbn [FilterConfig.columnName FilterConfig.filterType].
    rewrite resolved_filterType. reflexivity. }
  split; [exact Hmap |]. split; [apply fromSchema_entries |].
  apply Forall_forall. intros e He.
  assert (Hin : In (e.(FilterConfig.columnName), e.(FilterConfig.filterType))
                   (map (fun e => (e.(FilterConfig.columnName), e.(FilterConfig.filterType)))
                        config)).
  { apply in_map_iff. exists e. split; [reflexivity | exact He]. }
  rewrite Hmap in Hin. apply in_map_iff in Hin as (f & Hf & _).
  injection Hf as _ <-.
  unfold Vocabulary.archetypeOfType, Vocabulary.archetypes.
  repeat match goal with
         | |- context [if ?c then _ else _] => destruct c
         end; simpl; tauto.
Qed.

Lemma resolved_shape (bq : Store.BigQuery) (qualified columnName type : string) :
  let l := FilterConfig.resolved bq qualified columnName type in
  l = FilterConfig.mkLocals "DATE" (map VStr Vocabulary.relativeDateTokens)
  \/ l = FilterConfig.mkLocals "BOOLEAN" [VBool true; VBool false]
  \/ l = FilterConfig.mkLocals "NUMERIC" [VStr "top 10%"; VStr "bottom 10%"]
  \/ l.(FilterConfig.l_filterType) = "LIST"
  \/ l.(FilterConfig.l_filterType) = "FREETEXT".
Proof.
  unfold FilterConfig.resolved, FilterConfig.resolveColumn, FilterConfig.tryBlock,
    Store.bind, Store.ret, Store.query.
  destruct (_ || _ || _)%bool; [left; reflexivity |].
  destruct (_ || _)%bool; [right; left; reflexivity |].
  destruct (includes FilterConfig.numericTypes type); [right; right; left; reflexivity |].
  destruct (String.eqb_spec type "STRING") as [-> | _];
    [| right; right; right; right; reflexivity].
  destruct (Store.answer bq (FilterConfig.countQuery qualified columnName))
    as [[| first others] | err]; try (right; right; right; right; reflexivity).
  destruct (numberLeZ _ 20).
  - destruct (Store.answer bq (FilterConfig.listQuery qualified columnName));
      right; right; right; left; reflexivity.
  - destruct (Store.answer bq (FilterConfig.topQuery qualified columnName));
      right; right; right; right; reflexivity.
Qed.

Lemma list_chip_compiles (column fieldType : string) (opt : value) :
  buildPredicateFromUser column (Vocabulary.chipDef "LIST" opt) fieldType <> None.
Proof.
  unfold buildPredicateFromUser, Vocabulary.chipDef.
  cbn [type modality values arrayOrEmpty].
  destruct (isEmptyToken [opt]); [discriminate |]. cbn. discriminate.
Qed.

Lemma freetext_chip_compiles (column fieldType : string) (opt : value) :
  buildPredicateFromUser column (Vocabulary.chipDef "FREETEXT" opt) fieldType <> None.
Proof.
  unfold buildPredicateFromUser, Vocabulary.chipDef.
  cbn [type modality values arrayOrEmpty].
  destruct (isEmptyToken [opt]); [discriminate |]. cbn. discriminate.
Qed.

(** X9. Every option that discovery attaches to a column compiles to a
    predicate when the page script sends it as a single chip
    [{ type: filterType, values: [option] }], except on Numeric columns:
    their two percentile options always compile to null. *)
Theorem advertised_options_compile :
  forall (bq : Store.BigQuery) (projectId datasetId tableId fieldType : string)
         (schemaFields : list Store.Field) (t : Store.Trace)
         (e : FilterConfig.Entry) (opt : value),
    In e (fst (FilterConfig.generateFilterConfig bq projectId datasetId tableId
                 schemaFields t)) ->
    In opt e.(FilterConfig.options) ->
    let compiled :=
      buildPredicateFromUser e.(FilterConfig.columnName)
        (Vocabulary.chipDef e.(FilterConfig.filterType) opt) fieldType in
    (e.(FilterConfig.filterType) = "NUMERIC" -> compiled = None)
    /\ (e.(FilterConfig.filterType) <> "NUMERIC" -> compiled <> None).
Proof.
  intros bq projectId datasetId tableId fieldType schemaFields t e opt He Hopt compiled.
  unfold FilterConfig.generateFilterConfig in He.
  rewrite configLoop_entries in He. apply in_map_iff in He as (f & <- & _).
  unfold compiled. clear compiled. revert Hopt.
  unfold FilterConfig.entryOf.
  cbn [FilterConfig.columnName FilterConfig.filterType FilterConfig.options].
  set (qualified := FilterConfig.qualifiedName projectId datasetId tableId).
  destruct (resolved_shape bq qualified (Store.name f) (toUpperCase (Store.type f)))
    as [H | [H | [H | [H | H]]]]; try rewrite H;
    cbn [FilterConfig.l_filterType FilterConfig.l_options FilterConfig.orEmptyOptions].
  - intros Hopt. split; [discriminate |]. intros _.
    cbn in Hopt. decompose [or] Hopt; try contradiction; subst opt; discriminate.
  - intros Hopt. split; [discriminate |]. intros _.
    cbn in Hopt. decompose [or] Hopt; try contradiction; subst opt; discriminate.
  - intros Hopt. split; [| intros F; contradiction]. intros _.
    cbn in Hopt. decompose [or] Hopt; try contradiction; subst opt; reflexivity.
  - intros _. split; [discriminate |]. intros _. apply list_chip_compiles.
  - intros _. split; [discriminate |]. intros _. apply freetext_chip_compiles.
Qed.

Lemma advertised_options_compile_witness :
  buildPredicateFromUser "status" (Vocabulary.chipDef "LIST" (VStr "closed")) "STRING" <> None
  /\ buildPredicateFromUser "amount" (Vocabulary.chipDef "NUMERIC" (VStr "top 10%")) "NUMERIC"
     = None.
Proof.
  split.
  - apply (advertised_options_compile Sample.store "proj" "relata_schema" "activity" "STRING"
             Sample.fields []
             (FilterConfig.mkEntry "status" "LIST"
                [VStr "active"; VStr "closed"; VStr "pending"])
             (VStr "closed")).
    + left. reflexivity.
    + right. left. reflexivity.
    + discriminate.
  - apply (advertised_options_compile Sample.store "proj" "relata_schema" "activity" "NUMERIC"
             Sample.fields []
             (FilterConfig.mkEntry "amount" "NUMERIC" [VStr "top 10%"; VStr "bottom 10%"])
             (VStr "top 10%")).
    + right. right. left. reflexivity.
    + left. reflexivity.
    + reflexivity.
Defined.

Lemma tryBlock_calls (bq : Store.BigQuery) (qualified columnName type : string) :
  let calls := snd (FilterConfig.tryBlock bq qualified columnName type []) in
  forallb Vocabulary.isQueryCall calls = true
  /\ (if String.eqb type "STRING"
      then (1 <= List.length calls <= 2)%nat
      else calls = []).
Proof.
  unfold FilterConfig.tryBlock, Store.bind, Store.ret, Store.query.
  destruct (String.eqb_spec type "STRING") as [-> | Hty].
  - change (String.eqb "STRING" "DATE" || String.eqb "STRING" "DATETIME"
            || String.eqb "STRING" "TIMESTAMP")%bool with false.
    change (String.eqb "STRING" "BOOL" || String.eqb "STRING" "BOOLEAN")%bool with false.
    change (includes FilterConfig.numericTypes "STRING") with false.
    change (String.eqb "STRING" "STRING") with true. cbv iota.
    destruct (Store.answer bq (FilterConfig.countQuery qualified columnName))
      as [[| first others] | err];
      [| destruct (numberLeZ _ 20);
         [destruct (Store.answer bq (FilterConfig.listQuery qualified columnName))
         | destruct (Store.answer bq (FilterConfig.topQuery qualified columnName))] |];
      cbn; (split; [reflexivity | lia]).
  - destruct (_ || _ || _)%bool; [split; reflexivity |].
    destruct (_ || _)%bool; [split; reflexivity |].
    destruct (includes FilterConfig.numericTypes type); [split; reflexivity |].
    destruct (String.eqb_spec type "STRING"); [contradiction | split; reflexivity].
Qed.

Lemma configLoop_calls (bq : Store.BigQuery) (qualified : string)
    (schemaFields : list Store.Field) (t : Store.Trace) :
  exists calls,
    snd (FilterConfig.configLoop bq qualified schemaFields t) = (t ++ calls)%list
    /\ forallb Vocabulary.isQueryCall calls = true
    /\ (List.length (filter Vocabulary.isTextColumn schemaFields) <= List.length calls
        <= 2 * List.length (filter Vocabulary.isTextColumn schemaFields))%nat.
Proof.
  revert t. induction schemaFields as [| f rest IH]; intros t.
  - exists []. cbn. rewrite app_nil_r. repeat split; lia.
  - cbn [FilterConfig.configLoop filter].
    assert (Htext : Vocabulary.isTextColumn f
                    = (negb (String.eqb (Store.type f) "RECORD")
                       && String.eqb (toUpperCase (Store.type f)) "STRING")%bool)
      by reflexivity.
    rewrite Htext. clear Htext.
    destruct (String.eqb (Store.type f) "RECORD"); cbn [negb andb]; [apply IH |].
    unfold Store.bind, Store.ret. rewrite resolveColumn_trace.
    destruct (tryBlock_calls bq qualified (Store.name f) (toUpperCase (Store.type f)))
      as [Hq Hlen].
    set (mine := snd (FilterConfig.tryBlock bq qualified (Store.name f)
                        (toUpperCase (Store.type f)) [])) in *.
    destruct (IH (t ++ mine)%list) as (calls & Htrace & Hqs & Hbound).
    destruct (FilterConfig.configLoop bq qualified rest (t ++ mine)%list) as [config t'].
    cbn [snd] in *. exists (mine ++ calls)%list.
    split; [rewrite Htrace; symmetry; apply app_assoc |].
    split; [rewrite forallb_app, Hq, Hqs; reflexivity |].
    rewrite length_app.
    destruct (String.eqb (toUpperCase (Store.type f)) "STRING").
    + cbn [List.length]. lia.
    + rewrite Hlen. cbn [List.length]. lia.
Qed.

(** X10. Option discovery only appends queries to the trace of store
    calls, column by column in schema order, Record columns left out:
    for a Text column its count query and at most one query more, for
    any other column none. *)
Theorem discovery_cost :
  forall (bq : Store.BigQuery) (projectId datasetId tableId : string)
         (schemaFields : list Store.Field) (t : Store.Trace),
    let qualified := FilterConfig.qualifiedName projectId datasetId tableId in
    snd (FilterConfig.generateFilterConfig bq projectId datasetId tableId schemaFields t)
    = (t ++ flat_map (FilterConfig.columnCalls bq qualified)
              (filter FilterConfig.notRecord schemaFields))%list
    /\ forall f : Store.Field,
         forallb Vocabulary.isQueryCall (FilterConfig.columnCalls bq qualified f) = true
         /\ (if String.eqb (toUpperCase f.(Store.type)) "STRING"
             then exists more,
                    FilterConfig.columnCalls bq qualified f
                    = Store.CallQuery (FilterConfig.countQuery qualified f.(Store.name))
                        :: more
                    /\ (List.length more <= 1)%nat
             else FilterConfig.columnCalls bq qualified f = []).
Proof.
  intros bq projectId datasetId tableId schemaFields t qualified.
  split.
  - unfold FilterConfig.generateFilterConfig. fold qualified.
    rewrite configLoop_by_column. reflexivity.
  - intros f.
    destruct (tryBlock_calls bq qualified (Store.name f) (toUpperCase (Store.type f)))
      as [Hq Hlen].
    fold (FilterConfig.columnCalls bq qualified f) in Hq, Hlen.
    split; [exact Hq |].
    destruct (String.eqb_spec (toUpperCase (Store.type f)) "STRING") as [Hty | _];
      [| exact Hlen].
    destruct (text_column_resolution bq qualified (Store.name f) []) as [[more Hcount] _].
    rewrite resolveColumn_trace in Hcount. cbn [snd app] in Hcount.
    rewrite <- Hty in Hcount. fold (FilterConfig.columnCalls bq qualified f) in Hcount.
    exists more. split; [exact Hcount |].
    rewrite Hcount in Hlen. cbn [List.length] in Hlen. lia.
Qed.

(** ** Runs of the request handler *)

Lemma configLoop_trace (bq : Store.BigQuery) (qualified : string)
    (schemaFields : list Store.Field) (t : Store.Trace) :
  FilterConfig.configLoop bq qualified schemaFields t
  = (fst (FilterConfig.configLoop bq qualified schemaFields []),
     (t ++ snd (FilterConfig.configLoop bq qualified schemaFields []))%list).
Proof.
  revert t. induction schemaFields as [| f rest IH]; intros t.
  - cbn. rewrite app_nil_r. reflexivity.
  - cbn [FilterConfig.configLoop].
    destruct (String.eqb (Store.type f) "RECORD"); [apply IH |].
    unfold Store.bind, Store.ret.
    rewrite (resolveColumn_trace bq qualified _ _ t).
    rewrite (resolveColumn_trace bq qualified _ _ []).
    set (mine := snd (FilterConfig.tryBlock bq qualified (Store.name f)
                        (toUpperCase (Store.type f)) [])).
    rewrite (IH (t ++ mine)%list), (IH ([] ++ mine)%list).
    cbn [fst snd app]. rewrite app_assoc. reflexivity.
Qed.

(** The run of the handler on a known page, with a client, a readable
    schema and an answered row query. *)
Lemma handler_page_run :
  forall (bq : Store.BigQuery) (req : Handler.Request) (cfg : Catalog.PageConfiguration)
         (schema : option (list Store.Field)) (rows : list Store.Row) (t : Store.Trace),
    Catalog.getPageConfiguration req.(Handler.pageIdentifier) = Some (Catalog.Page cfg) ->
    Store.metadata bq cfg.(Catalog.datasetId) cfg.(Catalog.tableId) = Store.Ok schema ->
    let fields := Handler.fieldsOf schema in
    let qualified := FilterConfig.qualifiedName bq.(Store.projectId)
                       cfg.(Catalog.datasetId) cfg.(Catalog.tableId) in
    let savedFilter := Handler.findSavedFilter cfg req.(Handler.savedFilterIdentifier) in
    let whereSql :=
      Handler.whereSqlOf
        (Handler.whereClausesOf fields (Handler.savedFilterDefinitionOf savedFilter)
           req.(Handler.userFilters)) in
    let p := Handler.paginationOf req in
    let sql := Handler.dataQuery qualified whereSql (Handler.limitOf p) (Handler.offsetOf p) in
    Store.answer bq sql = Store.Ok rows ->
    let total :=
      match Store.answer bq (Handler.countQuery qualified whereSql) with
      | Store.Ok (first :: _) => FilterConfig.numberOrZero (Store.getProp first "c")
      | _ => ofZ (Z.of_nat (List.length rows))
      end in
    Handler.handler (Some bq) req t
    = (Handler.PageJson
         {| Handler.pageDetails :=
              Handler.mkPageDetails cfg.(Catalog.title) cfg.(Catalog.subtitle);
            Handler.tableHeaders :=
              Headers.formatTableHeaders
                (map Store.name (filter FilterConfig.notRecord fields));
            Handler.data := rows;
            Handler.filterConfig :=
              map (FilterConfig.entryOf bq qualified) (filter FilterConfig.notRecord fields);
            Handler.savedFilters :=
              map (fun sf => Handler.mkSavedFilterRef sf.(Catalog.identifier)
                               sf.(Catalog.displayName))
                  cfg.(Catalog.savedFilters);
            Handler.r_pagination :=
              Handler.mkPaginationInfo (Handler.orDefault p.(Handler.page) 1)
                (Handler.limitOf p) total (maxZ 1 (ceilDiv total (Handler.limitOf p)));
            Handler.appliedSavedFilter := savedFilter |},
       (t ++ Store.CallGetMetadata cfg.(Catalog.datasetId) cfg.(Catalog.tableId)
            :: snd (FilterConfig.configLoop bq qualified fields [])
            ++ [Store.CallQuery sql;
                Store.CallQuery (Handler.countQuery qualified whereSql)])%list).
Proof.
  intros bq req cfg schema rows t Hcfg Hmeta fields qualified savedFilter whereSql p sql
    Hrows total.
  unfold Handler.handler. rewrite Hcfg.
  unfold Store.bind at 1. unfold Store.getMetadata. rewrite Hmeta.
  unfold Store.bind at 1. unfold FilterConfig.generateFilterConfig.
  fold fields. fold qualified. rewrite configLoop_trace.
  rewrite (configLoop_entries bq qualified fields []).
  unfold Store.bind at 1. unfold Store.query at 1.
  fold savedFilter. fold whereSql. fold p. fold sql. rewrite Hrows.
  unfold Store.bind, Store.ret, Handler.countRecords, Store.bind, Store.query, Store.ret.
  unfold total.
  destruct (Store.answer bq (Handler.countQuery qualified whereSql))
    as [[| first others] | err]; cbn [fst snd];
    (f_equal; rewrite <- !app_assoc; reflexivity).
Qed.

Lemma handler_page_conditions :
  forall (bq : Store.BigQuery) (req : Handler.Request) (t t' : Store.Trace)
         (payload : Handler.ResponsePayload),
    Handler.handler (Some bq) req t = (Handler.PageJson payload, t') ->
    exists cfg schema rows,
      Catalog.getPageConfiguration req.(Handler.pageIdentifier) = Some (Catalog.Page cfg)
      /\ Store.metadata bq cfg.(Catalog.datasetId) cfg.(Catalog.tableId) = Store.Ok schema
      /\ Store.answer bq (Run.rowQueryOf bq cfg req schema) = Store.Ok rows.
Proof.
  intros bq req t t' payload H.
  unfold Handler.handler in H.
  destruct (Catalog.getPageConfiguration (Handler.pageIdentifier req))
    as [[cfg | member] |] eqn:Hcfg;
    [| exfalso; exact (memberRun_not_page bq req t t' payload H) | discriminate].
  unfold Store.bind, Store.getMetadata, Store.ret in H.
  destruct (Store.metadata bq (Catalog.datasetId cfg) (Catalog.tableId cfg))
    as [schema | err] eqn:Hmeta; [| discriminate].
  match type of H with
  | context [FilterConfig.generateFilterConfig ?a ?b ?c ?d ?e ?f] =>
      destruct (FilterConfig.generateFilterConfig a b c d e f) as [fc t2]
  end.
  unfold Store.query in H.
  match type of H with
  | context [Store.answer bq ?q] => destruct (Store.answer bq q) as [rows | err] eqn:Hrows
  end; [| discriminate].
  exists cfg, schema, rows. split; [reflexivity |]. split; [exact Hmeta | exact Hrows].
Qed.

(** The run of the handler on a known page whose row query throws. *)
Lemma handler_row_failure_run :
  forall (bq : Store.BigQuery) (req : Handler.Request) (cfg : Catalog.PageConfiguration)
         (schema : option (list Store.Field)) (error : string) (t : Store.Trace),
    Catalog.getPageConfiguration req.(Handler.pageIdentifier) = Some (Catalog.Page cfg) ->
    Store.metadata bq cfg.(Catalog.datasetId) cfg.(Catalog.tableId) = Store.Ok schema ->
    Store.answer bq (Run.rowQueryOf bq cfg req schema) = Store.Throw error ->
    Handler.handler (Some bq) req t
    = (Handler.ErrorJson 500 false error,
       (t ++ Store.CallGetMetadata cfg.(Catalog.datasetId) cfg.(Catalog.tableId)
          :: Run.discoveryCalls bq cfg schema
          ++ [Store.CallQuery (Run.rowQueryOf bq cfg req schema)])%list).
Proof.
  intros bq req cfg schema error t Hcfg Hmeta Hrows.
  unfold Handler.handler. rewrite Hcfg.
  unfold Store.bind at 1. unfold Store.getMetadata. rewrite Hmeta.
  unfold Store.bind at 1. unfold FilterConfig.generateFilterConfig.
  rewrite configLoop_trace.
  rewrite (configLoop_entries bq _ (Handler.fieldsOf schema) []).
  unfold Store.bind at 1. unfold Store.query at 1.
  unfold Run.rowQueryOf, Run.whereSqlFor, Run.qualifiedOf in Hrows. rewrite Hrows.
  unfold Store.ret, Run.discoveryCalls, Run.rowQueryOf, Run.whereSqlFor, Run.qualifiedOf.
  f_equal. rewrite <- !app_assoc. reflexivity.
Qed.

(** ** The WHERE clause of a request *)

(** C1. For a request on a page whose schema is read, the handler sends
    a row query whose WHERE clause is the AND-chain of the fragments of
    the saved definitions followed by those of the user definitions,
    each definition on a column of the schema compiled on its own and
    nulls dropped (no clause when there is no fragment); when the row
    query answers, the count query that follows carries the same
    clause.  When a saved and a user definition name the same column,
    both fragments are in the chain; if no row satisfies the two
    together, no row passes the clause. *)
Theorem where_clause_is_and_chain :
  forall (bq : Store.BigQuery) (req : Handler.Request) (cfg : Catalog.PageConfiguration)
         (schema : option (list Store.Field)) (t : Store.Trace),
    Catalog.getPageConfiguration req.(Handler.pageIdentifier) = Some (Catalog.Page cfg) ->
    Store.metadata bq cfg.(Catalog.datasetId) cfg.(Catalog.tableId) = Store.Ok schema ->
    let fields := Handler.fieldsOf schema in
    let saved := Handler.savedFilterDefinitionOf
                   (Handler.findSavedFilter cfg req.(Handler.savedFilterIdentifier)) in
    let user := req.(Handler.userFilters) in
    let fragments := Handler.combinedFragments fields saved user in
    let whereSql := match fragments with
                    | [] => ""
                    | _ => "WHERE " ++ join " AND " fragments
                    end in
    let qualified := FilterConfig.qualifiedName bq.(Store.projectId)
                       cfg.(Catalog.datasetId) cfg.(Catalog.tableId) in
    let p := Handler.paginationOf req in
    let rowQuery :=
      Handler.dataQuery qualified whereSql (Handler.limitOf p) (Handler.offsetOf p) in
    (exists resp after,
       Handler.handler (Some bq) req t
       = (resp,
          (t ++ Store.CallGetMetadata cfg.(Catalog.datasetId) cfg.(Catalog.tableId)
             :: Run.discoveryCalls bq cfg schema
             ++ Store.CallQuery rowQuery :: after)%list)
       /\ (forall rows,
             Store.answer bq rowQuery = Store.Ok rows ->
             after = [Store.CallQuery (Handler.countQuery qualified whereSql)]
             /\ exists payload,
                  resp = Handler.PageJson payload /\ payload.(Handler.data) = rows))
    /\ forall (col fieldType sfrag ufrag : string) (sdef udef : FilterDef),
         In (col, sdef) saved ->
         In (col, udef) user ->
         Handler.mapGet (Handler.fieldTypeByName fields) col = Some fieldType ->
         buildPredicateFromDef col sdef = Some sfrag ->
         buildPredicateFromUser col udef fieldType = Some ufrag ->
         In sfrag fragments
         /\ In ufrag fragments
         /\ forall (R : Type) (sat : R -> string -> Prop),
              (forall r, sat r sfrag -> sat r ufrag -> False) ->
              forall r, ~ Handler.passesAll sat r fragments.
Proof.
  intros bq req cfg schema t Hcfg Hmeta fields saved user fragments whereSql qualified p
    rowQuery.
  assert (Hwhere : whereSql = Run.whereSqlFor cfg req schema).
  { unfold whereSql, fragments, Run.whereSqlFor. fold fields saved user.
    rewrite whereClausesOf_combined. unfold Handler.whereSqlOf.
    destruct (Handler.combinedFragments fields saved user); reflexivity. }
  assert (Hquery : rowQuery = Run.rowQueryOf bq cfg req schema).
  { unfold rowQuery, Run.rowQueryOf. rewrite Hwhere. reflexivity. }
  split.
  - destruct (Store.answer bq rowQuery) as [rows | error] eqn:Hrows.
    + rewrite Hquery in Hrows.
      pose proof (handler_page_run bq req cfg schema rows t Hcfg Hmeta Hrows) as Hrun.
      cbv zeta in Hrun. rewrite Hrun. eexists. eexists. split.
      * rewrite Hquery. reflexivity.
      * intros rows' Hrows'. injection Hrows' as <-.
        split; [rewrite Hwhere; reflexivity |].
        eexists. split; reflexivity.
    + rewrite Hquery in Hrows.
      rewrite (handler_row_failure_run bq req cfg schema error t Hcfg Hmeta Hrows).
      exists (Handler.ErrorJson 500 false error), []. split.
      * rewrite Hquery. reflexivity.
      * intros rows' Hrows'. discriminate Hrows'.
  - intros col fieldType sfrag ufrag sdef udef Hs Hu Hty Hsf Huf.
    assert (Hins : In sfrag fragments).
    { apply in_or_app. left.
      apply (in_compiledSaved _ _ col sdef); try assumption.
      unfold Handler.mapHas. rewrite Hty. reflexivity. }
    assert (Hinu : In ufrag fragments).
    { apply in_or_app. right.
      apply (in_compiledUser _ _ col udef fieldType); assumption. }
    split; [exact Hins |]. split; [exact Hinu |].
    intros R sat Hcontra r Hpass. unfold Handler.passesAll in Hpass.
    rewrite Forall_forall in Hpass.
    exact (Hcontra r (Hpass _ Hins) (Hpass _ Hinu)).
Qed.

Lemma where_clause_is_and_chain_witness :
  let req :=
    Handler.mkRequest "leads_view" (Some "high_priority_leads")
      [("name", mkFilterDef "FREETEXT" (VStr "Exact") (VArr [VStr "bob"]))] None in
  In (Store.CallQuery
        ("SELECT * FROM `proj.relata_schema.activity` "
           ++ "WHERE LOWER(CAST(`name` AS STRING)) LIKE LOWER('%ak%') "
           ++ "AND LOWER(CAST(`name` AS STRING)) = LOWER('bob') LIMIT 10 OFFSET 0"))
     (snd (Handler.handler (Some Sample.leadsStore) req []))
  /\ forall row : string,
       ~ Handler.passesAll
           (fun r frag =>
              frag = "LOWER(CAST(`name` AS STRING)) LIKE LOWER('%ak%')" /\ r = "mark"
              \/ frag = "LOWER(CAST(`name` AS STRING)) = LOWER('bob')" /\ r = "bob")
           row
           [ "LOWER(CAST(`name` AS STRING)) LIKE LOWER('%ak%')";
             "LOWER(CAST(`name` AS STRING)) = LOWER('bob')" ].
Proof.
  intros req.
  pose (cfg := match Catalog.lookupPage Catalog.pageDefinitions "leads_view" with
               | Some c => c
               | None => Catalog.mkPage "" "" "" "" "" []
               end).
  destruct (where_clause_is_and_chain Sample.leadsStore req cfg
              (Some (Store.mkField "name" "STRING" :: Sample.fields)) []
              eq_refl eq_refl)
    as ((resp & after & Hrun & _) & Hsame).
  split.
  - rewrite Hrun. apply in_or_app. right. right. apply in_or_app. right. left.
    vm_compute. reflexivity.
  - destruct (Hsame "name" "STRING"
                "LOWER(CAST(`name` AS STRING)) LIKE LOWER('%ak%')"
                "LOWER(CAST(`name` AS STRING)) = LOWER('bob')"
                (mkFilterDef "FREETEXT" (VStr "Contains") (VArr [VStr "ak"]))
                (mkFilterDef "FREETEXT" (VStr "Exact") (VArr [VStr "bob"])))
      as (_ & _ & Hnone); try reflexivity; try (left; reflexivity).
    apply Hnone. intros r [[_ H1] | [H1 _]] [[H2 _] | [_ H2]];
      try discriminate; subst r; discriminate.
Defined.

(** ** The configuration guard *)

Lemma inherited_identifier_resolves (id : string) :
  inObjectPrototype id = true ->
  Catalog.getPageConfiguration id = Some (Catalog.Member id).
Proof.
  intros H. unfold inObjectPrototype, includes in H.
  apply existsb_exists in H as (n & Hin & Heq).
  apply String.eqb_eq in Heq. subst n.
  unfold objectPrototypeNames in Hin. cbn [In] in Hin.
  repeat (destruct Hin as [<- | Hin]; [reflexivity |]).
  contradiction.
Qed.

(** The run on a member of [Object.prototype] starts with the metadata
    read, and never answers with status 400. *)
Lemma memberRun_reads_metadata :
  forall (bq : Store.BigQuery) (req : Handler.Request) (t : Store.Trace),
    exists resp calls,
      Handler.memberRun bq req t
      = (resp, (t ++ Store.CallGetMetadataUndefined :: calls)%list)
      /\ forall ok error, resp <> Handler.ErrorJson 400 ok error.
Proof.
  intros bq req t. unfold Handler.memberRun.
  unfold Store.bind at 1. unfold Store.getMetadataUndefined.
  destruct (Store.metadataUndefined bq) as [schema | err].
  - unfold Store.bind at 1. unfold FilterConfig.generateFilterConfig.
    destruct (configLoop_calls bq
                (FilterConfig.qualifiedName (Store.projectId bq) "undefined" "undefined")
                (Handler.fieldsOf schema) (t ++ [Store.CallGetMetadataUndefined])%list)
      as (discovery & Htrace & _).
    destruct (FilterConfig.configLoop bq _ (Handler.fieldsOf schema) _) as [fc t2].
    cbn [snd] in Htrace. subst t2.
    unfold Store.bind at 1. unfold Store.query at 1.
    match goal with
    | |- context [Store.answer bq ?q] => destruct (Store.answer bq q) as [rows | err]
    end.
    + unfold Store.bind, Store.ret, Handler.countRecords, Store.bind, Store.query, Store.ret.
      match goal with
      | |- context [Store.answer bq ?q] =>
          destruct (Store.answer bq q) as [[| first others] | err]
      end;
        (eexists; eexists; split;
         [rewrite <- !app_assoc; cbn [app]; reflexivity | discriminate]).
    + unfold Store.ret. eexists. eexists. split;
        [rewrite <- !app_assoc; cbn [app]; reflexivity | discriminate].
  - unfold Store.ret. exists (Handler.ErrorJson 500 false err), [].
    split; [reflexivity | discriminate].
Qed.

(** C9, at the inputs where the code departs from it.  An identifier
    that names a member of [Object.prototype], such as [constructor],
    names no page of the catalog, yet [pageDefinitions[pageIdentifier]]
    finds the inherited member, which is truthy: the guard lets the
    request through, and with a client the handler goes on to the
    metadata read and never answers the 400 of the guard.  Every other
    identifier without a page is refused at once, with status 400 and
    the trace of store calls left as it was. *)
Theorem inherited_identifier_passes_the_guard :
  (forall id, inObjectPrototype id = true ->
     ~ In id (map Catalog.s_pageIdentifier Catalog.listPages)
     /\ Catalog.lookupPage Catalog.pageDefinitions id = None)
  /\ (forall (bq : Store.BigQuery) (req : Handler.Request) (t : Store.Trace),
        inObjectPrototype req.(Handler.pageIdentifier) = true ->
        exists resp calls,
          Handler.handler (Some bq) req t
          = (resp, (t ++ Store.CallGetMetadataUndefined :: calls)%list)
          /\ forall ok error, resp <> Handler.ErrorJson 400 ok error)
  /\ (Handler.handler (Some Sample.lenientStore)
        (Handler.mkRequest "constructor" None [] None) []
      = (Handler.MemberPageJson
           {| Handler.m_tableHeaders :=
                Headers.formatTableHeaders ["status"; "city"; "amount"; "created_at";
                                            "is_active"];
              Handler.m_data := [[("status", VStr "active"); ("city", VStr "Pune")]];
              Handler.m_filterConfig :=
                [ FilterConfig.mkEntry "status" "FREETEXT" [VStr "Empty"; VStr "Not Empty"];
                  FilterConfig.mkEntry "city" "FREETEXT" [VStr "Empty"; VStr "Not Empty"];
                  FilterConfig.mkEntry "amount" "NUMERIC"
                    [VStr "top 10%"; VStr "bottom 10%"];
                  FilterConfig.mkEntry "created_at" "DATE"
                    (map VStr Vocabulary.relativeDateTokens);
                  FilterConfig.mkEntry "is_active" "BOOLEAN" [VBool true; VBool false] ];
              Handler.m_pagination := Handler.mkPaginationInfo 1 10 (ofZ 31) (ofZ 4) |},
         [ Store.CallGetMetadataUndefined;
           Store.CallQuery
             "SELECT APPROX_COUNT_DISTINCT(`status`) AS c FROM `proj.undefined.undefined`";
           Store.CallQuery
             "SELECT APPROX_COUNT_DISTINCT(`city`) AS c FROM `proj.undefined.undefined`";
           Store.CallQuery "SELECT * FROM `proj.undefined.undefined`  LIMIT 10 OFFSET 0";
           Store.CallQuery "SELECT COUNT(1) AS c FROM `proj.undefined.undefined` " ]))
  /\ (forall (bigquery : option Store.BigQuery) (req : Handler.Request) (t : Store.Trace),
        Catalog.getPageConfiguration req.(Handler.pageIdentifier) = None ->
        Handler.handler bigquery req t
        = (Handler.ErrorJson 400 false "Invalid pageIdentifier", t)).
Proof.
  split; [| split; [| split]].
  - intros id H. unfold inObjectPrototype, includes in H.
    apply existsb_exists in H as (n & Hin & Heq).
    apply String.eqb_eq in Heq. subst n.
    unfold objectPrototypeNames in Hin. cbn [In] in Hin.
    repeat (destruct Hin as [<- | Hin];
            [split; [intros [E | [E | []]]; discriminate E | reflexivity] |]).
    contradiction.
  - intros bq req t H. unfold Handler.handler.
    rewrite (inherited_identifier_resolves _ H).
    exact (memberRun_reads_metadata bq req t).
  - vm_compute. reflexivity.
  - intros bigquery req t H. unfold Handler.handler. rewrite H. reflexivity.
Qed.

(** ** Store calls of a page response *)

(** X11. A request that returns a page has made its store calls in this
    order: one schema read, then the discovery queries, then one row
    query and one count query; the count query counts the table of the
    row query under the same WHERE clause. *)
Theorem page_response_trace :
  forall (bq : Store.BigQuery) (req : Handler.Request) (t t' : Store.Trace)
         (payload : Handler.ResponsePayload),
    Handler.handler (Some bq) req t = (Handler.PageJson payload, t') ->
    exists cfg schema,
      Catalog.getPageConfiguration req.(Handler.pageIdentifier) = Some (Catalog.Page cfg)
      /\ t' = (t ++ Store.CallGetMetadata cfg.(Catalog.datasetId) cfg.(Catalog.tableId)
                 :: Run.discoveryCalls bq cfg schema
                 ++ [Store.CallQuery (Run.rowQueryOf bq cfg req schema);
                     Store.CallQuery (Run.countQueryOf bq cfg req schema)])%list
      /\ forallb Vocabulary.isQueryCall (Run.discoveryCalls bq cfg schema) = true
      /\ Run.rowQueryOf bq cfg req schema
         = "SELECT * FROM " ++ Run.qualifiedOf bq cfg ++ " " ++ Run.whereSqlFor cfg req schema
             ++ " LIMIT " ++ numberToString (ofZ payload.(Handler.r_pagination).(Handler.r_pageSize))
             ++ " OFFSET "
             ++ numberToString (ofZ (Handler.offsetOf (Handler.paginationOf req)))
      /\ Run.countQueryOf bq cfg req schema
         = "SELECT COUNT(1) AS c FROM " ++ Run.qualifiedOf bq cfg ++ " "
             ++ Run.whereSqlFor cfg req schema.
Proof.
  intros bq req t t' payload H.
  destruct (handler_page_conditions bq req t t' payload H)
    as (cfg & schema & rows & Hcfg & Hmeta & Hrows).
  pose proof (handler_page_run bq req cfg schema rows t Hcfg Hmeta Hrows) as Hrun.
  cbv zeta in Hrun. rewrite Hrun in H. injection H as Hpayload Ht'.
  exists cfg, schema. split; [exact Hcfg |]. split; [symmetry; exact Ht' |].
  split.
  - destruct (configLoop_calls bq (Run.qualifiedOf bq cfg) (Handler.fieldsOf schema) [])
      as (calls & Htrace & Hq & _).
    unfold Run.discoveryCalls. rewrite Htrace. exact Hq.
  - subst payload. split; reflexivity.
Qed.

Lemma page_response_trace_witness :
  exists cfg schema,
    Catalog.getPageConfiguration "leads_view" = Some (Catalog.Page cfg)
    /\ snd (Handler.handler (Some Sample.store)
              (Handler.mkRequest "leads_view" None [] None) [])
       = (Store.CallGetMetadata cfg.(Catalog.datasetId) cfg.(Catalog.tableId)
            :: Run.discoveryCalls Sample.store cfg schema
            ++ [Store.CallQuery
                  (Run.rowQueryOf Sample.store cfg
                     (Handler.mkRequest "leads_view" None [] None) schema);
                Store.CallQuery
                  (Run.countQueryOf Sample.store cfg
                     (Handler.mkRequest "leads_view" None [] None) schema)])%list.
Proof.
  destruct (Handler.handler (Some Sample.store)
              (Handler.mkRequest "leads_view" None [] None) []) as [resp t'] eqn:Hrun.
  assert (Hpage : exists payload, resp = Handler.PageJson payload).
  { vm_compute in Hrun. injection Hrun as <- _. eexists. reflexivity. }
  destruct Hpage as [payload ->].
  destruct (page_response_trace Sample.store _ [] t' payload Hrun)
    as (cfg & schema & Hcfg & Ht' & _).
  exists cfg, schema. split; [exact Hcfg | exact Ht'].
Defined.

(** X12. The ways a request for a known page fails.  Without a client
    the answer is a 500 and the store is not touched; a schema read that
    throws gives a 500 carrying the error after that one call; a row
    query that throws gives a 500 carrying the error, and no count query
    is sent; and a page is returned exactly when the schema read and the
    row query both succeed (a failing discovery or count query never
    fails the request). *)
Theorem handler_failures :
  forall (bq : Store.BigQuery) (req : Handler.Request) (cfg : Catalog.PageConfiguration)
         (t : Store.Trace),
    Catalog.getPageConfiguration req.(Handler.pageIdentifier) = Some (Catalog.Page cfg) ->
    Handler.handler None req t
    = (Handler.ErrorJson 500 false "BigQuery client not initialized", t)
    /\ (forall error,
          Store.metadata bq cfg.(Catalog.datasetId) cfg.(Catalog.tableId) = Store.Throw error ->
          Handler.handler (Some bq) req t
          = (Handler.ErrorJson 500 false error,
             (t ++ [Store.CallGetMetadata cfg.(Catalog.datasetId) cfg.(Catalog.tableId)])%list))
    /\ (forall schema error,
          Store.metadata bq cfg.(Catalog.datasetId) cfg.(Catalog.tableId) = Store.Ok schema ->
          Store.answer bq (Run.rowQueryOf bq cfg req schema) = Store.Throw error ->
          Handler.handler (Some bq) req t
          = (Handler.ErrorJson 500 false error,
             (t ++ Store.CallGetMetadata cfg.(Catalog.datasetId) cfg.(Catalog.tableId)
                :: Run.discoveryCalls bq cfg schema
                ++ [Store.CallQuery (Run.rowQueryOf bq cfg req schema)])%list))
    /\ ((exists payload t', Handler.handler (Some bq) req t = (Handler.PageJson payload, t'))
        <-> exists schema rows,
              Store.metadata bq cfg.(Catalog.datasetId) cfg.(Catalog.tableId) = Store.Ok schema
              /\ Store.answer bq (Run.rowQueryOf bq cfg req schema) = Store.Ok rows).
Proof.
  intros bq req cfg t Hcfg.
  split; [| split; [| split]].
  - unfold Handler.handler. rewrite Hcfg. reflexivity.
  - intros error Hmeta. unfold Handler.handler. rewrite Hcfg.
    unfold Store.bind at 1. unfold Store.getMetadata. rewrite Hmeta. reflexivity.
  - intros schema error Hmeta Hrows. unfold Handler.handler. rewrite Hcfg.
    unfold Store.bind at 1. unfold Store.getMetadata. rewrite Hmeta.
    unfold Store.bind at 1. unfold FilterConfig.generateFilterConfig.
    rewrite configLoop_trace.
    rewrite (configLoop_entries bq _ (Handler.fieldsOf schema) []).
    unfold Store.bind at 1. unfold Store.query at 1.
    unfold Run.rowQueryOf, Run.whereSqlFor, Run.qualifiedOf in Hrows. rewrite Hrows.
    unfold Store.ret, Run.discoveryCalls, Run.rowQueryOf, Run.whereSqlFor, Run.qualifiedOf.
    f_equal. rewrite <- !app_assoc. reflexivity.
  - split.
    + intros (payload & t' & H).
      destruct (handler_page_conditions bq req t t' payload H)
        as (cfg' & schema & rows & Hcfg' & Hmeta & Hrows).
      rewrite Hcfg in Hcfg'. injection Hcfg' as <-.
      exists schema, rows. split; assumption.
    + intros (schema & rows & Hmeta & Hrows).
      pose proof (handler_page_run bq req cfg schema rows t Hcfg Hmeta Hrows) as Hrun.
      cbv zeta in Hrun. rewrite Hrun. eexists. eexists. reflexivity.
Qed.

Lemma handler_failures_witness :
  Handler.handler None (Handler.mkRequest "leads_view" None [] None) []
  = (Handler.ErrorJson 500 false "BigQuery client not initialized", []).
Proof.
  assert (Hcfg : exists cfg, Catalog.getPageConfiguration "leads_view" = Some (Catalog.Page cfg)).
  { eexists. reflexivity. }
  destruct Hcfg as [cfg Hcfg].
  exact (proj1 (handler_failures Sample.store
                  (Handler.mkRequest "leads_view" None [] None) cfg [] Hcfg)).
Defined.

(** X13. A saved-filter identifier that the page does not define is
    ignored: the request is answered, store calls included, exactly as
    the same request without an identifier. *)
Theorem unknown_saved_filter_is_ignored :
  forall (bigquery : option Store.BigQuery) (req : Handler.Request) (id : string)
         (t : Store.Trace),
    (forall cfg,
       Catalog.getPageConfiguration req.(Handler.pageIdentifier) = Some (Catalog.Page cfg) ->
       forallb (fun sf => negb (String.eqb sf.(Catalog.identifier) id))
         cfg.(Catalog.savedFilters) = true) ->
    Handler.handler bigquery (Run.withSavedFilter req (Some id)) t
    = Handler.handler bigquery (Run.withSavedFilter req None) t.
Proof.
  intros bigquery req id t Hnone.
  unfold Handler.handler, Run.withSavedFilter. cbn [Handler.pageIdentifier].
  destruct (Catalog.getPageConfiguration (Handler.pageIdentifier req))
    as [[cfg | member] |] eqn:Hcfg; [| reflexivity | reflexivity].
  assert (Hfind : Handler.findSavedFilter cfg (Some id) = None).
  { specialize (Hnone cfg eq_refl). cbn [Handler.findSavedFilter].
    induction (Catalog.savedFilters cfg) as [| sf rest IH]; [reflexivity |].
    cbn [forallb] in Hnone. apply andb_true_iff in Hnone as [Hsf Hrest].
    cbn [find]. apply negb_true_iff in Hsf. rewrite Hsf. exact (IH Hrest). }
  cbn [Handler.savedFilterIdentifier Handler.userFilters Handler.paginationOf
       Handler.pagination].
  unfold Handler.paginationOf. cbn [Handler.pagination].
  rewrite Hfind. reflexivity.
Qed.

Lemma unknown_saved_filter_is_ignored_witness :
  Handler.handler (Some Sample.store)
    (Run.withSavedFilter (Handler.mkRequest "leads_view" None [] None) (Some "no_such_filter")) []
  = Handler.handler (Some Sample.store)
      (Run.withSavedFilter (Handler.mkRequest "leads_view" None [] None) None) [].
Proof.
  apply (unknown_saved_filter_is_ignored (Some Sample.store)
           (Handler.mkRequest "leads_view" None [] None) "no_such_filter" []).
  intros cfg Hcfg. vm_compute in Hcfg. injection Hcfg as <-. vm_compute. reflexivity.
Defined.

(** ** Pagination of the response *)

Lemma ceilDiv_ofZ (n d : Z) : ceilDiv (ofZ n) d = ofZ (- ((- n) / d)).
Proof.
  unfold ceilDiv, ofZ. change (0 <=? 0) with true. cbv iota.
  change (10 ^ 0) with 1. rewrite Z.mul_1_r. reflexivity.
Qed.

Lemma maxZ_ofZ (z n : Z) : maxZ z (ofZ n) = ofZ (Z.max z n).
Proof.
  unfold maxZ, ofZ, numberLeZ. change (0 <=? 0) with true. cbv iota.
  change (10 ^ 0) with 1. rewrite Z.mul_1_r.
  destruct (Z.leb_spec n z) as [Hle | Hgt].
  - rewrite Z.max_l by exact Hle. reflexivity.
  - rewrite Z.max_r by lia. reflexivity.
Qed.

Lemma ceiling_bounds (n d : Z) :
  0 < d -> n <= - ((- n) / d) * d /\ (- ((- n) / d) - 1) * d < n.
Proof.
  intros Hd.
  pose proof (Z.mul_div_le (- n) d Hd) as Hlo.
  pose proof (Z.mul_succ_div_gt (- n) d Hd) as Hhi.
  split; nia.
Qed.

Lemma limitOf_bounds (p : Handler.Pagination) : 1 <= Handler.limitOf p <= 1000.
Proof. unfold Handler.limitOf. lia. Qed.

(** X14. The page count of a response, when the record total is a
    whole number [n >= 0]: it is a whole number [k >= 1], [k] pages of
    the reported page size hold all [n] records, and [k - 1] pages do
    not (for [n = 0] there is still one page). *)
Theorem total_pages_cover_records :
  forall (bq : Store.BigQuery) (req : Handler.Request) (t t' : Store.Trace)
         (payload : Handler.ResponsePayload) (n : Z),
    Handler.handler (Some bq) req t = (Handler.PageJson payload, t') ->
    payload.(Handler.r_pagination).(Handler.totalRecords) = ofZ n ->
    0 <= n ->
    exists k,
      payload.(Handler.r_pagination).(Handler.totalPages) = ofZ k
      /\ 1 <= k
      /\ n <= k * payload.(Handler.r_pagination).(Handler.r_pageSize)
      /\ (k - 1) * payload.(Handler.r_pagination).(Handler.r_pageSize) < Z.max 1 n.
Proof.
  intros bq req t t' payload n H Htotal Hn.
  destruct (handler_page_conditions bq req t t' payload H)
    as (cfg & schema & rows & Hcfg & Hmeta & Hrows).
  pose proof (handler_page_run bq req cfg schema rows t Hcfg Hmeta Hrows) as Hrun.
  cbv zeta in Hrun. rewrite Hrun in H. injection H as Hpayload _.
  subst payload. cbn [Handler.r_pagination Handler.totalRecords Handler.totalPages
                      Handler.r_pageSize] in *.
  rewrite Htotal, ceilDiv_ofZ, maxZ_ofZ.
  pose proof (limitOf_bounds (Handler.paginationOf req)) as Hlimit.
  set (d := Handler.limitOf (Handler.paginationOf req)) in *.
  destruct (ceiling_bounds n d ltac:(lia)) as [Hup Hdown].
  set (c := - (- n / d)) in *.
  exists (Z.max 1 c). split; [reflexivity |].
  split; [lia |]. split; [nia |].
  destruct (Z.max_spec 1 c) as [[Hlt ->] | [Hge ->]]; [| lia].
  destruct (Z.max_spec 1 n) as [[Hlt' ->] | [Hge' ->]]; [exact Hdown | nia].
Qed.

Lemma total_pages_cover_records_witness :
  exists payload k,
    fst (Handler.handler (Some Sample.store)
           (Handler.mkRequest "leads_view" None [] None) []) = Handler.PageJson payload
    /\ payload.(Handler.r_pagination).(Handler.totalPages) = ofZ k
    /\ 31 <= k * 10.
Proof.
  destruct (Handler.handler (Some Sample.store)
              (Handler.mkRequest "leads_view" None [] None) []) as [resp t'] eqn:Hrun.
  assert (Hpage : exists payload,
             resp = Handler.PageJson payload
             /\ payload.(Handler.r_pagination).(Handler.totalRecords) = ofZ 31
             /\ payload.(Handler.r_pagination).(Handler.r_pageSize) = 10).
  { vm_compute in Hrun. injection Hrun as <- _. eexists.
    split; [reflexivity | split; reflexivity]. }
  destruct Hpage as (payload & -> & Htotal & Hsize).
  destruct (total_pages_cover_records Sample.store _ [] t' payload 31 Hrun Htotal
              ltac:(lia)) as (k & Hk & _ & Hcover & _).
  exists payload, k. split; [reflexivity |]. split; [exact Hk |].
  rewrite Hsize in Hcover. exact Hcover.
Defined.

(** ** Headers and filter configuration of one response *)

Lemma formatTableHeaders_keys (columnNames : list string) :
  map Headers.key (Headers.formatTableHeaders columnNames) = columnNames.
Proof.
  unfold Headers.formatTableHeaders, Headers.formatTableHeadersWith.
  rewrite map_map. cbn [Headers.key]. apply map_id.
Qed.

Lemma entryOf_columnNames (bq : Store.BigQuery) (qualified : string)
    (fields : list Store.Field) :
  map FilterConfig.columnName (map (FilterConfig.entryOf bq qualified) fields)
  = map Store.name fields.
Proof. rewrite map_map. reflexivity. Qed.

(** X15. In a page response the table headers and the filter
    configuration list the same columns in the same order (the columns
    of the schema that are not records), so every header has its filter
    entry at the same position.  The display name of a header is the
    title-cased key, except for a key that names a member of
    [Object.prototype]: [overrides[key]] then finds that member, which
    becomes the display name in place of a text. *)
Theorem headers_match_filter_config :
  forall (bq : Store.BigQuery) (req : Handler.Request) (t t' : Store.Trace)
         (payload : Handler.ResponsePayload),
    Handler.handler (Some bq) req t = (Handler.PageJson payload, t') ->
    map Headers.key payload.(Handler.tableHeaders)
    = map FilterConfig.columnName payload.(Handler.filterConfig)
    /\ (exists cfg schema,
          Catalog.getPageConfiguration req.(Handler.pageIdentifier) = Some (Catalog.Page cfg)
          /\ Store.metadata bq cfg.(Catalog.datasetId) cfg.(Catalog.tableId) = Store.Ok schema
          /\ map Headers.key payload.(Handler.tableHeaders)
             = map Store.name (filter FilterConfig.notRecord (Handler.fieldsOf schema)))
    /\ Forall (fun h => h.(Headers.displayName)
                        = if inObjectPrototype h.(Headers.key)
                          then Headers.Member h.(Headers.key)
                          else Headers.Text (Headers.toTitleCaseFromSnake h.(Headers.key)))
         payload.(Handler.tableHeaders).
Proof.
  intros bq req t t' payload H.
  destruct (handler_page_conditions bq req t t' payload H)
    as (cfg & schema & rows & Hcfg & Hmeta & Hrows).
  pose proof (handler_page_run bq req cfg schema rows t Hcfg Hmeta Hrows) as Hrun.
  cbv zeta in Hrun. rewrite Hrun in H. injection H as Hpayload _.
  subst payload. cbn [Handler.tableHeaders Handler.filterConfig].
  rewrite formatTableHeaders_keys, entryOf_columnNames.
  split; [reflexivity |]. split.
  - exists cfg, schema. split; [exact Hcfg |]. split; [exact Hmeta | reflexivity].
  - unfold Headers.formatTableHeaders, Headers.formatTableHeadersWith.
    apply Forall_forall. intros h Hin. apply in_map_iff in Hin as (key & <- & _).
    cbn [Headers.lookup Headers.defaultOverrides Headers.key Headers.displayName].
    destruct (inObjectPrototype key); reflexivity.
Qed.

Lemma headers_match_filter_config_witness :
  exists payload,
    fst (Handler.handler (Some Sample.store)
           (Handler.mkRequest "leads_view" None [] None) []) = Handler.PageJson payload
    /\ map Headers.key payload.(Handler.tableHeaders)
       = map FilterConfig.columnName payload.(Handler.filterConfig).
Proof.
  destruct (Handler.handler (Some Sample.store)
              (Handler.mkRequest "leads_view" None [] None) []) as [resp t'] eqn:Hrun.
  assert (Hpage : exists payload, resp = Handler.PageJson payload).
  { vm_compute in Hrun. injection Hrun as <- _. eexists. reflexivity. }
  destruct Hpage as (payload & ->).
  exists payload. split; [reflexivity |].
  exact (proj1 (headers_match_filter_config Sample.store _ [] t' payload Hrun)).
Defined.

(** ** Quotes in the queries of a request *)

Lemma Safe_join_and (clauses : list string) :
  Forall Quoting.Safe clauses -> Quoting.Safe (join " AND " clauses).
Proof.
  induction clauses as [| c clauses IH]; intros Hall.
  - apply Quoting.Safe_raw. reflexivity.
  - inversion Hall as [| c' clauses' Hc Hrest]; subst.
    destruct clauses as [| c2 clauses]; [exact Hc |].
    change (join " AND " (c :: c2 :: clauses))
      with (c ++ " AND " ++ join " AND " (c2 :: clauses)).
    apply Quoting.Safe_append; [exact Hc |].
    apply (Quoting.Safe_append " AND " _);
      [apply Quoting.Safe_raw; reflexivity | exact (IH Hrest)].
Qed.

Lemma known_column_noQuote (fields : list Store.Field) (col : string) :
  forallb (fun f => Quoting.noQuote f.(Store.name)) fields = true ->
  Handler.mapHas (Handler.fieldTypeByName fields) col = true ->
  Quoting.noQuote col = true.
Proof.
  intros Hall Hknown. rewrite fieldTypeByName_has in Hknown.
  apply existsb_exists in Hknown as (f & Hin & Heq).
  apply String.eqb_eq in Heq. subst col.
  rewrite forallb_forall in Hall. exact (Hall f Hin).
Qed.

(** X16. When no column name of the schema holds a single quote, every
    single quote of the WHERE clause lies inside a literal rendered by
    [sqlStringLiteral], whatever the saved and user filter definitions
    carry as column names, types, modalities and values; with a
    quote-free table name the same holds of the row query and of the
    count query. *)
Theorem queries_quote_only_in_literals :
  forall (fields : list Store.Field)
         (savedFilterDefinition userFilters : list (string * FilterDef)),
    forallb (fun f => Quoting.noQuote f.(Store.name)) fields = true ->
    let whereClauses := Handler.whereClausesOf fields savedFilterDefinition userFilters in
    Forall Quoting.Safe whereClauses
    /\ Quoting.Safe (Handler.whereSqlOf whereClauses)
    /\ forall qualified limit offset,
         Quoting.noQuote qualified = true ->
         Quoting.Safe (Handler.dataQuery qualified (Handler.whereSqlOf whereClauses)
                         limit offset)
         /\ Quoting.Safe (Handler.countQuery qualified (Handler.whereSqlOf whereClauses)).
Proof.
  intros fields saved user Hall whereClauses.
  assert (Hclauses : Forall Quoting.Safe whereClauses).
  { unfold whereClauses. rewrite whereClausesOf_combined.
    unfold Handler.combinedFragments. apply Forall_app. split.
    - apply Forall_forall. intros frag Hin.
      unfold Handler.compiledSaved in Hin.
      apply in_flat_map in Hin as ([col def] & _ & Hfrag). cbn [fst snd] in Hfrag.
      destruct (Handler.mapHas (Handler.fieldTypeByName fields) col) eqn:Hknown;
        [| contradiction].
      destruct (buildPredicateFromDef col def) as [p |] eqn:Hp; [| contradiction].
      destruct Hfrag as [<- | []].
      exact (Safe_buildPredicateFromDef col def p
               (known_column_noQuote fields col Hall Hknown) Hp).
    - apply Forall_forall. intros frag Hin.
      unfold Handler.compiledUser in Hin.
      apply in_flat_map in Hin as ([col def] & _ & Hfrag). cbn [fst snd] in Hfrag.
      destruct (Handler.mapGet (Handler.fieldTypeByName fields) col) as [fieldType |]
        eqn:Hget; [| contradiction].
      destruct (buildPredicateFromUser col def fieldType) as [p |] eqn:Hp;
        [| contradiction].
      destruct Hfrag as [<- | []].
      refine (Safe_buildPredicateFromUser col def fieldType p _ Hp).
      apply (known_column_noQuote fields col Hall).
      unfold Handler.mapHas. rewrite Hget. reflexivity. }
  assert (Hwhere : Quoting.Safe (Handler.whereSqlOf whereClauses)).
  { unfold Handler.whereSqlOf. destruct whereClauses as [| c rest] eqn:Hw.
    - apply Quoting.Safe_raw. reflexivity.
    - apply (Quoting.Safe_append "WHERE " _);
        [apply Quoting.Safe_raw; reflexivity | apply Safe_join_and; exact Hclauses]. }
  split; [exact Hclauses |]. split; [exact Hwhere |].
  intros qualified limit offset Hq.
  unfold Handler.dataQuery, Handler.countQuery. split; safe_text; exact Hwhere.
Qed.

Lemma queries_quote_only_in_literals_witness :
  Quoting.Safe
    (Handler.whereSqlOf
       (Handler.whereClausesOf Sample.fields
          [("status", mkFilterDef "LIST" VUndefined (VArr [VStr "it's"]))]
          [("city", mkFilterDef "FREETEXT" (VStr "Contains") (VArr [VStr "O'Hare"]))])).
Proof.
  exact (proj1 (proj2 (queries_quote_only_in_literals Sample.fields
                         [("status", mkFilterDef "LIST" VUndefined (VArr [VStr "it's"]))]
                         [("city", mkFilterDef "FREETEXT" (VStr "Contains")
                                     (VArr [VStr "O'Hare"]))]
                         eq_refl))).
Defined.

(** ** The value list of a membership predicate *)

Lemma length_append (a b : string) :
  String.length (a ++ b) = (String.length a + String.length b)%nat.
Proof. induction a as [| x a IH]; simpl; [reflexivity | now rewrite IH]. Qed.

Lemma append_inv_head (a b c : string) : a ++ b = a ++ c -> b = c.
Proof.
  induction a as [| x a IH]; simpl; intros H; [exact H |].
  injection H as H. exact (IH H).
Qed.

Lemma append_nil_r (a : string) : a ++ "" = a.
Proof. induction a as [| x a IH]; simpl; [reflexivity | now rewrite IH]. Qed.

Lemma append_absorbed (a r : string) : a ++ r = r -> a = "".
Proof.
  intros H. apply (f_equal String.length) in H. rewrite length_append in H.
  destruct a; [reflexivity | simpl in H; lia].
Qed.

Lemma join_literals_cons (v : value) (vs : list value) :
  join ", " (map sqlStringLiteral (v :: vs))
  = sqlStringLiteral v
      ++ match vs with
         | [] => ""
         | _ => ", " ++ join ", " (map sqlStringLiteral vs)
         end.
Proof.
  destruct vs as [| w vs]; [cbn [map join]; symmetry; apply append_nil_r | reflexivity].
Qed.

Lemma sqlStringLiteral_not_blank (v : value) : sqlStringLiteral v <> "".
Proof. unfold sqlStringLiteral. destruct (isNullish v); discriminate. Qed.

Lemma literals_determine_texts (vs : list value) :
  forall (ws : list value) (r : string),
    forallb (fun v => negb (isNullish v)) vs = true ->
    forallb (fun v => negb (isNullish v)) ws = true ->
    startsWith (String quote "") r = false ->
    join ", " (map sqlStringLiteral vs) ++ r = join ", " (map sqlStringLiteral ws) ++ r ->
    map toStr vs = map toStr ws.
Proof.
  induction vs as [| v vs IH]; intros ws r Hvs Hws Hr H.
  - destruct ws as [| w ws]; [reflexivity |].
    exfalso. symmetry in H. change (join ", " (map sqlStringLiteral []) ++ r) with r in H.
    apply append_absorbed in H. rewrite join_literals_cons in H.
    destruct (sqlStringLiteral w) eqn:Hw; [exact (sqlStringLiteral_not_blank w Hw) |].
    discriminate.
  - destruct ws as [| w ws].
    + exfalso. change (join ", " (map sqlStringLiteral []) ++ r) with r in H.
      apply append_absorbed in H. rewrite join_literals_cons in H.
      destruct (sqlStringLiteral v) eqn:Hv; [exact (sqlStringLiteral_not_blank v Hv) |].
      discriminate.
    + cbn [forallb] in Hvs, Hws.
      apply andb_true_iff in Hvs as [Hv Hvs]. apply andb_true_iff in Hws as [Hw Hws].
      apply negb_true_iff in Hv. apply negb_true_iff in Hw.
      rewrite !join_literals_cons, !append_assoc in H.
      assert (Htail : forall us : list value,
                 startsWith (String quote "")
                   (match us with
                    | [] => ""
                    | _ => ", " ++ join ", " (map sqlStringLiteral us)
                    end ++ r) = false).
      { intros [| u us]; [exact Hr | reflexivity]. }
      pose proof (readLiteral_sqlStringLiteral v _ Hv (Htail vs)) as Hreadv.
      pose proof (readLiteral_sqlStringLiteral w _ Hw (Htail ws)) as Hreadw.
      rewrite H in Hreadv. rewrite Hreadw in Hreadv.
      injection Hreadv as Htext Hrest.
      cbn [map]. rewrite <- Htext. f_equal.
      destruct vs as [| v2 vs], ws as [| w2 ws].
      * reflexivity.
      * exfalso. change ("" ++ r) with r in Hrest.
        apply append_absorbed in Hrest. discriminate.
      * exfalso. change ("" ++ r) with r in Hrest. symmetry in Hrest.
        apply append_absorbed in Hrest. discriminate.
      * cbn [append] in Hrest. injection Hrest as Hrest.
        symmetry in Hrest. exact (IH (w2 :: ws) r Hvs Hws Hr Hrest).
Qed.

(** X17. Two saved LIST definitions on a column that compile to the
    same predicate carry the same values as text: a value holding
    quotes or commas is never read as several values, or as another
    value.  The values are the non-null ones (null and undefined both
    render as [NULL]). *)
Theorem list_predicate_determines_values :
  forall (column ty : string) (m : value) (vs ws : list value),
    toUpperCase ty = "LIST" ->
    includes emptyModalities (normalizeModality m) = false ->
    includes notEmptyModalities (normalizeModality m) = false ->
    forallb (fun v => negb (isNullish v)) vs = true ->
    forallb (fun v => negb (isNullish v)) ws = true ->
    buildPredicateFromDef column (mkFilterDef ty m (VArr vs))
    = buildPredicateFromDef column (mkFilterDef ty m (VArr ws)) ->
    map toStr vs = map toStr ws.
Proof.
  intros column ty m vs ws Hty He Hne Hvs Hws H.
  unfold buildPredicateFromDef in H. cbn [type modality values arrayOrEmpty] in H.
  rewrite Hty, He, Hne, !andb_false_r in H.
  change (String.eqb "LIST" "LIST") with true in H. cbv iota in H.
  destruct vs as [| v vs], ws as [| w ws]; try discriminate; [reflexivity |].
  apply Some_inj in H. apply append_inv_head in H.
  apply (append_inv_head " IN (") in H.
  exact (literals_determine_texts (v :: vs) (w :: ws) ")" Hvs Hws eq_refl H).
Qed.

Lemma list_predicate_determines_values_witness :
  map toStr [VNum (ofZ 1); VBool true] = map toStr [VStr "1"; VStr "true"]
  /\ buildPredicateFromDef "status" (mkFilterDef "list" VUndefined (VArr [VStr "a', 'b"]))
     <> buildPredicateFromDef "status"
          (mkFilterDef "list" VUndefined (VArr [VStr "a"; VStr "b"])).
Proof.
  split.
  - apply (list_predicate_determines_values "status" "list" VUndefined
             [VNum (ofZ 1); VBool true] [VStr "1"; VStr "true"]); reflexivity.
  - intros H.
    apply (list_predicate_determines_values "status" "list" VUndefined
             [VStr "a', 'b"] [VStr "a"; VStr "b"] eq_refl eq_refl eq_refl eq_refl eq_refl)
      in H.
    discriminate H.
Defined.

(** ** The flattened schema of the explorer *)

Lemma startsWith_refl_append (p s : string) : startsWith p (p ++ s) = true.
Proof.
  induction p as [| c p IH]; [reflexivity |].
  cbn [append startsWith]. rewrite Ascii.eqb_refl. exact IH.
Qed.

Lemma startsWith_shorter (a b s : string) :
  startsWith (a ++ b) s = true -> startsWith a s = true.
Proof.
  revert s. induction a as [| c a IH]; intros s H; [reflexivity |].
  destruct s as [| d s]; [discriminate |].
  cbn [append startsWith] in *. apply andb_true_iff in H as [Hc H].
  rewrite Hc. exact (IH s H).
Qed.

Lemma flattenField_head (prefix : string) (f : Explorer.SchemaField) :
  exists entry rest,
    Explorer.flattenField prefix f = entry :: rest
    /\ entry.(Explorer.f_name) = Explorer.qualify prefix (Explorer.nameOf f)
    /\ (Explorer.isNested f = false -> rest = []).
Proof.
  destruct f as [name type mode description [[| child children] |]];
    cbn [Explorer.flattenField Explorer.isNested Explorer.nameOf].
  - eexists. eexists. split; [reflexivity |]. split; [reflexivity | reflexivity].
  - destruct (String.eqb type "RECORD").
    + eexists. eexists. split; [reflexivity |]. split; [reflexivity | discriminate].
    + eexists. eexists. split; [reflexivity |]. split; [reflexivity | reflexivity].
  - eexists. eexists. split; [reflexivity |]. split; [reflexivity | reflexivity].
Qed.

Lemma flattenField_qualified (f : Explorer.SchemaField) :
  forall prefix entry,
    prefix <> "" ->
    In entry (Explorer.flattenField prefix f) ->
    startsWith (prefix ++ ".") entry.(Explorer.f_name) = true
    /\ entry.(Explorer.f_mode) <> "".
Proof.
  induction f as [name type mode description fields IH] using Explorer.SchemaField_nested_ind.
  intros prefix entry Hprefix Hin.
  assert (Hq : Explorer.qualify prefix name = (prefix ++ ".") ++ name).
  { unfold Explorer.qualify. destruct (String.eqb_spec prefix "") as [-> | _];
      [contradiction | cbn [negb]; symmetry; apply append_assoc]. }
  assert (Hown : forall e,
             e = Explorer.mkFlatField (Explorer.qualify prefix name) type
                   (if String.eqb mode "" then "NULLABLE" else mode) description ->
             startsWith (prefix ++ ".") e.(Explorer.f_name) = true
             /\ e.(Explorer.f_mode) <> "").
  { intros e ->. cbn [Explorer.f_name Explorer.f_mode]. split.
    - rewrite Hq. apply startsWith_refl_append.
    - destruct (String.eqb_spec mode "") as [_ | Hmode]; [discriminate | exact Hmode]. }
  cbn [Explorer.flattenField] in Hin.
  destruct fields as [[| child children] |].
  - destruct Hin as [<- | []]. apply Hown. reflexivity.
  - destruct (String.eqb type "RECORD").
    + destruct Hin as [<- | Hin]; [apply Hown; reflexivity |].
      apply in_flat_map in Hin as (g & Hg & Hin).
      rewrite Forall_forall in IH.
      assert (Hnonblank : Explorer.qualify prefix name <> "").
      { rewrite Hq. destruct prefix; [contradiction | discriminate]. }
      destruct (IH g Hg (Explorer.qualify prefix name) entry Hnonblank Hin)
        as [Hstart Hmode].
      split; [| exact Hmode].
      rewrite Hq in Hstart. rewrite (append_assoc (prefix ++ ".") name ".") in Hstart.
      exact (startsWith_shorter (prefix ++ ".") (name ++ ".") _ Hstart).
    + destruct Hin as [<- | []]. apply Hown. reflexivity.
  - destruct Hin as [<- | []]. apply Hown. reflexivity.
Qed.

Lemma flattenField_mode (f : Explorer.SchemaField) :
  forall prefix entry,
    In entry (Explorer.flattenField prefix f) -> entry.(Explorer.f_mode) <> "".
Proof.
  induction f as [name type mode description fields IH] using Explorer.SchemaField_nested_ind.
  intros prefix entry Hin.
  assert (Hown : forall e,
             e = Explorer.mkFlatField (Explorer.qualify prefix name) type
                   (if String.eqb mode "" then "NULLABLE" else mode) description ->
             e.(Explorer.f_mode) <> "").
  { intros e ->. cbn [Explorer.f_mode].
    destruct (String.eqb_spec mode "") as [_ | Hmode]; [discriminate | exact Hmode]. }
  cbn [Explorer.flattenField] in Hin.
  destruct fields as [[| child children] |].
  - destruct Hin as [<- | []]. apply Hown. reflexivity.
  - destruct (String.eqb type "RECORD").
    + destruct Hin as [<- | Hin]; [apply Hown; reflexivity |].
      apply in_flat_map in Hin as (g & Hg & Hin).
      rewrite Forall_forall in IH. exact (IH g Hg _ entry Hin).
    + destruct Hin as [<- | []]. apply Hown. reflexivity.
  - destruct Hin as [<- | []]. apply Hown. reflexivity.
Qed.

Lemma flattenField_nested (prefix : string) (f : Explorer.SchemaField) :
  Explorer.isNested f = true ->
  exists entry second rest,
    Explorer.flattenField prefix f = entry :: second :: rest
    /\ entry.(Explorer.f_name) = Explorer.qualify prefix (Explorer.nameOf f).
Proof.
  destruct f as [name type mode description [[| child children] |]];
    cbn [Explorer.flattenField Explorer.isNested Explorer.nameOf]; try discriminate.
  intros ->.
  destruct (flattenField_head (Explorer.qualify prefix name) child)
    as (second & more & Hchild & _).
  cbn [flat_map]. rewrite Hchild. cbn [app].
  eexists. eexists. eexists. split; reflexivity.
Qed.

(** X18. The flattened schema names every nested field by its path:
    under a non-empty prefix each entry's name begins with the prefix
    and a dot, so the fields nested in a record with a non-empty path
    all begin with that record's own entry name and a dot, and the
    record's entry comes before them.  No entry has an empty mode. *)
Theorem flattened_names_carry_the_path :
  (forall arr prefix entry,
      prefix <> "" ->
      In entry (Explorer.flattenFields arr prefix) ->
      startsWith (prefix ++ ".") entry.(Explorer.f_name) = true)
  /\ (forall arr prefix entry,
        In entry (Explorer.flattenFields arr prefix) -> entry.(Explorer.f_mode) <> "")
  /\ (forall f prefix,
        Explorer.isNested f = true ->
        Explorer.qualify prefix (Explorer.nameOf f) <> "" ->
        exists entry rest,
          Explorer.flattenFields [f] prefix = entry :: rest
          /\ entry.(Explorer.f_name) = Explorer.qualify prefix (Explorer.nameOf f)
          /\ rest <> []
          /\ Forall (fun e => startsWith (entry.(Explorer.f_name) ++ ".")
                                e.(Explorer.f_name) = true) rest).
Proof.
  split; [| split].
  - intros arr prefix entry Hprefix Hin. unfold Explorer.flattenFields in Hin.
    apply in_flat_map in Hin as (f & _ & Hin).
    exact (proj1 (flattenField_qualified f prefix entry Hprefix Hin)).
  - intros arr prefix entry Hin. unfold Explorer.flattenFields in Hin.
    apply in_flat_map in Hin as (f & _ & Hin).
    exact (flattenField_mode f prefix entry Hin).
  - intros f prefix Hnested Hname.
    unfold Explorer.flattenFields. cbn [flat_map]. rewrite app_nil_r.
    destruct f as [name type mode description [[| child children] |]];
      cbn [Explorer.isNested] in Hnested; try discriminate.
    cbn [Explorer.nameOf] in Hname. cbn [Explorer.flattenField Explorer.nameOf].
    rewrite Hnested.
    eexists. eexists. split; [reflexivity |]. cbn [Explorer.f_name].
    split; [reflexivity |]. split.
    + destruct (flattenField_head (Explorer.qualify prefix name) child)
        as (second & more & Hchild & _).
      cbn [flat_map]. rewrite Hchild. discriminate.
    + apply Forall_forall. intros e Hin.
      apply in_flat_map in Hin as (g & _ & Hin).
      exact (proj1 (flattenField_qualified g _ e Hname Hin)).
Qed.

(** X19. Flattening never drops a field: the result is at least as
    long as the field list, and exactly as long when no field of the
    list is a record with nested fields, in which case the entries are
    the fields themselves, in order, under their qualified names. *)
Theorem flattening_keeps_every_field :
  forall (arr : list Explorer.SchemaField) (prefix : string),
    (List.length arr <= List.length (Explorer.flattenFields arr prefix))%nat
    /\ (List.length (Explorer.flattenFields arr prefix) = List.length arr
        <-> forallb (fun f => negb (Explorer.isNested f)) arr = true)
    /\ (forallb (fun f => negb (Explorer.isNested f)) arr = true ->
        map Explorer.f_name (Explorer.flattenFields arr prefix)
        = map (fun f => Explorer.qualify prefix (Explorer.nameOf f)) arr).
Proof.
  intros arr prefix. unfold Explorer.flattenFields.
  induction arr as [| f arr (Hle & Hiff & Hflat)].
  - split; [apply le_n |]. split; [split; reflexivity | reflexivity].
  - cbn [flat_map forallb map List.length]. rewrite length_app.
    destruct (Explorer.isNested f) eqn:Hnested; cbn [negb andb].
    + destruct (flattenField_nested prefix f Hnested) as (entry & second & rest & -> & _).
      cbn [List.length]. split; [lia |]. split; [| discriminate].
      split; [lia | discriminate].
    + destruct (flattenField_head prefix f) as (entry & rest & Hhead & Hname & Hrest).
      rewrite Hhead, (Hrest Hnested). cbn [List.length app map].
      split; [lia |]. split.
      * rewrite <- Hiff. split; lia.
      * intros Hall. rewrite Hname, (Hflat Hall). reflexivity.
Qed.

(** ** Display names of the columns *)

Section CaseMap.

Variable f : ascii -> ascii.
Hypothesis f_whitespace : forall c, isStrWhiteSpace (f c) = isStrWhiteSpace c.
Hypothesis f_underscore : forall c, Ascii.eqb (f c) "_" = Ascii.eqb c "_".
Hypothesis f_space : forall c, Ascii.eqb (f c) " " = Ascii.eqb c " ".
Hypothesis f_capitalize :
  forall w, Headers.capitalize (mapString f w) = Headers.capitalize w.

Lemma f_fixes_space : f " "%char = " "%char.
Proof. apply Ascii.eqb_eq. rewrite f_space. reflexivity. Qed.

Lemma replaceAllChar_mapString (s : string) :
  replaceAllChar "_" " " (mapString f s) = mapString f (replaceAllChar "_" " " s).
Proof.
  induction s as [| c s IH]; [reflexivity |].
  cbn [mapString replaceAllChar]. rewrite f_underscore, IH.
  destruct (Ascii.eqb c "_"); cbn [append mapString]; [rewrite f_fixes_space |];
    reflexivity.
Qed.

Lemma collapseSpaces_mapString (inRun : bool) (s : string) :
  Headers.collapseSpaces inRun (mapString f s)
  = mapString f (Headers.collapseSpaces inRun s).
Proof.
  revert inRun. induction s as [| c s IH]; intros inRun; [reflexivity |].
  cbn [mapString Headers.collapseSpaces]. rewrite f_whitespace, !IH.
  destruct (isStrWhiteSpace c), inRun; cbn [mapString]; try rewrite f_fixes_space;
    reflexivity.
Qed.

Lemma trimStart_mapString (s : string) :
  trimStart (mapString f s) = mapString f (trimStart s).
Proof.
  unfold trimStart. induction s as [| c s IH]; [reflexivity |].
  cbn [mapString span]. rewrite f_whitespace.
  destruct (isStrWhiteSpace c); [| reflexivity].
  destruct (span isStrWhiteSpace (mapString f s)) as [a b].
  destruct (span isStrWhiteSpace s) as [a' b']. exact IH.
Qed.

Lemma revString_mapString (acc s : string) :
  revString (mapString f acc) (mapString f s) = mapString f (revString acc s).
Proof.
  revert acc. induction s as [| c s IH]; intros acc; [reflexivity |].
  cbn [mapString revString]. exact (IH (String c acc)).
Qed.

Lemma revString_mapString_whole (s : string) :
  revString "" (mapString f s) = mapString f (revString "" s).
Proof. exact (revString_mapString "" s). Qed.

Lemma trim_mapString (s : string) : trim (mapString f s) = mapString f (trim s).
Proof.
  unfold trim. rewrite trimStart_mapString, revString_mapString_whole.
  rewrite trimStart_mapString. apply revString_mapString_whole.
Qed.

Lemma splitOnSpace_mapString (word s : string) :
  Headers.splitOnSpace (mapString f word) (mapString f s)
  = map (mapString f) (Headers.splitOnSpace word s).
Proof.
  revert word. induction s as [| c s IH]; intros word.
  - cbn [mapString Headers.splitOnSpace map].
    rewrite revString_mapString_whole. reflexivity.
  - cbn [mapString Headers.splitOnSpace]. rewrite f_space.
    destruct (Ascii.eqb c " ").
    + cbn [map]. rewrite revString_mapString_whole. f_equal. exact (IH "").
    + exact (IH (String c word)).
Qed.

Lemma toTitleCaseFromSnake_mapString (s : string) :
  Headers.toTitleCaseFromSnake (mapString f s) = Headers.toTitleCaseFromSnake s.
Proof.
  unfold Headers.toTitleCaseFromSnake.
  rewrite replaceAllChar_mapString, collapseSpaces_mapString, trim_mapString.
  rewrite (splitOnSpace_mapString "" _ : Headers.splitOnSpace "" (mapString f _) = _), map_map.
  f_equal. apply map_ext. exact f_capitalize.
Qed.

End CaseMap.

Lemma upperChar_idempotent (c : ascii) : upperChar (upperChar c) = upperChar c.
Proof. destruct c as [[|] [|] [|] [|] [|] [|] [|] [|]]; reflexivity. Qed.

Lemma capitalize_toUpperCase (w : string) :
  Headers.capitalize (toUpperCase w) = Headers.capitalize w.
Proof.
  destruct w as [| c w]; [reflexivity |].
  unfold toUpperCase. cbn [mapString Headers.capitalize].
  rewrite upperChar_idempotent. f_equal. apply toLowerCase_toUpperCase.
Qed.

Lemma lowerChar_idempotent (c : ascii) : lowerChar (lowerChar c) = lowerChar c.
Proof. destruct c as [[|] [|] [|] [|] [|] [|] [|] [|]]; reflexivity. Qed.

Lemma toLowerCase_idempotent (s : string) : toLowerCase (toLowerCase s) = toLowerCase s.
Proof.
  unfold toLowerCase. induction s as [| c s IH]; cbn [mapString]; [reflexivity |].
  rewrite lowerChar_idempotent. f_equal. exact IH.
Qed.

Lemma capitalize_toLowerCase (w : string) :
  Headers.capitalize (toLowerCase w) = Headers.capitalize w.
Proof.
  destruct w as [| c w]; [reflexivity |].
  change (toLowerCase (String c w)) with (String (lowerChar c) (toLowerCase w)).
  cbn [Headers.capitalize].
  rewrite upperChar_lowerChar, toLowerCase_idempotent. reflexivity.
Qed.

Lemma toUpperCase_idempotent (s : string) : toUpperCase (toUpperCase s) = toUpperCase s.
Proof.
  unfold toUpperCase. induction s as [| c s IH]; cbn [mapString]; [reflexivity |].
  rewrite upperChar_idempotent. f_equal. exact IH.
Qed.

(** No member of [Object.prototype] has an upper-case name. *)
Lemma upper_case_key_not_inherited (key : string) :
  inObjectPrototype (toUpperCase key) = false.
Proof.
  unfold inObjectPrototype, includes.
  destruct (existsb (String.eqb (toUpperCase key)) objectPrototypeNames) eqn:E;
    [| reflexivity].
  exfalso. apply existsb_exists in E as (n & Hin & Heq).
  apply String.eqb_eq in Heq.
  assert (Hfixed : toUpperCase n = n)
    by (rewrite <- Heq; apply toUpperCase_idempotent).
  unfold objectPrototypeNames in Hin. cbn [In] in Hin.
  repeat (destruct Hin as [<- | Hin]; [discriminate Hfixed |]).
  exact Hin.
Qed.

(** X20. The display name of a column of ASCII name does not depend on
    the case of the name: the title-cased text of a key, of its
    upper-case form and of its lower-case form are the same, and the
    header of the upper-case form shows that text.  The header of the
    key itself shows it too unless the key names a member of
    [Object.prototype]. *)
Theorem display_name_ignores_case :
  forall (key : string),
    isAscii key = true ->
    Headers.toTitleCaseFromSnake (toUpperCase key) = Headers.toTitleCaseFromSnake key
    /\ Headers.toTitleCaseFromSnake (toLowerCase key) = Headers.toTitleCaseFromSnake key
    /\ map Headers.displayName (Headers.formatTableHeaders [toUpperCase key])
       = [Headers.Text (Headers.toTitleCaseFromSnake key)]
    /\ (inObjectPrototype key = false ->
        map Headers.displayName (Headers.formatTableHeaders [key])
        = [Headers.Text (Headers.toTitleCaseFromSnake key)]).
Proof.
  intros key _.
  assert (Hupper : Headers.toTitleCaseFromSnake (toUpperCase key)
                   = Headers.toTitleCaseFromSnake key).
  { apply (toTitleCaseFromSnake_mapString upperChar).
    - intros c. destruct c as [[|] [|] [|] [|] [|] [|] [|] [|]]; reflexivity.
    - intros c. destruct c as [[|] [|] [|] [|] [|] [|] [|] [|]]; reflexivity.
    - intros c. destruct c as [[|] [|] [|] [|] [|] [|] [|] [|]]; reflexivity.
    - exact capitalize_toUpperCase. }
  assert (Hlower : Headers.toTitleCaseFromSnake (toLowerCase key)
                   = Headers.toTitleCaseFromSnake key).
  { apply (toTitleCaseFromSnake_mapString lowerChar).
    - intros c. destruct c as [[|] [|] [|] [|] [|] [|] [|] [|]]; reflexivity.
    - intros c. destruct c as [[|] [|] [|] [|] [|] [|] [|] [|]]; reflexivity.
    - intros c. destruct c as [[|] [|] [|] [|] [|] [|] [|] [|]]; reflexivity.
    - exact capitalize_toLowerCase. }
  split; [exact Hupper |]. split; [exact Hlower |].
  unfold Headers.formatTableHeaders, Headers.formatTableHeadersWith.
  cbn [map Headers.lookup Headers.defaultOverrides Headers.displayName].
  split.
  - rewrite upper_case_key_not_inherited, Hupper. reflexivity.
  - intros Hown. rewrite Hown. reflexivity.
Qed.

Lemma display_name_ignores_case_witness :
  Headers.toTitleCaseFromSnake "CREATED_AT" = Headers.toTitleCaseFromSnake "Created_at"
  /\ map Headers.displayName (Headers.formatTableHeaders ["CONSTRUCTOR"])
     = [Headers.Text "Constructor"].
Proof.
  destruct (display_name_ignores_case "Created_at" eq_refl) as (Hupper & _ & _ & _).
  destruct (display_name_ignores_case "constructor" eq_refl) as (_ & _ & Hheader & _).
  split; [exact Hupper | exact Hheader].
Defined.

Lemma isWordChar_facts (c : ascii) :
  Words.isWordChar c = true ->
  isStrWhiteSpace c = false /\ Ascii.eqb c "_" = false /\ Ascii.eqb c " " = false.
Proof.
  unfold Words.isWordChar. intros H. apply andb_true_iff in H as [Hw Hu].
  apply andb_true_iff in Hw as [_ Hw].
  apply negb_true_iff in Hw. apply negb_true_iff in Hu.
  split; [exact Hw |]. split; [exact Hu |].
  destruct (Ascii.eqb_spec c " ") as [-> | _]; [discriminate Hw | reflexivity].
Qed.

Lemma isWord_cons (w : string) :
  Words.isWord w = true ->
  exists c r, w = String c r /\ Words.isWordChar c = true
              /\ allChars Words.isWordChar r = true.
Proof.
  unfold Words.isWord. destruct w as [| c r]; [discriminate |].
  cbn [String.eqb negb andb allChars]. intros H.
  apply andb_true_iff in H as [Hc Hr]. exists c, r.
  split; [reflexivity | split; assumption].
Qed.

Lemma isWord_chars (w : string) :
  Words.isWord w = true -> allChars Words.isWordChar w = true.
Proof. unfold Words.isWord. intros H. apply andb_true_iff in H as [_ H]. exact H. Qed.

Lemma replaceAllChar_word (w r : string) :
  allChars Words.isWordChar w = true ->
  replaceAllChar "_" " " (w ++ r) = w ++ replaceAllChar "_" " " r.
Proof.
  induction w as [| c w IH]; intros H; [reflexivity |].
  cbn [allChars] in H. apply andb_true_iff in H as [Hc Hw].
  destruct (isWordChar_facts c Hc) as (_ & Hu & _).
  cbn [append replaceAllChar]. rewrite Hu, (IH Hw). reflexivity.
Qed.

Lemma collapseSpaces_chars (w r : string) :
  allChars Words.isWordChar w = true ->
  Headers.collapseSpaces false (w ++ r) = w ++ Headers.collapseSpaces false r.
Proof.
  induction w as [| c w IH]; intros H; [reflexivity |].
  cbn [allChars] in H. apply andb_true_iff in H as [Hc Hw].
  destruct (isWordChar_facts c Hc) as (Hws & _ & _).
  cbn [append Headers.collapseSpaces]. rewrite Hws, (IH Hw). reflexivity.
Qed.

Lemma collapseSpaces_word (inRun : bool) (w r : string) :
  Words.isWord w = true ->
  Headers.collapseSpaces inRun (w ++ r) = w ++ Headers.collapseSpaces false r.
Proof.
  intros H. destruct (isWord_cons w H) as (c & w' & -> & Hc & Hw').
  destruct (isWordChar_facts c Hc) as (Hws & _ & _).
  cbn [append Headers.collapseSpaces]. rewrite Hws.
  rewrite (collapseSpaces_chars w' r Hw'). reflexivity.
Qed.

Lemma join_cons2 (sep p q : string) (rest : list string) :
  join sep (p :: q :: rest) = p ++ sep ++ join sep (q :: rest).
Proof. reflexivity. Qed.

Lemma snake_to_spaced (ws : list string) :
  forallb Words.isWord ws = true ->
  replaceAllChar "_" " " (join "_" ws) = join " " ws.
Proof.
  induction ws as [| w ws IH]; intros H; [reflexivity |].
  cbn [forallb] in H. apply andb_true_iff in H as [Hw Hws].
  destruct ws as [| w2 ws].
  - cbn [join]. rewrite <- (append_nil_r w) at 1.
    rewrite (replaceAllChar_word w "" (isWord_chars w Hw)). apply append_nil_r.
  - rewrite !join_cons2.
    rewrite (replaceAllChar_word w _ (isWord_chars w Hw)).
    change (replaceAllChar "_" " " ("_" ++ join "_" (w2 :: ws)))
      with (" " ++ replaceAllChar "_" " " (join "_" (w2 :: ws))).
    rewrite (IH Hws). reflexivity.
Qed.

Lemma spaced_is_collapsed (inRun : bool) (ws : list string) :
  ws <> [] ->
  forallb Words.isWord ws = true ->
  Headers.collapseSpaces inRun (join " " ws) = join " " ws.
Proof.
  revert inRun. induction ws as [| w ws IH]; intros inRun Hne H; [contradiction |].
  cbn [forallb] in H. apply andb_true_iff in H as [Hw Hws].
  destruct ws as [| w2 ws].
  - cbn [join]. rewrite <- (append_nil_r w) at 1.
    rewrite (collapseSpaces_word inRun w "" Hw). apply append_nil_r.
  - rewrite !join_cons2. rewrite (collapseSpaces_word inRun w _ Hw).
    change (Headers.collapseSpaces false (" " ++ join " " (w2 :: ws)))
      with (String " " (Headers.collapseSpaces true (join " " (w2 :: ws)))).
    rewrite (IH true ltac:(discriminate) Hws). reflexivity.
Qed.

Lemma revString_append (acc a b : string) :
  revString acc (a ++ b) = revString (revString acc a) b.
Proof.
  revert acc. induction a as [| c a IH]; intros acc; [reflexivity |].
  cbn [append revString]. apply IH.
Qed.

Lemma revString_revString (a b s : string) :
  revString b (revString a s) = revString (s ++ b) a.
Proof.
  revert a b. induction s as [| c s IH]; intros a b; [reflexivity |].
  cbn [revString]. rewrite IH. reflexivity.
Qed.

Lemma revString_involutive (s : string) : revString "" (revString "" s) = s.
Proof. rewrite revString_revString. cbn [revString]. apply append_nil_r. Qed.

Lemma trimStart_word_char (c : ascii) (r : string) :
  isStrWhiteSpace c = false -> trimStart (String c r) = String c r.
Proof. intros H. unfold trimStart. cbn [span]. rewrite H. reflexivity. Qed.

Lemma word_last_char (w : string) :
  Words.isWord w = true ->
  exists u c, w = u ++ String c "" /\ isStrWhiteSpace c = false.
Proof.
  intros H. destruct (isWord_cons w H) as (c & r & -> & Hc & Hr). clear H.
  revert c Hc. induction r as [| d r IH]; intros c Hc.
  - exists "", c. split; [reflexivity | exact (proj1 (isWordChar_facts c Hc))].
  - cbn [allChars] in Hr. apply andb_true_iff in Hr as [Hd Hr].
    destruct (IH Hr d Hd) as (u & e & Heq & He).
    exists (String c u), e. split; [cbn [append]; rewrite Heq; reflexivity | exact He].
Qed.

Lemma spaced_last_char (ws : list string) :
  ws <> [] ->
  forallb Words.isWord ws = true ->
  exists u c, join " " ws = u ++ String c "" /\ isStrWhiteSpace c = false.
Proof.
  induction ws as [| w ws IH]; intros Hne H; [contradiction |].
  cbn [forallb] in H. apply andb_true_iff in H as [Hw Hws].
  destruct ws as [| w2 ws].
  - cbn [join]. exact (word_last_char w Hw).
  - destruct (IH ltac:(discriminate) Hws) as (u & c & Heq & Hc).
    exists (w ++ " " ++ u), c. split; [| exact Hc].
    rewrite join_cons2, Heq, !append_assoc. reflexivity.
Qed.

Lemma spaced_is_trimmed (ws : list string) :
  forallb Words.isWord ws = true -> trim (join " " ws) = join " " ws.
Proof.
  intros H. destruct ws as [| w ws]; [reflexivity |].
  destruct (spaced_last_char (w :: ws) ltac:(discriminate) H) as (u & c & Heq & Hc).
  assert (Hfirst : trimStart (join " " (w :: ws)) = join " " (w :: ws)).
  { cbn [forallb] in H. apply andb_true_iff in H as [Hw _].
    destruct (isWord_cons w Hw) as (d & r & -> & Hd & _).
    destruct (isWordChar_facts d Hd) as (Hws & _ & _).
    destruct ws as [| w2 ws]; [exact (trimStart_word_char d r Hws) |].
    rewrite join_cons2. exact (trimStart_word_char d _ Hws). }
  unfold trim. rewrite Hfirst.
  assert (Hrev : revString "" (join " " (w :: ws)) = String c (revString "" u)).
  { rewrite Heq, revString_append. reflexivity. }
  rewrite Hrev, (trimStart_word_char c _ Hc), <- Hrev.
  apply revString_involutive.
Qed.

Lemma splitOnSpace_chars (word w r : string) :
  allChars Words.isWordChar w = true ->
  Headers.splitOnSpace word (w ++ r) = Headers.splitOnSpace (revString word w) r.
Proof.
  revert word. induction w as [| c w IH]; intros word H; [reflexivity |].
  cbn [allChars] in H. apply andb_true_iff in H as [Hc Hw].
  destruct (isWordChar_facts c Hc) as (_ & _ & Hsp).
  cbn [append Headers.splitOnSpace revString]. rewrite Hsp. exact (IH _ Hw).
Qed.

Lemma spaced_splits_into_words (ws : list string) :
  ws <> [] ->
  forallb Words.isWord ws = true ->
  Headers.splitOnSpace "" (join " " ws) = ws.
Proof.
  induction ws as [| w ws IH]; intros Hne H; [contradiction |].
  cbn [forallb] in H. apply andb_true_iff in H as [Hw Hws].
  destruct ws as [| w2 ws].
  - cbn [join]. rewrite <- (append_nil_r w) at 1.
    rewrite (splitOnSpace_chars "" w "" (isWord_chars w Hw)).
    cbn [Headers.splitOnSpace]. rewrite revString_involutive. reflexivity.
  - rewrite join_cons2, (splitOnSpace_chars "" w _ (isWord_chars w Hw)).
    change (Headers.splitOnSpace (revString "" w) (" " ++ join " " (w2 :: ws)))
      with (revString "" (revString "" w)
              :: Headers.splitOnSpace "" (join " " (w2 :: ws))).
    rewrite revString_involutive, (IH ltac:(discriminate) Hws). reflexivity.
Qed.

(** X21. The title-cased text of a snake-case key, that is of words
    of ASCII characters joined by single underscores, is its words, each
    with its first character in upper case and the others in lower
    case, joined by single spaces; its header shows that text unless
    the key names a member of [Object.prototype], which the header then
    shows in place of a text. *)
Theorem snake_case_key_display_name :
  forall (ws : list string),
    forallb Words.isWord ws = true ->
    Headers.toTitleCaseFromSnake (join "_" ws) = join " " (map Headers.capitalize ws)
    /\ map Headers.displayName (Headers.formatTableHeaders [join "_" ws])
       = [if inObjectPrototype (join "_" ws) then Headers.Member (join "_" ws)
          else Headers.Text (join " " (map Headers.capitalize ws))].
Proof.
  intros ws H.
  assert (Htitle : Headers.toTitleCaseFromSnake (join "_" ws)
                   = join " " (map Headers.capitalize ws)).
  { unfold Headers.toTitleCaseFromSnake. rewrite (snake_to_spaced ws H).
    destruct ws as [| w ws]; [reflexivity |].
    rewrite (spaced_is_collapsed false (w :: ws) ltac:(discriminate) H).
    rewrite (spaced_is_trimmed (w :: ws) H).
    rewrite (spaced_splits_into_words (w :: ws) ltac:(discriminate) H). reflexivity. }
  split; [exact Htitle |].
  unfold Headers.formatTableHeaders, Headers.formatTableHeadersWith.
  cbn [map Headers.lookup Headers.defaultOverrides Headers.displayName].
  rewrite Htitle. reflexivity.
Qed.

Lemma snake_case_key_display_name_witness :
  Headers.toTitleCaseFromSnake "owner_PROJECT_id" = "Owner Project Id"
  /\ map Headers.displayName (Headers.formatTableHeaders ["owner_PROJECT_id"])
     = [Headers.Text "Owner Project Id"]
  /\ map Headers.displayName (Headers.formatTableHeaders ["constructor"])
     = [Headers.Member "constructor"].
Proof.
  destruct (snake_case_key_display_name ["owner"; "PROJECT"; "id"] eq_refl)
    as [Htitle Hheader].
  split; [exact Htitle |]. split; [exact Hheader |].
  exact (proj2 (snake_case_key_display_name ["constructor"] eq_refl)).
Defined.
